(** * alfacheck: the session-pooled extraction pipeline

    A shallow embedding of the core of the repository:
    - [session_manager.py]: the registry of login sessions, its lazy
      eviction, reuse, invalidation and fresh login;
    - [api_client.py]: [APIClient.login] and [APIClient.make_api_request];
    - [models.py]: [AccountData] and [ProcessingResult];
    - [scraper.py]: [extract_api_data], [extract_html_data],
      [extract_manage_services_data] and [process_account];
    - [telegram_bot.py]: [process_batch_concurrent] and
      [process_accounts_batch].

    Python values are kept as the code has them: text as [string] (one
    character per code point below 256), integers as [Z], floats as IEEE
    binary64 values of [SpecFloat], dictionaries as association lists in
    insertion order.  What the outside world decides (the wall clock, the
    portal's HTTP answers, the scraped HTML elements) enters as an explicit
    input. *)

From Stdlib Require Import ZArith List String Ascii Bool Lia.
From Stdlib Require Import DecimalString.
From Stdlib Require Import Floats.SpecFloat.
From Stdlib Require Import Sorting.Permutation Sorting.Sorted.
Import ListNotations.

Local Open Scope string_scope.
Local Open Scope Z_scope.

Set Warnings "-register-all".

(** ** Text helpers shared by all modules *)

Module Text.

(** [needle in hay] of Python: [needle] occurs somewhere in [hay]. *)
Fixpoint starts_with (prefix s : string) : bool :=
  match prefix, s with
  | EmptyString, _ => true
  | String a p, String b t => Ascii.eqb a b && starts_with p t
  | String _ _, EmptyString => false
  end.

Fixpoint contains (needle hay : string) : bool :=
  starts_with needle hay ||
  match hay with
  | EmptyString => false
  | String _ t => contains needle t
  end.

(** [str(n)] for a Python [int]. *)
Definition str_of_Z (n : Z) : string := NilZero.string_of_int (Z.to_int n).

(** [sep.join(parts)]. *)
Fixpoint join (sep : string) (parts : list string) : string :=
  match parts with
  | [] => EmptyString
  | [p] => p
  | p :: rest => p ++ sep ++ join sep rest
  end.

(** Truth value of a Python [str]: non-empty. *)
Definition nonempty (s : string) : bool :=
  match s with EmptyString => false | _ => true end.

End Text.

(** ** HTTP exchanges as the client code sees them *)

Module Http.

(** The part of a [requests.Response] that the repository reads. *)
Record Response := {
  status_code : Z;
  reason : string;
  url : string;
  content_type : option string;   (* headers.get('Content-Type') *)
  text : string
}.

(** What one [session.get]/[session.post] does: it returns a response or
    raises.  [requests.exceptions.Timeout] is a [RequestException]; the
    two are kept apart because [make_api_request] handles them apart. *)
Inductive outcome :=
| Responded (r : Response)
| RaisedTimeout (msg : string)
| RaisedRequestException (msg : string)
| RaisedOther (msg : string).

(** [Response.raise_for_status()]: [Some msg] when it raises [HTTPError]
    (a [RequestException]) with message [msg]. *)
Definition raise_for_status (r : Response) : option string :=
  if (400 <=? status_code r) && (status_code r <? 500) then
    Some (Text.str_of_Z (status_code r) ++ " Client Error: " ++ reason r
          ++ " for url: " ++ url r)
  else if (500 <=? status_code r) && (status_code r <? 600) then
    Some (Text.str_of_Z (status_code r) ++ " Server Error: " ++ reason r
          ++ " for url: " ++ url r)
  else None.

End Http.

(** ** config.py: the portal's addresses *)

Module Config.

Definition BASE_URL : string := "https://www.alfa.com.lb".
Definition ACCOUNT : string := BASE_URL ++ "/en/account".
Definition EXPIRY : string := BASE_URL ++ "/en/account/getexpirydate".
Definition LAST_RECHARGE : string := BASE_URL ++ "/en/account/getlastrecharge".
Definition SERVICES : string :=
  BASE_URL ++ "/en/account/manage-services/getmyservices".

(** [APIEndpoints.get_consumption_url(timestamp)]. *)
Definition get_consumption_url (timestamp : Z) : string :=
  BASE_URL ++ "/en/account/getconsumption?_=" ++ Text.str_of_Z timestamp.

End Config.

(** ** api_client.py: [APIClient.login] *)

Module Login.

Import Http.

(** The three exchanges one login performs, in order: the login page, the
    credentials form post (redirects followed) and the dashboard check. *)
Record exchange := {
  login_page : outcome;
  login_post : outcome;
  dashboard_page : outcome
}.

(** The two [except] clauses of [login]. *)
Definition request_failed (msg : string) : bool * option string :=
  (false, Some ("Login request failed: " ++ msg)).

Definition unexpected (msg : string) : bool * option string :=
  (false, Some ("Unexpected error during login: " ++ msg)).

(** One request of [login]: the response it goes on with, or what
    [login] returns when the request raises or (where [login] calls
    [raise_for_status]) its status is an error. *)
Definition attempt (o : outcome) (check_status : bool)
  : Response + bool * option string :=
  match o with
  | Responded r =>
      match (if check_status then raise_for_status r else None) with
      | Some msg => inr (request_failed msg)
      | None => inl r
      end
  | RaisedTimeout msg | RaisedRequestException msg =>
      inr (request_failed msg)
  | RaisedOther msg => inr (unexpected msg)
  end.

(** [APIClient.login(username, password)]: success flag and error text. *)
Definition login (x : exchange) (username password : string)
  : bool * option string :=
  match attempt (login_page x) true with
  | inr failure => failure
  | inl _ =>
    match attempt (login_post x) true with
    | inr failure => failure
    | inl response =>
        if Text.contains Config.ACCOUNT (url response)
           || Text.contains "Dashboard" (text response)
           || Text.contains username (text response)
        then
          match attempt (dashboard_page x) false with
          | inr failure => failure
          | inl dash_resp =>
              if Text.contains username (text dash_resp)
                 || Text.contains "Current Balance" (text dash_resp)
              then (true, None)
              else (false, Some "Dashboard verification failed")
          end
        else if Text.contains "Invalid username or password" (text response)
        then (false, Some "Invalid credentials")
        else (false, Some ("Login failed. Final URL: " ++ url response))
    end
  end.

End Login.

(** ** session_manager.py

    Every public method holds [self._lock] from start to end, so a method
    is one step on the manager's state.  [datetime.now()] is read from a
    clock that is part of the world; the login of a new client is decided
    by the portal. *)

Module Session.

(** [datetime] values are counted in microseconds, the resolution of
    Python's [datetime]; [timedelta(minutes=m)] is [m] minutes of them. *)
Definition timedelta_minutes (m : Z) : Z := m * 60000000.

(** [SessionInfo]; [client] is the identity of the [APIClient] object. *)
Record SessionInfo := {
  client : nat;
  username : string;
  password : string;
  login_time : Z;
  last_used : Z;
  is_valid : bool
}.

(** [s.last_used = t] and [s.is_valid = b]. *)
Definition set_last_used (t : Z) (s : SessionInfo) : SessionInfo :=
  {| client := client s; username := username s; password := password s;
     login_time := login_time s; last_used := t; is_valid := is_valid s |}.

Definition set_is_valid (b : bool) (s : SessionInfo) : SessionInfo :=
  {| client := client s; username := username s; password := password s;
     login_time := login_time s; last_used := last_used s; is_valid := b |}.

(** A Python [dict] keyed by user name, in insertion order. *)
Definition registry := list (string * SessionInfo).

Fixpoint lookup (u : string) (d : registry) : option SessionInfo :=
  match d with
  | [] => None
  | (k, v) :: rest => if String.eqb k u then Some v else lookup u rest
  end.

(** [d[u] = v]: an existing key keeps its place, a new one goes last. *)
Fixpoint store (u : string) (v : SessionInfo) (d : registry) : registry :=
  match d with
  | [] => [(u, v)]
  | (k, w) :: rest =>
      if String.eqb k u then (k, v) :: rest else (k, w) :: store u v rest
  end.

(** [del d[u]]. *)
Fixpoint remove (u : string) (d : registry) : registry :=
  match d with
  | [] => []
  | (k, w) :: rest =>
      if String.eqb k u then rest else (k, w) :: remove u rest
  end.

(** Keys of a [dict] are pairwise distinct. *)
Definition dict_wf (d : registry) : Prop := NoDup (map fst d).

(** One login attempt as the manager performs it. *)
Record login_event := {
  ev_client : nat;
  ev_username : string;
  ev_password : string;
  ev_success : bool
}.

(** The [SessionManager] object together with what its methods touch
    outside it: how often the wall clock has been read, how many
    [APIClient] objects exist, and the login attempts made so far
    (latest first). *)
Record SessionManager := {
  _sessions : registry;
  _max_age_minutes : Z;
  _max_idle_minutes : Z;
  ticks : nat;
  clients : nat;
  logins : list login_event
}.

(** [SessionManager(max_age_minutes, max_idle_minutes)]. *)
Definition __init__ (max_age_minutes max_idle_minutes : Z) : SessionManager :=
  {| _sessions := []; _max_age_minutes := max_age_minutes;
     _max_idle_minutes := max_idle_minutes;
     ticks := 0; clients := 0; logins := [] |}.

(** The module-level [session_manager = SessionManager()]. *)
Definition session_manager : SessionManager := __init__ 30 10.

Definition with_sessions (d : registry) (m : SessionManager) : SessionManager :=
  {| _sessions := d; _max_age_minutes := _max_age_minutes m;
     _max_idle_minutes := _max_idle_minutes m;
     ticks := ticks m; clients := clients m; logins := logins m |}.

Definition with_ticks (n : nat) (m : SessionManager) : SessionManager :=
  {| _sessions := _sessions m; _max_age_minutes := _max_age_minutes m;
     _max_idle_minutes := _max_idle_minutes m;
     ticks := n; clients := clients m; logins := logins m |}.

Definition with_clients (n : nat) (m : SessionManager) : SessionManager :=
  {| _sessions := _sessions m; _max_age_minutes := _max_age_minutes m;
     _max_idle_minutes := _max_idle_minutes m;
     ticks := ticks m; clients := n; logins := logins m |}.

Definition with_logins (l : list login_event) (m : SessionManager)
  : SessionManager :=
  {| _sessions := _sessions m; _max_age_minutes := _max_age_minutes m;
     _max_idle_minutes := _max_idle_minutes m;
     ticks := ticks m; clients := clients m; logins := l |}.

(** A method either returns or raises [Exception(msg)]; the object keeps
    the changes made before the raise. *)
Inductive result (A : Type) :=
| Returned (a : A)
| Raised (msg : string).
Arguments Returned {A} a.
Arguments Raised {A} msg.

Definition M (A : Type) : Type := SessionManager -> result A * SessionManager.

Definition ret {A} (a : A) : M A := fun m => (Returned a, m).
Definition raise {A} (msg : string) : M A := fun m => (Raised msg, m).
Definition bind {A B} (c : M A) (k : A -> M B) : M B :=
  fun m => match c m with
           | (Returned a, m') => k a m'
           | (Raised msg, m') => (Raised msg, m')
           end.

Declare Scope session_scope.
Delimit Scope session_scope with session.
Notation "x <- c ;; k" := (bind c (fun x => k))
  (at level 100, c at next level, right associativity) : session_scope.
Notation "c ;;; k" := (bind c (fun _ => k))
  (at level 100, right associativity) : session_scope.
Local Open Scope session_scope.

Definition get_sessions : M registry := fun m => (Returned (_sessions m), m).
Definition put_sessions (d : registry) : M unit :=
  fun m => (Returned tt, with_sessions d m).
Definition max_age : M Z := fun m => (Returned (_max_age_minutes m), m).
Definition max_idle : M Z := fun m => (Returned (_max_idle_minutes m), m).

Section World.

(** [clock k] is what the [k]-th call of [datetime.now()] returns; the
    wall clock need not be monotone. *)
Variable clock : nat -> Z.

(** [portal c u p] is what the portal answers to the login that the
    [c]-th [APIClient] performs for [u] with [p]. *)
Variable portal : nat -> string -> string -> Login.exchange.

Definition datetime_now : M Z :=
  fun m => (Returned (clock (ticks m)), with_ticks (S (ticks m)) m).

(** [SessionInfo.is_expired(max_age_minutes)]. *)
Definition is_expired (s : SessionInfo) (max_age_minutes : Z) : M bool :=
  now <- datetime_now ;;
  ret (timedelta_minutes max_age_minutes <? now - login_time s).

(** [SessionInfo.is_idle(max_idle_minutes)]. *)
Definition is_idle (s : SessionInfo) (max_idle_minutes : Z) : M bool :=
  now <- datetime_now ;;
  ret (timedelta_minutes max_idle_minutes <? now - last_used s).

(** [APIClient()]: a new object, named by its creation rank. *)
Definition new_APIClient : M nat :=
  fun m => (Returned (clients m), with_clients (S (clients m)) m).

(** [client.login(username, password)], recorded in [logins]. *)
Definition client_login (c : nat) (u p : string) : M (bool * option string) :=
  fun m =>
    let r := Login.login (portal c u p) u p in
    (Returned r,
     with_logins ({| ev_client := c; ev_username := u; ev_password := p;
                     ev_success := fst r |} :: logins m) m).

(** The condition of the first loop of [_cleanup_sessions]; Python's [or]
    evaluates [is_idle] only when [is_expired] is false. *)
Definition stale (s : SessionInfo) : M bool :=
  age <- max_age ;;
  expired <- is_expired s age ;;
  if expired then ret true
  else
    idle_bound <- max_idle ;;
    idle <- is_idle s idle_bound ;;
    if idle then ret true else ret (negb (is_valid s)).

(** The first loop: the user names to remove, in iteration order. *)
Fixpoint collect_stale (items : registry) : M (list string) :=
  match items with
  | [] => ret []
  | (u, s) :: rest =>
      b <- stale s ;;
      to_remove <- collect_stale rest ;;
      ret (if b then u :: to_remove else to_remove)
  end.

(** The second loop: [del self._sessions[username]] for each. *)
Fixpoint remove_all (to_remove : list string) : M unit :=
  match to_remove with
  | [] => ret tt
  | u :: rest =>
      d <- get_sessions ;;
      put_sessions (remove u d) ;;;
      remove_all rest
  end.

(** [SessionManager._cleanup_sessions()]. *)
Definition _cleanup_sessions : M unit :=
  current_time <- datetime_now ;;
  d <- get_sessions ;;
  to_remove <- collect_stale d ;;
  remove_all to_remove.

(** [str(error)] inside the f-string of the raise. *)
Definition str_of_error (error : option string) : string :=
  match error with Some e => e | None => "None" end.

(** [SessionManager.get_or_create_session(username, password)]: the client
    and whether the session is new. *)
Definition get_or_create_session (u p : string) : M (nat * bool) :=
  _cleanup_sessions ;;;
  d <- get_sessions ;;
  reused <-
    match lookup u d with
    | Some session_info =>
        age <- max_age ;;
        expired <- is_expired session_info age ;;
        if negb expired && is_valid session_info
           && String.eqb (password session_info) p
        then
          now <- datetime_now ;;
          d' <- get_sessions ;;
          put_sessions (store u (set_last_used now session_info) d') ;;;
          logged_age <- datetime_now ;;
          ret (Some (client session_info))
        else
          d' <- get_sessions ;;
          put_sessions (remove u d') ;;;
          ret None
    | None => ret None
    end ;;
  match reused with
  | Some c => ret (c, false)
  | None =>
      c <- new_APIClient ;;
      r <- client_login c u p ;;
      let '(success, error) := r in
      if success then
        t_login <- datetime_now ;;
        t_used <- datetime_now ;;
        d' <- get_sessions ;;
        put_sessions
          (store u {| client := c; username := u; password := p;
                      login_time := t_login; last_used := t_used;
                      is_valid := true |} d') ;;;
        ret (c, true)
      else
        raise ("Login failed: " ++ str_of_error error)
  end.

(** [SessionManager.invalidate_session(username)]. *)
Definition invalidate_session (u : string) : M unit :=
  d <- get_sessions ;;
  match lookup u d with
  | Some s =>
      put_sessions (store u (set_is_valid false s) d)
  | None => ret tt
  end.

(** [SessionManager.remove_session(username)]. *)
Definition remove_session (u : string) : M unit :=
  d <- get_sessions ;;
  match lookup u d with
  | Some _ => put_sessions (remove u d)
  | None => ret tt
  end.

(** [SessionManager.clear_all_sessions()]. *)
Definition clear_all_sessions : M unit := put_sessions [].

(** *** Names for the parts of the methods, used to state their
    properties *)

(** Several deletions in a row. *)
Definition remove_list (l : list string) (d : registry) : registry :=
  fold_left (fun acc u => remove u acc) l d.

(** The session [s] is neither expired nor idle at clock reading [k]. *)
Definition in_time (m : SessionManager) (s : SessionInfo) (k : nat) : Prop :=
  clock k - login_time s <= timedelta_minutes (_max_age_minutes m)
  /\ clock k - last_used s <= timedelta_minutes (_max_idle_minutes m).

(** The login attempt that the next new client makes for [u] with [p]. *)
Definition next_login (u p : string) (m : SessionManager)
  : bool * option string :=
  Login.login (portal (clients m) u p) u p.

Definition next_event (u p : string) (m : SessionManager) : login_event :=
  {| ev_client := clients m; ev_username := u; ev_password := p;
     ev_success := fst (next_login u p m) |}.

(** The tail of [get_or_create_session]: "Create new session". *)
Definition create_new (u p : string) : M (nat * bool) :=
  c <- new_APIClient ;;
  r <- client_login c u p ;;
  let '(success, error) := r in
  if success then
    t_login <- datetime_now ;;
    t_used <- datetime_now ;;
    d' <- get_sessions ;;
    put_sessions
      (store u {| client := c; username := u; password := p;
                  login_time := t_login; last_used := t_used;
                  is_valid := true |} d') ;;;
    ret (c, true)
  else
    raise ("Login failed: " ++ str_of_error error).

(** The part of [get_or_create_session] that follows the sweep. *)
Definition after_cleanup (u p : string) : M (nat * bool) :=
  d <- get_sessions ;;
  reused <-
    match lookup u d with
    | Some session_info =>
        age <- max_age ;;
        expired <- is_expired session_info age ;;
        if negb expired && is_valid session_info
           && String.eqb (password session_info) p
        then
          now <- datetime_now ;;
          d' <- get_sessions ;;
          put_sessions (store u (set_last_used now session_info) d') ;;;
          logged_age <- datetime_now ;;
          ret (Some (client session_info))
        else
          d' <- get_sessions ;;
          put_sessions (remove u d') ;;;
          ret None
    | None => ret None
    end ;;
  match reused with
  | Some c => ret (c, false)
  | None => create_new u p
  end.

(** Every registered session belongs to a client whose login for that
    user and password succeeded. *)
Definition registry_logged_in (m : SessionManager) : Prop :=
  forall v s, lookup v (_sessions m) = Some s ->
    In {| ev_client := client s; ev_username := v;
          ev_password := password s; ev_success := true |} (logins m).

(** The reuse test of [get_or_create_session] at clock reading [k]. *)
Definition reusable (m : SessionManager) (s : SessionInfo) (p : string)
  (k : nat) : bool :=
  negb (timedelta_minutes (_max_age_minutes m) <? clock k - login_time s)
  && is_valid s && String.eqb (password s) p.

(** The states of a manager: it starts empty and changes only through
    its methods, each of which runs as a whole under [self._lock]. *)
Inductive reachable : SessionManager -> Prop :=
| reach_init (max_age_minutes max_idle_minutes : Z) :
    reachable (__init__ max_age_minutes max_idle_minutes)
| reach_get_or_create (m : SessionManager) (u p : string) :
    reachable m -> reachable (snd (get_or_create_session u p m))
| reach_invalidate (m : SessionManager) (u : string) :
    reachable m -> reachable (snd (invalidate_session u m))
| reach_remove (m : SessionManager) (u : string) :
    reachable m -> reachable (snd (remove_session u m))
| reach_cleanup (m : SessionManager) :
    reachable m -> reachable (snd (_cleanup_sessions m))
| reach_clear (m : SessionManager) :
    reachable m -> reachable (snd (clear_all_sessions m)).

End World.

End Session.

(** ** Python values and the built-in operations the scraper uses *)

Module Py.

(** What [json.loads] returns, and what the fields of [AccountData] hold. *)
Inductive value :=
| PNone
| PBool (b : bool)
| PInt (n : Z)
| PFloat (f : spec_float)
| PStr (s : string)
| PList (items : list value)
| PDict (items : list (string * value)).

(** The exception classes that the handlers of the scraper tell apart. *)
Inductive exn := ValueError | TypeError | AttributeError | OverflowError.

Inductive res (A : Type) :=
| Ok (a : A)
| Err (e : exn).
Arguments Ok {A} a.
Arguments Err {A} e.

Definition bind {A B} (c : res A) (k : A -> res B) : res B :=
  match c with Ok a => k a | Err e => Err e end.

(** *** Characters (code points below 256) *)

Definition code (c : ascii) : N := N_of_ascii c.

Definition in_range (lo hi : N) (c : ascii) : bool :=
  ((lo <=? code c) && (code c <=? hi))%N.

Definition is_ascii_digit (c : ascii) : bool := in_range 48 57 c.

(** [str.isspace], the characters [str.strip] removes and [\s] matches. *)
Definition is_space (c : ascii) : bool :=
  in_range 9 13 c || in_range 28 32 c
  || (code c =? 133)%N || (code c =? 160)%N.

(** The blanks [float] skips around a number. *)
Definition is_float_space (c : ascii) : bool :=
  in_range 9 13 c || (code c =? 32)%N
  || (code c =? 133)%N || (code c =? 160)%N.

(** [str.isdigit] on one character: the decimal digits and the
    superscripts one, two, three. *)
Definition is_digit (c : ascii) : bool :=
  is_ascii_digit c
  || (code c =? 178)%N || (code c =? 179)%N || (code c =? 185)%N.

(** [\w]: letters, digits and other numeric characters, underscore. *)
Definition is_word (c : ascii) : bool :=
  is_ascii_digit c || in_range 65 90 c || in_range 97 122 c
  || (code c =? 95)%N || (code c =? 170)%N || (code c =? 178)%N
  || (code c =? 179)%N || (code c =? 181)%N || (code c =? 185)%N
  || (code c =? 186)%N || in_range 188 190 c || in_range 192 214 c
  || in_range 216 246 c || in_range 248 255 c.

Definition lower_char (c : ascii) : ascii :=
  if in_range 65 90 c || (in_range 192 222 c && negb (code c =? 215)%N)
  then ascii_of_N (code c + 32) else c.

(** *** Strings *)

Fixpoint lower (s : string) : string :=
  match s with
  | EmptyString => EmptyString
  | String c t => String (lower_char c) (lower t)
  end.

Fixpoint lstrip (s : string) : string :=
  match s with
  | String c t => if is_space c then lstrip t else s
  | EmptyString => EmptyString
  end.

Fixpoint rev_string (s acc : string) : string :=
  match s with
  | EmptyString => acc
  | String c t => rev_string t (String c acc)
  end.

Definition rstrip (s : string) : string :=
  rev_string (lstrip (rev_string s EmptyString)) EmptyString.

Definition strip (s : string) : string := rstrip (lstrip s).

(** [s.replace(c, '')] for a one-character [c]. *)
Fixpoint remove_char (c : ascii) (s : string) : string :=
  match s with
  | EmptyString => EmptyString
  | String d t => if Ascii.eqb c d then remove_char c t
                  else String d (remove_char c t)
  end.

(** [s.split(' ')[0]]. *)
Fixpoint before_space (s : string) : string :=
  match s with
  | EmptyString => EmptyString
  | String c t => if Ascii.eqb c " " then EmptyString
                  else String c (before_space t)
  end.

Fixpoint all_chars (p : ascii -> bool) (s : string) : bool :=
  match s with
  | EmptyString => true
  | String c t => p c && all_chars p t
  end.

(** [s.isdigit()]. *)
Definition isdigit (s : string) : bool :=
  Text.nonempty s && all_chars is_digit s.

(** [s[:n]]. *)
Fixpoint prefix (n : nat) (s : string) : string :=
  match n, s with
  | S k, String c t => String c (prefix k t)
  | _, _ => EmptyString
  end.

Definition digit_value (c : ascii) : Z := Z.of_N (code c) - 48.

Fixpoint digits_value (acc : Z) (s : string) : Z :=
  match s with
  | EmptyString => acc
  | String c t => digits_value (10 * acc + digit_value c) t
  end.

(** [int(s)] for an [s] that passed [isdigit]: the superscript digits are
    digits for [isdigit] but not for [int]. *)
Definition int_of_digits (s : string) : res Z :=
  if Text.nonempty s && all_chars is_ascii_digit s
  then Ok (digits_value 0 s) else Err ValueError.

(** *** Floats: IEEE binary64, round to nearest even *)

Definition prec : Z := 53.
Definition emax : Z := 1024.

Definition float_of_Z (n : Z) : spec_float :=
  binary_normalize prec emax n 0 false.

(** The binary64 nearest to [(-1)^neg * m * 10^e]. *)
Definition float_of_decimal (neg : bool) (m e : Z) : spec_float :=
  match m with
  | Zpos p =>
      if 0 <=? e then
        binary_normalize prec emax
          ((if neg then -1 else 1) * (m * 10 ^ e)) 0 false
      else
        SFdiv prec emax (S754_finite neg p 0)
          (S754_finite false (Z.to_pos (10 ^ (- e))) 0)
  | _ => S754_zero neg
  end.

(** [x / y] on floats ([y] is never zero where the scraper divides). *)
Definition float_div (x y : spec_float) : spec_float := SFdiv prec emax x y.

(** [x.as_integer_ratio()] for a finite [x]. *)
Fixpoint reduce_twos (fuel : nat) (m e : Z) : Z * Z :=
  match fuel with
  | O => (m, e)
  | S k => if (e <? 0) && Z.even m then reduce_twos k (m / 2) (e + 1)
           else (m, e)
  end.

Definition as_integer_ratio (x : spec_float) : option (Z * Z) :=
  match x with
  | S754_zero _ => Some (0, 1)
  | S754_finite s m e =>
      let '(m', e') := reduce_twos (Z.to_nat (- e)) (Zpos m) e in
      let n := if s then - m' else m' in
      Some (if 0 <=? e' then (n * 2 ^ e', 1) else (n, 2 ^ (- e')))
  | _ => None
  end.

(** The number grammar of [float(str)], after the blanks are skipped:
    digits with an optional point, then an optional exponent.  The result
    is the decimal mantissa, the decimal exponent and the unread rest. *)
Fixpoint span_digits (s : string) : string * string :=
  match s with
  | String c t =>
      if is_ascii_digit c
      then let '(d, r) := span_digits t in (String c d, r)
      else (EmptyString, s)
  | EmptyString => (EmptyString, EmptyString)
  end.

Definition parse_exponent (s : string) : Z * string :=
  match s with
  | String c t =>
      if Ascii.eqb c "e" || Ascii.eqb c "E" then
        let '(neg, t') :=
          match t with
          | String "-" u => (true, u)
          | String "+" u => (false, u)
          | _ => (false, t)
          end in
        let '(d, r) := span_digits t' in
        if Text.nonempty d
        then ((if neg then - digits_value 0 d else digits_value 0 d), r)
        else (0, s)
      else (0, s)
  | EmptyString => (0, s)
  end.

Definition parse_number (s : string) : option (Z * Z * string) :=
  let '(int_part, r1) := span_digits s in
  let '(frac_part, r2) :=
    match r1 with
    | String "." t => span_digits t
    | _ => (EmptyString, r1)
    end in
  if Text.nonempty int_part || Text.nonempty frac_part then
    let '(e, r3) := parse_exponent r2 in
    Some (digits_value 0 (int_part ++ frac_part),
          e - Z.of_nat (String.length frac_part), r3)
  else None.

(** [inf], [infinity] and [nan], in any case. *)
Definition parse_inf_or_nan (neg : bool) (s : string)
  : option (spec_float * string) :=
  let l := lower (prefix 3 s) in
  if String.eqb l "inf" then
    let r := substring 3 (String.length s - 3) s in
    if String.eqb (lower (prefix 5 r)) "inity"
    then Some (S754_infinity neg, substring 5 (String.length r - 5) r)
    else Some (S754_infinity neg, r)
  else if String.eqb l "nan" then
    Some (S754_nan, substring 3 (String.length s - 3) s)
  else None.

(** Underscores may stand only between two digits; they are dropped. *)
Fixpoint drop_underscores (prev : option ascii) (s : string)
  : option string :=
  match s with
  | EmptyString =>
      match prev with
      | Some "_"%char => None
      | _ => Some EmptyString
      end
  | String c t =>
      if Ascii.eqb c "_" then
        match prev with
        | Some p => if is_ascii_digit p then drop_underscores (Some c) t
                    else None
        | None => None
        end
      else
        match prev with
        | Some "_"%char =>
            if is_ascii_digit c
            then option_map (String c) (drop_underscores (Some c) t)
            else None
        | _ => option_map (String c) (drop_underscores (Some c) t)
        end
  end.

Fixpoint lstrip_float (s : string) : string :=
  match s with
  | String c t => if is_float_space c then lstrip_float t else s
  | EmptyString => EmptyString
  end.

(** [float(s)] for a [str]: [None] is [ValueError]. *)
Definition float_of_string (s : string) : option spec_float :=
  match drop_underscores None s with
  | None => None
  | Some s1 =>
      let s2 := lstrip_float s1 in
      let '(neg, s3) :=
        match s2 with
        | String "-" t => (true, t)
        | String "+" t => (false, t)
        | _ => (false, s2)
        end in
      let parsed :=
        match parse_number s3 with
        | Some (m, e, r) => Some (float_of_decimal neg m e, r)
        | None => parse_inf_or_nan neg s3
        end in
      match parsed with
      | Some (x, r) => if all_chars is_float_space r then Some x else None
      | None => None
      end
  end.

(** [float(v)]. *)
Definition float (v : value) : res spec_float :=
  match v with
  | PStr s =>
      match float_of_string s with
      | Some x => Ok x
      | None => Err ValueError
      end
  | PInt n =>
      match float_of_Z n with
      | S754_infinity _ => Err OverflowError
      | x => Ok x
      end
  | PFloat x => Ok x
  | PBool b => Ok (float_of_Z (if b then 1 else 0))
  | PNone | PList _ | PDict _ => Err TypeError
  end.

(** [m * 2^e] rounded to an integer, ties to even. *)
Definition round_half_even (m e : Z) : Z :=
  if 0 <=? e then m * 2 ^ e
  else
    let d := 2 ^ (- e) in
    let q := m / d in
    let r := m mod d in
    if 2 * r <? d then q
    else if d <? 2 * r then q + 1
    else if Z.even q then q else q + 1.

Definition two_digits (n : Z) : string :=
  if n <? 10 then "0" ++ Text.str_of_Z n else Text.str_of_Z n.

(** [f"{x:.2f}"]. *)
Definition format_2f (x : spec_float) : string :=
  match x with
  | S754_nan => "nan"
  | S754_infinity s => if s then "-inf" else "inf"
  | S754_zero s => (if s then "-" else EmptyString) ++ "0.00"
  | S754_finite s m e =>
      let n := round_half_even (Zpos m * 100) e in
      (if s then "-" else EmptyString) ++ Text.str_of_Z (n / 100) ++ "."
      ++ two_digits (n mod 100)
  end.

(** *** Values *)

(** Truth value: [if v:]. *)
Definition truthy (v : value) : bool :=
  match v with
  | PNone => false
  | PBool b => b
  | PInt n => negb (n =? 0)
  | PFloat (S754_zero _) => false
  | PFloat _ => true
  | PStr s => Text.nonempty s
  | PList l => match l with [] => false | _ => true end
  | PDict d => match d with [] => false | _ => true end
  end.

(** [v == s] for a [str] [s]. *)
Definition eq_str (v : value) (s : string) : bool :=
  match v with
  | PStr t => String.eqb t s
  | _ => false
  end.

Fixpoint assoc (k : string) (d : list (string * value)) : option value :=
  match d with
  | [] => None
  | (k', v) :: rest => if String.eqb k' k then Some v else assoc k rest
  end.

(** [v.get(k, default)]: only a [dict] has [get]. *)
Definition get (v : value) (k : string) (default : value) : res value :=
  match v with
  | PDict d => Ok (match assoc k d with Some x => x | None => default end)
  | _ => Err AttributeError
  end.

Definition chars (s : string) : list value :=
  map (fun c => PStr (String c EmptyString)) (list_ascii_of_string s).

(** [for x in v]: what the loop iterates over. *)
Definition iter (v : value) : res (list value) :=
  match v with
  | PList l => Ok l
  | PDict d => Ok (map (fun kv => PStr (fst kv)) d)
  | PStr s => Ok (chars s)
  | _ => Err TypeError
  end.

Section Repr.

(** [repr] of a float, a list or a dict: taken as given. *)
Variable repr : value -> string.

(** [str(v)], also what an f-string puts for [{v}]. *)
Definition str (v : value) : string :=
  match v with
  | PNone => "None"
  | PBool b => if b then "True" else "False"
  | PInt n => Text.str_of_Z n
  | PStr s => s
  | PFloat _ | PList _ | PDict _ => repr v
  end.

End Repr.

End Py.

(** ** Regular expressions: the fragment of [re] the repository uses *)

Module Re.

(** Patterns are kept as syntax trees; [Group] is the (only) capturing
    group, [Star] is greedy, [Boundary] is [\b], [EndOfLine] is [$] under
    [re.MULTILINE]. *)
Inductive regex :=
| Eps
| Chr (p : ascii -> bool)
| Seq (r1 r2 : regex)
| Alt (r1 r2 : regex)
| Star (r : regex)
| Group (r : regex)
| Boundary
| EndOfLine.

Definition is_word_opt (c : option ascii) : bool :=
  match c with Some x => Py.is_word x | None => false end.

Definition head (s : string) : option ascii :=
  match s with String c _ => Some c | EmptyString => None end.

(** Backtracking matcher in continuation style.  [prev] is the character
    before the current position, [rest] the text from the current position
    on, [cap] the text of the group so far; [k] is tried at every end
    position in the order in which [re] tries them. *)
Fixpoint run {A : Type} (r : regex) (prev : option ascii) (rest : string)
  (cap : option string)
  (k : option ascii -> string -> option string -> option A) {struct r}
  : option A :=
  match r with
  | Eps => k prev rest cap
  | Chr p =>
      match rest with
      | String c t => if p c then k (Some c) t cap else None
      | EmptyString => None
      end
  | Seq r1 r2 =>
      run r1 prev rest cap (fun prev' rest' cap' => run r2 prev' rest' cap' k)
  | Alt r1 r2 =>
      match run r1 prev rest cap k with
      | Some x => Some x
      | None => run r2 prev rest cap k
      end
  | Star r1 =>
      (fix loop (n : nat) (prev : option ascii) (rest : string)
           (cap : option string) {struct n} : option A :=
         match n with
         | O => k prev rest cap
         | S n' =>
             match run r1 prev rest cap
                     (fun prev' rest' cap' =>
                        if (String.length rest' <? String.length rest)%nat
                        then loop n' prev' rest' cap' else None) with
             | Some x => Some x
             | None => k prev rest cap
             end
         end) (S (String.length rest)) prev rest cap
  | Group r1 =>
      run r1 prev rest cap
        (fun prev' rest' _ =>
           k prev' rest'
             (Some (Py.prefix (String.length rest - String.length rest')
                      rest)))
  | Boundary =>
      if xorb (is_word_opt prev) (is_word_opt (head rest))
      then k prev rest cap else None
  | EndOfLine =>
      match rest with
      | EmptyString => k prev rest cap
      | String c _ =>
          if Ascii.eqb c "010" then k prev rest cap else None
      end
  end.

(** The match found at the current position: whole text and group. *)
Definition match_here (r : regex) (prev : option ascii) (s : string)
  : option (string * option string) :=
  run r prev s None
    (fun _ rest' cap =>
       Some (Py.prefix (String.length s - String.length rest') s, cap)).

(** [re.search(r, s)]: the leftmost match. *)
Fixpoint search_from (r : regex) (prev : option ascii) (s : string)
  : option (string * option string) :=
  match match_here r prev s with
  | Some x => Some x
  | None =>
      match s with
      | String c t => search_from r (Some c) t
      | EmptyString => None
      end
  end.

Definition search (r : regex) (s : string) : option (string * option string) :=
  search_from r None s.

(** [m.group(1)] of [re.search(r, s)]. *)
Definition search_group (r : regex) (s : string) : option string :=
  match search r s with
  | Some (_, Some g) => Some g
  | _ => None
  end.

(** [re.findall(r, s)] for a pattern without group: the matches from left
    to right, each starting where the one before ended. *)
Fixpoint findall_from (r : regex) (skip : nat) (prev : option ascii)
  (s : string) : list string :=
  match skip with
  | S k =>
      match s with
      | String c t => findall_from r k (Some c) t
      | EmptyString => []
      end
  | O =>
      match match_here r prev s with
      | Some (m, _) =>
          m :: match s with
               | String c t =>
                   findall_from r (String.length m - 1) (Some c) t
               | EmptyString => []
               end
      | None =>
          match s with
          | String c t => findall_from r 0 (Some c) t
          | EmptyString => []
          end
      end
  end.

Definition findall (r : regex) (s : string) : list string :=
  findall_from r 0 None s.

(** *** Building blocks *)

Definition plus (r : regex) : regex := Seq r (Star r).
Definition opt (r : regex) : regex := Alt r Eps.
Definition chr (c : ascii) : regex := Chr (Ascii.eqb c).
(** A letter under [re.IGNORECASE]. *)
Definition chr_i (c : ascii) : regex :=
  Chr (fun x => Ascii.eqb (Py.lower_char x) (Py.lower_char c)).
Definition digit : regex := Chr Py.is_ascii_digit.
Definition space : regex := Chr Py.is_space.
Definition any : regex := Chr (fun _ => true).

Fixpoint lit (s : string) : regex :=
  match s with
  | EmptyString => Eps
  | String c t => Seq (chr c) (lit t)
  end.

Fixpoint lit_i (s : string) : regex :=
  match s with
  | EmptyString => Eps
  | String c t => Seq (chr_i c) (lit_i t)
  end.

(** [[\d/\-\.]] and [[/\-\.]]. *)
Definition date_char : regex :=
  Chr (fun c => Py.is_ascii_digit c || Ascii.eqb c "/" || Ascii.eqb c "-"
                || Ascii.eqb c ".").
Definition date_sep : regex :=
  Chr (fun c => Ascii.eqb c "/" || Ascii.eqb c "-" || Ascii.eqb c ".").

(** *** The patterns of the repository *)

(** [r'(\d+)\s*GB'] with [re.IGNORECASE]. *)
Definition gb_pattern : regex :=
  Seq (Group (plus digit)) (Seq (Star space) (lit_i "GB")).

(** [r'/(\d+)\s*GB']. *)
Definition consumption_pattern : regex :=
  Seq (chr "/") (Seq (Group (plus digit)) (Seq (Star space) (lit "GB"))).

(** [r'(\d{2}/\d{2}/\d{4})']. *)
Definition activation_pattern : regex :=
  Group (Seq digit (Seq digit (Seq (chr "/") (Seq digit (Seq digit
        (Seq (chr "/") (Seq digit (Seq digit (Seq digit digit))))))))).

(** [r'Subscription\s*date:\s*([\d/\-\.]+)'] with [re.IGNORECASE]. *)
Definition subscription_pattern : regex :=
  Seq (lit_i "Subscription") (Seq (Star space) (Seq (lit_i "date:")
      (Seq (Star space) (Group (plus date_char))))).

(** [r'Validity\s*date:\s*([\d/\-\.]+)'] with [re.IGNORECASE]. *)
Definition validity_pattern : regex :=
  Seq (lit_i "Validity") (Seq (Star space) (Seq (lit_i "date:")
      (Seq (Star space) (Group (plus date_char))))).

(** [r'\b\d{1,2}[/\-\.]\d{1,2}[/\-\.]\d{2,4}\b']. *)
Definition any_date_pattern : regex :=
  Seq Boundary (Seq digit (Seq (opt digit) (Seq date_sep
      (Seq digit (Seq (opt digit) (Seq date_sep
      (Seq digit (Seq digit (Seq (opt (Seq digit (opt digit)))
      Boundary))))))))).

(** [r'{s*"\w+".*}s*$'] with [re.DOTALL | re.MULTILINE]: the brace is a
    literal and [s*] is a run of the letter s. *)
Definition embedded_json_pattern : regex :=
  Seq (chr "{") (Seq (Star (chr "s")) (Seq (chr "034") (Seq (plus (Chr Py.is_word))
      (Seq (chr "034") (Seq (Star any) (Seq (chr "}") (Seq (Star (chr "s"))
      EndOfLine))))))).

End Re.

(** ** models.py *)

Module Models.

(** [AccountCredentials]. *)
Record AccountCredentials := {
  cred_username : string;
  cred_password : string
}.

(** [AccountData]: the metadata fields are text; a data field holds
    whatever the stages assign to it. *)
Record AccountData := {
  username : string;
  status : string;
  error_details : string;
  activation_date : Py.value;
  validity_days_remaining : Py.value;
  current_balance : Py.value;
  last_recharge_amount : Py.value;
  last_recharge_date : Py.value;
  service_details : Py.value;
  secondary_numbers : Py.value;
  main_consumption : Py.value;
  mobile_internet_consumption : Py.value;
  secondary_consumption : Py.value;
  subscription_date : Py.value;
  validity_date : Py.value
}.

(** [AccountData(username=..., status=..., error_details=...)]: the other
    fields take the defaults of the dataclass. *)
Definition AccountData_init (username status error_details : string)
  : AccountData :=
  {| username := username;
     status := status;
     error_details := error_details;
     activation_date := Py.PStr "Not Found";
     validity_days_remaining := Py.PStr "Not Found";
     current_balance := Py.PStr "Not Found";
     last_recharge_amount := Py.PStr "Not Found";
     last_recharge_date := Py.PStr "Not Found";
     service_details := Py.PStr "None";
     secondary_numbers := Py.PStr "None";
     main_consumption := Py.PStr "Not Found";
     mobile_internet_consumption := Py.PStr "Not Found";
     secondary_consumption := Py.PStr "Not Found";
     subscription_date := Py.PStr "Not Found";
     validity_date := Py.PStr "Not Found" |}.

(** [AccountData(username=...)]. *)
Definition AccountData_new (username : string) : AccountData :=
  AccountData_init username "Error" EmptyString.

(** Assignments [account_data.field = v]. *)
Definition set_status (v : string) (a : AccountData) : AccountData :=
  {| username := username a;
     status := v;
     error_details := error_details a;
     activation_date := activation_date a;
     validity_days_remaining := validity_days_remaining a;
     current_balance := current_balance a;
     last_recharge_amount := last_recharge_amount a;
     last_recharge_date := last_recharge_date a;
     service_details := service_details a;
     secondary_numbers := secondary_numbers a;
     main_consumption := main_consumption a;
     mobile_internet_consumption := mobile_internet_consumption a;
     secondary_consumption := secondary_consumption a;
     subscription_date := subscription_date a;
     validity_date := validity_date a |}.

Definition set_error_details (v : string) (a : AccountData) : AccountData :=
  {| username := username a;
     status := status a;
     error_details := v;
     activation_date := activation_date a;
     validity_days_remaining := validity_days_remaining a;
     current_balance := current_balance a;
     last_recharge_amount := last_recharge_amount a;
     last_recharge_date := last_recharge_date a;
     service_details := service_details a;
     secondary_numbers := secondary_numbers a;
     main_consumption := main_consumption a;
     mobile_internet_consumption := mobile_internet_consumption a;
     secondary_consumption := secondary_consumption a;
     subscription_date := subscription_date a;
     validity_date := validity_date a |}.

Definition set_activation_date (v : Py.value) (a : AccountData) : AccountData :=
  {| username := username a;
     status := status a;
     error_details := error_details a;
     activation_date := v;
     validity_days_remaining := validity_days_remaining a;
     current_balance := current_balance a;
     last_recharge_amount := last_recharge_amount a;
     last_recharge_date := last_recharge_date a;
     service_details := service_details a;
     secondary_numbers := secondary_numbers a;
     main_consumption := main_consumption a;
     mobile_internet_consumption := mobile_internet_consumption a;
     secondary_consumption := secondary_consumption a;
     subscription_date := subscription_date a;
     validity_date := validity_date a |}.

Definition set_validity_days_remaining (v : Py.value) (a : AccountData) : AccountData :=
  {| username := username a;
     status := status a;
     error_details := error_details a;
     activation_date := activation_date a;
     validity_days_remaining := v;
     current_balance := current_balance a;
     last_recharge_amount := last_recharge_amount a;
     last_recharge_date := last_recharge_date a;
     service_details := service_details a;
     secondary_numbers := secondary_numbers a;
     main_consumption := main_consumption a;
     mobile_internet_consumption := mobile_internet_consumption a;
     secondary_consumption := secondary_consumption a;
     subscription_date := subscription_date a;
     validity_date := validity_date a |}.

Definition set_current_balance (v : Py.value) (a : AccountData) : AccountData :=
  {| username := username a;
     status := status a;
     error_details := error_details a;
     activation_date := activation_date a;
     validity_days_remaining := validity_days_remaining a;
     current_balance := v;
     last_recharge_amount := last_recharge_amount a;
     last_recharge_date := last_recharge_date a;
     service_details := service_details a;
     secondary_numbers := secondary_numbers a;
     main_consumption := main_consumption a;
     mobile_internet_consumption := mobile_internet_consumption a;
     secondary_consumption := secondary_consumption a;
     subscription_date := subscription_date a;
     validity_date := validity_date a |}.

Definition set_last_recharge_amount (v : Py.value) (a : AccountData) : AccountData :=
  {| username := username a;
     status := status a;
     error_details := error_details a;
     activation_date := activation_date a;
     validity_days_remaining := validity_days_remaining a;
     current_balance := current_balance a;
     last_recharge_amount := v;
     last_recharge_date := last_recharge_date a;
     service_details := service_details a;
     secondary_numbers := secondary_numbers a;
     main_consumption := main_consumption a;
     mobile_internet_consumption := mobile_internet_consumption a;
     secondary_consumption := secondary_consumption a;
     subscription_date := subscription_date a;
     validity_date := validity_date a |}.

Definition set_last_recharge_date (v : Py.value) (a : AccountData) : AccountData :=
  {| username := username a;
     status := status a;
     error_details := error_details a;
     activation_date := activation_date a;
     validity_days_remaining := validity_days_remaining a;
     current_balance := current_balance a;
     last_recharge_amount := last_recharge_amount a;
     last_recharge_date := v;
     service_details := service_details a;
     secondary_numbers := secondary_numbers a;
     main_consumption := main_consumption a;
     mobile_internet_consumption := mobile_internet_consumption a;
     secondary_consumption := secondary_consumption a;
     subscription_date := subscription_date a;
     validity_date := validity_date a |}.

Definition set_service_details (v : Py.value) (a : AccountData) : AccountData :=
  {| username := username a;
     status := status a;
     error_details := error_details a;
     activation_date := activation_date a;
     validity_days_remaining := validity_days_remaining a;
     current_balance := current_balance a;
     last_recharge_amount := last_recharge_amount a;
     last_recharge_date := last_recharge_date a;
     service_details := v;
     secondary_numbers := secondary_numbers a;
     main_consumption := main_consumption a;
     mobile_internet_consumption := mobile_internet_consumption a;
     secondary_consumption := secondary_consumption a;
     subscription_date := subscription_date a;
     validity_date := validity_date a |}.

Definition set_secondary_numbers (v : Py.value) (a : AccountData) : AccountData :=
  {| username := username a;
     status := status a;
     error_details := error_details a;
     activation_date := activation_date a;
     validity_days_remaining := validity_days_remaining a;
     current_balance := current_balance a;
     last_recharge_amount := last_recharge_amount a;
     last_recharge_date := last_recharge_date a;
     service_details := service_details a;
     secondary_numbers := v;
     main_consumption := main_consumption a;
     mobile_internet_consumption := mobile_internet_consumption a;
     secondary_consumption := secondary_consumption a;
     subscription_date := subscription_date a;
     validity_date := validity_date a |}.

Definition set_main_consumption (v : Py.value) (a : AccountData) : AccountData :=
  {| username := username a;
     status := status a;
     error_details := error_details a;
     activation_date := activation_date a;
     validity_days_remaining := validity_days_remaining a;
     current_balance := current_balance a;
     last_recharge_amount := last_recharge_amount a;
     last_recharge_date := last_recharge_date a;
     service_details := service_details a;
     secondary_numbers := secondary_numbers a;
     main_consumption := v;
     mobile_internet_consumption := mobile_internet_consumption a;
     secondary_consumption := secondary_consumption a;
     subscription_date := subscription_date a;
     validity_date := validity_date a |}.

Definition set_mobile_internet_consumption (v : Py.value) (a : AccountData) : AccountData :=
  {| username := username a;
     status := status a;
     error_details := error_details a;
     activation_date := activation_date a;
     validity_days_remaining := validity_days_remaining a;
     current_balance := current_balance a;
     last_recharge_amount := last_recharge_amount a;
     last_recharge_date := last_recharge_date a;
     service_details := service_details a;
     secondary_numbers := secondary_numbers a;
     main_consumption := main_consumption a;
     mobile_internet_consumption := v;
     secondary_consumption := secondary_consumption a;
     subscription_date := subscription_date a;
     validity_date := validity_date a |}.

Definition set_secondary_consumption (v : Py.value) (a : AccountData) : AccountData :=
  {| username := username a;
     status := status a;
     error_details := error_details a;
     activation_date := activation_date a;
     validity_days_remaining := validity_days_remaining a;
     current_balance := current_balance a;
     last_recharge_amount := last_recharge_amount a;
     last_recharge_date := last_recharge_date a;
     service_details := service_details a;
     secondary_numbers := secondary_numbers a;
     main_consumption := main_consumption a;
     mobile_internet_consumption := mobile_internet_consumption a;
     secondary_consumption := v;
     subscription_date := subscription_date a;
     validity_date := validity_date a |}.

Definition set_subscription_date (v : Py.value) (a : AccountData) : AccountData :=
  {| username := username a;
     status := status a;
     error_details := error_details a;
     activation_date := activation_date a;
     validity_days_remaining := validity_days_remaining a;
     current_balance := current_balance a;
     last_recharge_amount := last_recharge_amount a;
     last_recharge_date := last_recharge_date a;
     service_details := service_details a;
     secondary_numbers := secondary_numbers a;
     main_consumption := main_consumption a;
     mobile_internet_consumption := mobile_internet_consumption a;
     secondary_consumption := secondary_consumption a;
     subscription_date := v;
     validity_date := validity_date a |}.

Definition set_validity_date (v : Py.value) (a : AccountData) : AccountData :=
  {| username := username a;
     status := status a;
     error_details := error_details a;
     activation_date := activation_date a;
     validity_days_remaining := validity_days_remaining a;
     current_balance := current_balance a;
     last_recharge_amount := last_recharge_amount a;
     last_recharge_date := last_recharge_date a;
     service_details := service_details a;
     secondary_numbers := secondary_numbers a;
     main_consumption := main_consumption a;
     mobile_internet_consumption := mobile_internet_consumption a;
     secondary_consumption := secondary_consumption a;
     subscription_date := subscription_date a;
     validity_date := v |}.

(** [AccountData.to_dict()]: the fields in declaration order. *)
Definition to_dict (a : AccountData) : list (string * Py.value) :=
  [ ("username", Py.PStr (username a));
    ("status", Py.PStr (status a));
    ("error_details", Py.PStr (error_details a));
    ("activation_date", activation_date a);
    ("validity_days_remaining", validity_days_remaining a);
    ("current_balance", current_balance a);
    ("last_recharge_amount", last_recharge_amount a);
    ("last_recharge_date", last_recharge_date a);
    ("service_details", service_details a);
    ("secondary_numbers", secondary_numbers a);
    ("main_consumption", main_consumption a);
    ("mobile_internet_consumption", mobile_internet_consumption a);
    ("secondary_consumption", secondary_consumption a);
    ("subscription_date", subscription_date a);
    ("validity_date", validity_date a) ].

(** [APIResponse]; [data] is [PNone] when absent. *)
Record APIResponse := {
  success : bool;
  data : Py.value;
  error : option string;
  status_code : option Z;
  raw_response : option string
}.

(** [ProcessingResult] without its two time stamps. *)
Record ProcessingResult := {
  total_accounts : Z;
  successful : Z;
  partial : Z;
  failed : Z;
  results : list AccountData
}.

(** [ProcessingResult(total_accounts=n)]. *)
Definition ProcessingResult_new (n : Z) : ProcessingResult :=
  {| total_accounts := n; successful := 0; partial := 0; failed := 0;
     results := [] |}.

(** [ProcessingResult.add_result(result)]. *)
Definition add_result (result : AccountData) (r : ProcessingResult)
  : ProcessingResult :=
  if String.eqb (status result) "Success" then
    {| total_accounts := total_accounts r;
       successful := successful r + 1; partial := partial r;
       failed := failed r; results := (results r ++ [result])%list |}
  else if String.eqb (status result) "Partial Success" then
    {| total_accounts := total_accounts r;
       successful := successful r; partial := partial r + 1;
       failed := failed r; results := (results r ++ [result])%list |}
  else
    {| total_accounts := total_accounts r;
       successful := successful r; partial := partial r;
       failed := failed r + 1; results := (results r ++ [result])%list |}.

End Models.

(** ** utils.py and api_client.py: [parse_json_safely], [make_api_request] *)

Module ApiClient.

Import Http Models.

Section Libraries.

(** [json.loads]: [None] is [JSONDecodeError]. *)
Variable json_loads : string -> option Py.value.

(** BeautifulSoup on an HTML text: [get_text()] of the first element
    whose class is [error], [alert] or [message], if there is one. *)
Variable html_error_text : string -> option string.

(** The file system under [debug/]: [debug_listing username] is what
    [list(Path('debug', username).glob('*.txt'))] does, [None] when it
    returns and [Some msg] when it raises an exception whose text is
    [msg], as it does for a user name that the file system refuses as
    the name of a directory.  The file written next is written by
    [save_debug_file], which handles its own exceptions. *)
Variable debug_listing : string -> option string.

(** [parse_json_safely(json_text, username, field_name)]; the result
    [PNone] is Python's [None]. *)
Definition parse_json_safely (json_text : string) : Py.value :=
  if negb (Text.nonempty json_text) then Py.PNone
  else
    match json_loads json_text with
    | Some v => v
    | None =>
        match Re.search Re.embedded_json_pattern json_text with
        | Some (extracted_json, _) =>
            match json_loads extracted_json with
            | Some v => v
            | None => Py.PNone
            end
        | None => Py.PNone
        end
    end.

(** Truth value of the optional [password] argument. *)
Definition password_given (password : option string) : bool :=
  match password with
  | Some p => Text.nonempty p
  | None => false
  end.

(** [response.headers.get('Content-Type', '').lower()]. *)
Definition content_type_lower (r : Response) : string :=
  Py.lower (match content_type r with Some c => c | None => EmptyString end).

(** The test "we got HTML instead of JSON". *)
Definition is_html (r : Response) : bool :=
  Text.contains "text/html" (content_type_lower r)
  || Text.contains "<html" (Py.lower (Py.prefix 1000 (text r))).

Definition failed (msg : string) : APIResponse :=
  {| success := false; data := Py.PNone; error := Some msg;
     status_code := None; raw_response := None |}.

(** [APIClient.make_api_request(url, username, description,
    password=..., retry_count=...)], given what the HTTP request did.
    Once the response is there, the [try] block first numbers the debug
    file of the response by listing the user's debug directory; an
    exception of that listing is no [RequestException] and reaches the
    last handler. *)
Definition make_api_request (o : outcome) (url username description : string)
  (password : option string) (retry_count : Z) : APIResponse :=
  match o with
  | RaisedTimeout _ =>
      failed ("Timeout fetching " ++ description ++ " from API: " ++ url)
  | RaisedRequestException e =>
      failed ("Error fetching " ++ description ++ " from API: " ++ url
              ++ " - " ++ e)
  | RaisedOther e =>
      failed ("Unexpected error fetching " ++ description ++ " from API: "
              ++ url ++ " - " ++ e)
  | Responded response =>
      match debug_listing username with
      | Some e =>
          failed ("Unexpected error fetching " ++ description
                  ++ " from API: " ++ url ++ " - " ++ e)
      | None =>
      match raise_for_status response with
      | Some e =>
          failed ("Error fetching " ++ description ++ " from API: " ++ url
                  ++ " - " ++ e)
      | None =>
          if is_html response && password_given password
             && (retry_count <? 2)
          then
            {| success := false; data := Py.PNone;
               error := Some "Session expired - HTML response received";
               status_code := Some (Http.status_code response);
               raw_response := Some (text response) |}
          else
            let parsed_data := parse_json_safely (text response) in
            if Py.truthy parsed_data then
              {| success := true; data := parsed_data; error := None;
                 status_code := Some (Http.status_code response);
                 raw_response := Some (text response) |}
            else if is_html response then
              let error_msg :=
                match html_error_text (text response) with
                | Some t => Py.strip t
                | None => "Received HTML instead of JSON"
                end in
              {| success := false; data := Py.PNone;
                 error := Some ("HTML Error: " ++ error_msg);
                 status_code := Some (Http.status_code response);
                 raw_response := Some (text response) |}
            else
              {| success := false; data := Py.PNone;
                 error := Some ("Unexpected content type: "
                                ++ content_type_lower response);
                 status_code := Some (Http.status_code response);
                 raw_response := Some (text response) |}
      end
      end
  end.

End Libraries.

End ApiClient.

(** ** scraper.py *)

Module Scraper.

Import Models.
Import Py.

Declare Scope py_scope.
Delimit Scope py_scope with py.
Notation "x <- c ;; k" := (Py.bind c (fun x => k))
  (at level 100, c at next level, right associativity) : py_scope.
Local Open Scope py_scope.

Fixpoint fold_res {A S : Type} (f : A -> S -> res S) (l : list A) (s : S)
  : res S :=
  match l with
  | [] => Ok s
  | x :: rest => s' <- f x s ;; fold_res f rest s'
  end.

(** [l.append(x)]. *)
Definition append {A : Type} (l : list A) (x : A) : list A := (l ++ [x])%list.

(** [x or "None"] for a string [x]. *)
Definition or_none (s : string) : string :=
  if Text.nonempty s then s else "None".

(** [sorted(names)] for strings. *)
Fixpoint insert_sorted (s : string) (l : list string) : list string :=
  match l with
  | [] => [s]
  | h :: t => if String.leb s h then s :: l else h :: insert_sorted s t
  end.

Definition sorted (l : list string) : list string :=
  fold_right insert_sorted [] l.

(** The elements of a [set] when all of them are [str]. *)
Fixpoint strings_of (l : list value) : option (list string) :=
  match l with
  | [] => Some []
  | PStr s :: rest => option_map (cons s) (strings_of rest)
  | _ :: _ => None
  end.

(** [set.add] needs a hashable element: lists and dicts are not. *)
Definition hashable (v : value) : bool :=
  match v with
  | PList _ | PDict _ => false
  | _ => true
  end.

(** [account_data.error_details] gets one more tag. *)
Definition add_error_tag (tag : string) (a : AccountData) : AccountData :=
  if Text.nonempty (error_details a)
  then set_error_details (error_details a ++ ", " ++ tag) a
  else set_error_details tag a.

(** [not resp.success and "session" in resp.error.lower()]; [error] being
    [None] makes [.lower()] raise [AttributeError]. *)
Definition session_error (resp : APIResponse) : res bool :=
  if success resp then Ok false
  else
    match error resp with
    | Some e => Ok (Text.contains "session" (lower e))
    | None => Err AttributeError
    end.

Section Libraries.

(** [repr] of floats, lists and dicts (see [Py.str]). *)
Variable repr : value -> string.

(** BeautifulSoup: [find_class_text html cls] is
    [soup.find(class_=cls).get_text(strip=True)], and
    [select_one_text html sel] is [soup.select_one(sel).get_text(strip=True)],
    when such an element exists. *)
Variable find_class_text : string -> string -> option string.
Variable select_one_text : string -> string -> option string.

(** [str(v)]. *)
Definition str (v : value) : string := Py.str repr v.

(** *** Stage 1: consumption *)

(** [float(v) / 1024 if v else 0]; the integer [0] prints like [0.0]
    under [:.2f]. *)
Definition megabytes_to_gb (v : value) : res spec_float :=
  if truthy v then x <- float v ;; Ok (float_div x (float_of_Z 1024))
  else Ok (S754_zero false).

(** [float(v) if v else 0]. *)
Definition float_or_zero (v : value) : res spec_float :=
  if truthy v then float v else Ok (S754_zero false).

(** What the [try] block has built so far. *)
Record consumption_state := {
  acc : AccountData;
  numbers : list value;            (* secondary_numbers, a set *)
  consumptions : list string       (* secondary_consumptions *)
}.

Definition with_acc (a : AccountData) (st : consumption_state)
  : consumption_state :=
  {| acc := a; numbers := numbers st; consumptions := consumptions st |}.

(** The body of [if service_name in ['U-share Main', 'Mobile Internet']]
    for one [detail], with its own [try]/[except (ValueError, TypeError)]. *)
Definition main_consumption_of_detail (service_name detail : value)
  (a : AccountData) : res AccountData :=
  if eq_str service_name "U-share Main"
     || eq_str service_name "Mobile Internet"
  then
    consumption_mb <- get detail "ConsumptionValue" (PStr "0") ;;
    package_gb <- get detail "PackageValue" (PStr "0") ;;
    description <- get detail "DescriptionValue" (PStr EmptyString) ;;
    match megabytes_to_gb consumption_mb with
    | Ok consumption_gb =>
        let shown :=
          PStr (format_2f consumption_gb ++ " GB/" ++ str package_gb
                ++ " GB") in
        let a1 :=
          if eq_str (main_consumption a) "Not Found"
          then set_main_consumption shown a else a in
        Ok (if eq_str service_name "Mobile Internet"
               || eq_str description "Mobile Internet"
            then set_mobile_internet_consumption shown a1 else a1)
    | Err ValueError | Err TypeError =>
        Ok (if eq_str (main_consumption a) "Not Found"
            then set_main_consumption (PStr "API Error") a else a)
    | Err e => Err e
    end
  else Ok a.

(** The body of [for secondary in secondaries]. *)
Definition secondary_entry (username : string) (secondary : value)
  (st : consumption_state) : res consumption_state :=
  number <- get secondary "SecondaryNumberValue" PNone ;;
  consumption_val <- get secondary "ConsumptionValue" (PStr "0") ;;
  quota_val <- get secondary "QuotaValue" (PStr "0") ;;
  consumption_unit <- get secondary "ConsumptionUnitValue" (PStr "MB") ;;
  quota_unit <- get secondary "QuotaUnitValue" (PStr "GB") ;;
  let other_number := truthy number && negb (eq_str number username) in
  let attempt :=
    consumption_gb <-
      (if eq_str consumption_unit "MB"
       then megabytes_to_gb consumption_val
       else float_or_zero consumption_val) ;;
    let consumption_str :=
      format_2f consumption_gb ++ " GB/" ++ str quota_val ++ " "
      ++ str quota_unit in
    if eq_str number "Mobile Internet" then
      Ok (with_acc
            (set_mobile_internet_consumption (PStr consumption_str) (acc st))
            st)
    else if other_number then
      if hashable number then
        Ok {| acc := acc st;
              numbers := append (numbers st) number;
              consumptions :=
                append (consumptions st)
                  (str number ++ ": " ++ consumption_str) |}
      else Err TypeError
    else Ok st in
  match attempt with
  | Ok st' => Ok st'
  | Err ValueError | Err TypeError =>
      if eq_str number "Mobile Internet" then
        Ok (with_acc
              (set_mobile_internet_consumption (PStr "API Error") (acc st))
              st)
      else if other_number then
        Ok {| acc := acc st;
              numbers := numbers st;
              consumptions :=
                append (consumptions st) (str number ++ ": API Error") |}
      else Ok st
  | Err e => Err e
  end.

(** The body of [for detail in details]. *)
Definition detail_step (username : string) (service_name detail : value)
  (st : consumption_state) : res consumption_state :=
  a <- main_consumption_of_detail service_name detail (acc st) ;;
  let st1 := with_acc a st in
  if eq_str service_name "U-share Main" then
    secondaries <- get detail "SecondaryValue" (PList []) ;;
    if truthy secondaries then
      items <- iter secondaries ;;
      fold_res (secondary_entry username) items st1
    else Ok st1
  else Ok st1.

(** The body of [for service in services]. *)
Definition service_step (username : string) (service : value)
  (st : consumption_state) : res consumption_state :=
  service_name <- get service "ServiceNameValue" (PStr EmptyString) ;;
  details <- get service "ServiceDetailsInformationValue" (PList []) ;;
  items <- iter details ;;
  fold_res (detail_step username service_name) items st.

(** "Parse balance (remove $ and spaces)". *)
Definition parse_balance (data : value) : res value :=
  raw <- get data "CurrentBalanceValue" (PStr EmptyString) ;;
  match raw with
  | PStr s =>
      let balance_str := strip (remove_char "$" s) in
      if Text.nonempty balance_str
      then x <- float (PStr balance_str) ;; Ok (PFloat x)
      else Ok (PStr "API Error")
  | _ => Err AttributeError
  end.

(** The [try] block of stage 1; [Err] is an exception that reaches its
    [except Exception]. *)
Definition consumption_try (username : string) (data : value)
  (a : AccountData) : res AccountData :=
  balance <- parse_balance data ;;
  services <- get data "ServiceInformationValue" (PList []) ;;
  items <- iter services ;;
  st <- fold_res (service_step username) items
          {| acc := set_current_balance balance a;
             numbers := []; consumptions := [] |} ;;
  match strings_of (numbers st) with
  | Some names =>
      Ok (set_secondary_consumption
            (PStr (or_none (Text.join ", " (consumptions st))))
            (set_secondary_numbers
               (PStr (or_none
                        (Text.join ", " (sorted (nodup string_dec names)))))
               (acc st)))
  | None => Err TypeError
  end.

Definition consumption_failed (a : AccountData) : AccountData :=
  set_secondary_consumption (PStr "API Error")
    (set_mobile_internet_consumption (PStr "API Error")
       (set_main_consumption (PStr "API Error")
          (set_secondary_numbers (PStr "API Error")
             (set_current_balance (PStr "API Error") a)))).

(** Stage 1.  Its handler overwrites every field the [try] block may
    have assigned before the exception. *)
Definition consumption_stage (resp : APIResponse)
  (s : AccountData * list string) : AccountData * list string :=
  let '(a, errors) := s in
  if success resp && truthy (data resp) then
    match consumption_try (username a) (data resp) a with
    | Ok a' => (a', errors)
    | Err _ =>
        (consumption_failed a, append errors "Consumption API Parse Error")
    end
  else (consumption_failed a, append errors "Consumption API Fetch Error").

(** *** Stage 2: expiry *)

(** [int(days) if days.isdigit() else "API Error"] for
    [days = s.split(' ')[0]]. *)
Definition days_value (s : string) : res value :=
  let days := before_space s in
  if isdigit days then n <- int_of_digits days ;; Ok (PInt n)
  else Ok (PStr "API Error").

Definition expiry_try (expiry_data : value) : res value :=
  match expiry_data with
  | PInt _ | PBool _ | PStr _ => days_value (str expiry_data)
  | PDict _ =>
      v <- get expiry_data "ExpiryDateValue" (PStr EmptyString) ;;
      days_value (str v)
  | _ => Ok (PStr "API Error")
  end.

Definition is_none (v : value) : bool :=
  match v with PNone => true | _ => false end.

Definition expiry_stage (resp : APIResponse)
  (s : AccountData * list string) : AccountData * list string :=
  let '(a, errors) := s in
  if success resp && negb (is_none (data resp)) then
    match expiry_try (data resp) with
    | Ok v => (set_validity_days_remaining v a, errors)
    | Err _ =>
        (set_validity_days_remaining (PStr "API Error") a,
         append errors "Expiry API Parse Error")
    end
  else
    (set_validity_days_remaining (PStr "API Error") a,
     append errors "Expiry API Fetch Error").

(** *** Stage 3: last recharge *)

Definition recharge_try (data : value) (a : AccountData) : res AccountData :=
  amount <- get data "Amount" PNone ;;
  shown <- (if truthy amount then x <- float amount ;; Ok (PFloat x)
            else Ok (PStr "API Error")) ;;
  date <- get data "Date" (PStr "API Error") ;;
  Ok (set_last_recharge_date date (set_last_recharge_amount shown a)).

Definition recharge_failed (a : AccountData) : AccountData :=
  set_last_recharge_date (PStr "API Error")
    (set_last_recharge_amount (PStr "API Error") a).

Definition recharge_stage (resp : APIResponse)
  (s : AccountData * list string) : AccountData * list string :=
  let '(a, errors) := s in
  if success resp && truthy (data resp) then
    match recharge_try (data resp) a with
    | Ok a' => (a', errors)
    | Err _ => (recharge_failed a, append errors "Recharge API Parse Error")
    end
  else (recharge_failed a, append errors "Recharge API Fetch Error").

(** *** Stage 4: services *)

(** The loop over [[content_en, name_en, description]]: the first text
    with a "<digits> GB" gives the package size. *)
Fixpoint first_gb (contents : list value) : res (option string) :=
  match contents with
  | [] => Ok None
  | content :: rest =>
      if truthy content then
        match content with
        | PStr s =>
            match Re.search_group Re.gb_pattern s with
            | Some g => Ok (Some g)
            | None => first_gb rest
            end
        | _ => Err TypeError
        end
      else first_gb rest
  end.

Definition is_dict (v : value) : bool :=
  match v with PDict _ => true | _ => false end.

Definition bundle_package_size (service : list (string * value))
  : res (option string) :=
  match assoc "ActiveBundle" service with
  | Some bundle =>
      if truthy bundle && is_dict bundle then
        inner <- get bundle "Service" (PDict []) ;;
        bundle_info <- get inner "ServiceInfo" (PDict []) ;;
        if truthy bundle_info then
          content_en <- get bundle_info "ContentEn" (PStr EmptyString) ;;
          name_en <- get bundle_info "NameEn" (PStr EmptyString) ;;
          description <- get bundle_info "Description" (PStr EmptyString) ;;
          first_gb [content_en; name_en; description]
        else Ok None
      else Ok None
  | None => Ok None
  end.

(** The body of [for service in services_resp.data]: the entry it appends
    to [ushare_details], if any. *)
Definition ushare_detail (a : AccountData) (service : value)
  : res (option string) :=
  match service with
  | PDict d =>
      let service_name :=
        match assoc "Name" d with
        | Some v => v
        | None => PStr EmptyString
        end in
      if truthy service_name then
        lowered <- match service_name with
                   | PStr s => Ok (lower s)
                   | _ => Err AttributeError
                   end ;;
        if Text.contains "ushare" lowered then
          from_bundle <- bundle_package_size d ;;
          package_size <-
            match from_bundle with
            | Some g => Ok (Some g)
            | None =>
                if negb (eq_str (main_consumption a) "Not Found") then
                  match main_consumption a with
                  | PStr s =>
                      Ok (Re.search_group Re.consumption_pattern s)
                  | _ => Err TypeError
                  end
                else Ok None
            end ;;
          Ok (Some match package_size with
                   | Some g => "USHARE: " ++ g ++ "GB"
                   | None => "USHARE"
                   end)
        else Ok None
      else Ok None
  | _ => Ok None
  end.

Fixpoint ushare_details (a : AccountData) (services : list value)
  : res (list string) :=
  match services with
  | [] => Ok []
  | service :: rest =>
      d <- ushare_detail a service ;;
      ds <- ushare_details a rest ;;
      Ok (match d with Some x => x :: ds | None => ds end)
  end.

Definition services_try (data : value) (a : AccountData) : res value :=
  match data with
  | PList services =>
      ds <- ushare_details a services ;;
      Ok (PStr (or_none (Text.join ", " ds)))
  | _ => Ok (PStr "None")
  end.

Definition services_stage (resp : APIResponse)
  (s : AccountData * list string) : AccountData * list string :=
  let '(a, errors) := s in
  if success resp && truthy (data resp) then
    match services_try (data resp) a with
    | Ok v => (set_service_details v a, errors)
    | Err _ =>
        (set_service_details (PStr "API Error") a,
         append errors "Services API Parse Error")
    end
  else
    (set_service_details (PStr "API Error") a,
     append errors "Services API Fetch Error").

(** *** [extract_api_data] *)

(** How [extract_api_data] ends: it returns, having asked or not for the
    session to be invalidated, or an exception leaves it. *)
Inductive ending :=
| Completed (session_expired : bool)
| Escaped (msg : string).

Definition none_has_no_lower : string :=
  "'NoneType' object has no attribute 'lower'".

(** "Update error details if any errors occurred". *)
Definition record_errors (errors : list string) (a : AccountData)
  : AccountData :=
  match errors with
  | [] => a
  | _ => add_error_tag (Text.join ", " errors) a
  end.

(** The body of [extract_api_data] once the four responses are known.
    The record is the caller's object: what was assigned before an
    exception stays assigned. *)
Definition extract_api_data_from
  (consumption_resp expiry_resp recharge_resp services_resp : APIResponse)
  (account_data : AccountData) : AccountData * ending :=
  match session_error consumption_resp with
  | Err _ => (account_data, Escaped none_has_no_lower)
  | Ok e1 =>
    let s1 := consumption_stage consumption_resp (account_data, []) in
    match session_error expiry_resp with
    | Err _ => (fst s1, Escaped none_has_no_lower)
    | Ok e2 =>
      let s2 := expiry_stage expiry_resp s1 in
      match session_error recharge_resp with
      | Err _ => (fst s2, Escaped none_has_no_lower)
      | Ok e3 =>
        let s3 := recharge_stage recharge_resp s2 in
        match session_error services_resp with
        | Err _ => (fst s3, Escaped none_has_no_lower)
        | Ok e4 =>
          let s4 := services_stage services_resp s3 in
          (record_errors (snd s4) (fst s4),
           Completed (e1 || e2 || e3 || e4))
        end
      end
    end
  end.

(** What the four requests of one [extract_api_data] call do. *)
Record api_exchange := {
  timestamp : Z;                         (* int(time.time() * 1000) *)
  consumption : Http.outcome;
  expiry : Http.outcome;
  last_recharge : Http.outcome;
  services : Http.outcome
}.

(** [json.loads] and the error element of an HTML page, as in
    [ApiClient]. *)
Variable json_loads : string -> option value.
Variable html_error_text : string -> option string.
Variable debug_listing : string -> option string.

(** [extract_api_data(client, account_data, password)]. *)
Definition extract_api_data (x : api_exchange) (account_data : AccountData)
  (password : string) : AccountData * ending :=
  let request o url description :=
    ApiClient.make_api_request json_loads html_error_text debug_listing o url
      (username account_data) description (Some password) 0 in
  extract_api_data_from
    (request (consumption x) (Config.get_consumption_url (timestamp x))
       "Consumption")
    (request (expiry x) Config.EXPIRY "Expiry Date")
    (request (last_recharge x) Config.LAST_RECHARGE "Last Recharge")
    (request (services x) Config.SERVICES "My Services")
    account_data.

(** *** The two HTML pages *)

Record pages := {
  account_page : Http.outcome;
  manage_services_page : Http.outcome
}.

(** [extract_html_field(soup, field_name, class_name, pattern)]. *)
Definition extract_html_field (html class_name : string)
  (pattern : option Re.regex) : string :=
  match find_class_text html class_name with
  | None => "Not Found"
  | Some text =>
      if negb (Text.nonempty text) then "Not Found"
      else
        match pattern with
        | Some p =>
            match Re.search_group p text with
            | Some g => g
            | None => text
            end
        | None => text
        end
  end.

Definition links_selector : string :=
  "body > div.container-fluid.bglightgrey.services > div:nth-child(3) > div > div > div:nth-child(3) > div > div.text-center.desc > div.links".

(** The part of [extract_manage_services_data] that reads the text of
    the target element. *)
Definition read_service_dates (element_text : string) (a : AccountData)
  : AccountData :=
  let a1 :=
    match Re.search_group Re.subscription_pattern element_text with
    | Some g => set_subscription_date (PStr (strip g)) a
    | None => a
    end in
  let a2 :=
    match Re.search_group Re.validity_pattern element_text with
    | Some g => set_validity_date (PStr (strip g)) a1
    | None => a1
    end in
  if eq_str (subscription_date a2) "Not Found"
     || eq_str (validity_date a2) "Not Found"
  then
    match Re.findall Re.any_date_pattern element_text with
    | d0 :: d1 :: _ =>
        let a3 :=
          if eq_str (subscription_date a2) "Not Found"
          then set_subscription_date (PStr d0) a2 else a2 in
        if eq_str (validity_date a3) "Not Found"
        then set_validity_date (PStr d1) a3 else a3
    | [d0] =>
        if eq_str (subscription_date a2) "Not Found"
        then set_subscription_date (PStr d0) a2 else a2
    | [] => a2
    end
  else a2.

(** [extract_manage_services_data(client, account_data)]. *)
Definition extract_manage_services_data (o : Http.outcome) (a : AccountData)
  : AccountData :=
  match o with
  | Http.Responded response =>
      match Http.raise_for_status response with
      | Some _ => add_error_tag "Manage-Services Extraction Error" a
      | None =>
          match select_one_text (Http.text response) links_selector with
          | Some element_text => read_service_dates element_text a
          | None => a
          end
      end
  | _ => add_error_tag "Manage-Services Extraction Error" a
  end.

(** [extract_html_data(client, account_data)]. *)
Definition extract_html_data (p : pages) (a : AccountData) : AccountData :=
  let a1 :=
    match account_page p with
    | Http.Responded response =>
        let activation_date :=
          extract_html_field (Http.text response) "activation-date"
            (Some Re.activation_pattern) in
        if negb (String.eqb activation_date "Not Found")
        then set_activation_date (PStr activation_date) a else a
    | _ => add_error_tag "HTML Extraction Error" a
    end in
  extract_manage_services_data (manage_services_page p) a1.

(** *** [process_account] *)

Definition metadata_fields : list string :=
  ["error_details"; "status"; "username"].

(** The condition of "Determine final status". *)
Definition has_sentinel (a : AccountData) : bool :=
  existsb
    (fun kv =>
       negb (existsb (String.eqb (fst kv)) metadata_fields)
       && (eq_str (snd kv) "API Error" || eq_str (snd kv) "Not Found"))
    (to_dict a).

(** No field besides the metadata fields holds one of the two
    sentinels. *)
Definition no_sentinel_fields (a : AccountData) : Prop :=
  forall k v, In (k, v) (to_dict a) -> ~ In k metadata_fields ->
    v <> PStr "Not Found" /\ v <> PStr "API Error".

Definition determine_final_status (a : AccountData) : AccountData :=
  if has_sentinel a then
    let a1 := set_status "Partial Success" a in
    if negb (Text.nonempty (error_details a1))
    then set_error_details "Some data could not be retrieved" a1
    else a1
  else set_error_details EmptyString (set_status "Success" a).

(** The [except Exception as e] branch; [msg] is [str(e)]. *)
Definition unhandled (msg : string) (a : AccountData) : AccountData :=
  set_error_details
    (if Text.nonempty msg then "Unhandled Exception: " ++ msg
     else "Unknown processing error occurred")
    (set_status "Error" a).

(** [process_account(credentials)] once it is known how
    [get_or_create_session] ended and what the portal answers to the
    client: the record, and whether [invalidate_session] was called. *)
Definition process_account_with (acquired : Session.result (nat * bool))
  (x : api_exchange) (p : pages) (credentials : AccountCredentials)
  : AccountData * bool :=
  let account_data := AccountData_new (cred_username credentials) in
  match acquired with
  | Session.Returned (client, is_new_session) =>
      match extract_api_data x account_data (cred_password credentials) with
      | (a, Completed session_expired) =>
          (determine_final_status (extract_html_data p a), session_expired)
      | (a, Escaped msg) => (unhandled msg a, true)
      end
  | Session.Raised msg => (unhandled msg account_data, true)
  end.

Section World.

Variable clock : nat -> Z.
Variable portal : nat -> string -> string -> Login.exchange.

(** What the portal answers to the data requests and page fetches of
    the client [c] working for user [u]. *)
Variable api : nat -> string -> api_exchange.
Variable html : nat -> string -> pages.

(** [process_account(credentials)] on the shared session manager. *)
Definition process_account (credentials : AccountCredentials)
  : Session.M AccountData :=
  fun m =>
    let u := cred_username credentials in
    let '(acquired, m1) :=
      Session.get_or_create_session clock portal u
        (cred_password credentials) m in
    let c := match acquired with
             | Session.Returned (c, _) => c
             | Session.Raised _ => O
             end in
    let '(a, invalidate) :=
      process_account_with acquired (api c u) (html c u) credentials in
    (Session.Returned a,
     if invalidate then snd (Session.invalidate_session u m1) else m1).

End World.

End Libraries.

End Scraper.

(** ** bot_config.py and telegram_bot.py: the batch orchestrator *)

Module Bot.

Import Models.

(** The settings of [BotConfig] that batch processing reads. *)
Record BotConfig := {
  BATCH_SIZE : Z;
  MAX_CONCURRENT_WORKERS : Z;
  ENABLE_BATCH_PROCESSING : bool
}.

(** The values in [bot_config.py]. *)
Definition bot_config : BotConfig :=
  {| BATCH_SIZE := 50; MAX_CONCURRENT_WORKERS := 50;
     ENABLE_BATCH_PROCESSING := true |}.

(** An exception object: an instance of [Exception] with its text, or an
    instance of a [BaseException] that is no [Exception] (a cancellation,
    [asyncio.CancelledError], for instance) with the name of its class
    and its text.  An [except Exception] clause catches the first kind
    only, and [isinstance(result, Exception)] is true of the first kind
    only. *)
Inductive exception :=
| Exc (msg : string)
| BaseExc (class_name msg : string).

(** What happens to one task of a batch.  The tasks of a batch share the
    session manager and interleave at their [await] points; whatever the
    interleaving, each task sees some ending of [get_or_create_session]
    and some answers of the portal, or is stopped by an exception that
    [process_account] does not handle itself.  [process_account] handles
    the [Exception]s of its body, so what stops a task is as a rule of
    the second kind; the orchestrator provides for both. *)
Record task_world := {
  stopped : option exception;
  acquired : Session.result (nat * bool);
  exchange : Scraper.api_exchange;
  fetched : Scraper.pages
}.

(** One element of what [asyncio.gather] with [return_exceptions=True]
    returns: the task's value or the exception that ended it. *)
Inductive gathered :=
| Value (result : AccountData)
| Thrown (e : exception).

(** One element of [batch_results]: a record, or the exception object of
    a task that a [BaseException] ended, which [process_batch_concurrent]
    passes on as it is. *)
Inductive item :=
| Rec (result : AccountData)
| Obj (class_name msg : string).

(** What [update.message.reply_text] is asked to send.  An account
    notification is sent with markdown first and, when that raises,
    once more without. *)
Inductive message :=
| BatchModeEnabled (batches : nat) (batch_size : Z)
| BatchStarted (batch_num : nat) (batches : nat) (size : nat)
| AccountResult (result : AccountData) (current total : Z) (markdown : bool)
| BatchCompleted (batch_num : nat)
| SavingResults.

(** The two calls that save the records of a run. *)
Inductive db_call :=
| SaveAccountResults          (* db_manager.save_account_results_batch *)
| SaveTransactionResults.     (* db_manager.save_transaction_results_batch *)

(** What the orchestrator has done to its surroundings, in order: the
    chat messages delivered, the pauses taken and the saves made. *)
Inductive event :=
| Replied (m : message)
| Slept
| Saved (call : db_call) (saved : list AccountData).

(** How a method ends: it returns, or an exception leaves it. *)
Inductive ended (A : Type) :=
| Returned (a : A)
| Raised (e : exception).
Arguments Returned {A} a.
Arguments Raised {A} e.

(** The three statuses a finished record can have. *)
Definition terminal (a : AccountData) : Prop :=
  status a = "Success" \/ status a = "Partial Success" \/ status a = "Error".

(** [successful + partial + failed]. *)
Definition counted (r : ProcessingResult) : Z :=
  successful r + partial r + failed r.

(** [range(0, total, step)] for a positive [step]. *)
Fixpoint range_from (start : nat) (count : nat) (step : nat) : list nat :=
  match count with
  | O => []
  | S k => start :: range_from (start + step) k step
  end.

Definition range (total step : nat) : list nat :=
  range_from 0 ((total + step - 1) / step) step.

(** [l[i:i + n]]. *)
Definition slice {A : Type} (l : list A) (i n : nat) : list A :=
  firstn n (skipn i l).

(** The state of a run between two steps: the [ProcessingResult] object
    with its records, the local variables of the method, and what the
    run has done so far.  [stray] is the object that [add_result]
    appended to [results.results] behind the records and on which it
    then raised; nothing is appended after it. *)
Record run_state := {
  results : ProcessingResult;
  stray : option (string * string);
  processed_count : Z;
  all_batch_results : list AccountData;
  events : list event;
  created : nat;                      (* tasks created so far *)
  replies : nat                       (* calls of reply_text so far *)
}.

(** The state in which a run starts. *)
Definition initial (results0 : ProcessingResult) (processed_count0 : Z)
  : run_state :=
  {| results := results0; stray := None;
     processed_count := processed_count0; all_batch_results := [];
     events := []; created := 0; replies := 0 |}.

Definition emit (e : event) (s : run_state) : run_state :=
  {| results := results s; stray := stray s;
     processed_count := processed_count s;
     all_batch_results := all_batch_results s;
     events := (events s ++ [e])%list; created := created s;
     replies := replies s |}.

Definition called (s : run_state) : run_state :=
  {| results := results s; stray := stray s;
     processed_count := processed_count s;
     all_batch_results := all_batch_results s;
     events := events s; created := created s;
     replies := S (replies s) |}.

Definition spawned (n : nat) (s : run_state) : run_state :=
  {| results := results s; stray := stray s;
     processed_count := processed_count s;
     all_batch_results := all_batch_results s;
     events := events s; created := (created s + n)%nat;
     replies := replies s |}.

(** [results.add_result(result)] for a record. *)
Definition added (result : AccountData) (s : run_state) : run_state :=
  {| results := add_result result (results s); stray := stray s;
     processed_count := processed_count s;
     all_batch_results := all_batch_results s;
     events := events s; created := created s; replies := replies s |}.

(** [self.results.append(result)] for an object that is no record. *)
Definition strayed (class_name msg : string) (s : run_state) : run_state :=
  {| results := results s; stray := Some (class_name, msg);
     processed_count := processed_count s;
     all_batch_results := all_batch_results s;
     events := events s; created := created s; replies := replies s |}.

(** [processed_count += 1; all_batch_results.append(result)]. *)
Definition counted_in (result : AccountData) (s : run_state) : run_state :=
  {| results := results s; stray := stray s;
     processed_count := processed_count s + 1;
     all_batch_results := (all_batch_results s ++ [result])%list;
     events := events s; created := created s; replies := replies s |}.

(** A step of a run changes the state and returns or raises; the state
    keeps what was done before the exception. *)
Definition M (A : Type) : Type := run_state -> ended A * run_state.

Definition ret {A} (a : A) : M A := fun s => (Returned a, s).
Definition bind {A B} (c : M A) (k : A -> M B) : M B :=
  fun s => match c s with
           | (Returned a, s') => k a s'
           | (Raised e, s') => (Raised e, s')
           end.

(** [try: c  except Exception as e: h(str(e))]. *)
Definition catch {A} (c : M A) (h : string -> M A) : M A :=
  fun s => match c s with
           | (Raised (Exc msg), s') => h msg s'
           | other => other
           end.

Definition modify (f : run_state -> run_state) : M unit :=
  fun s => (Returned tt, f s).
Definition read {A} (f : run_state -> A) : M A :=
  fun s => (Returned (f s), s).

Declare Scope bot_scope.
Delimit Scope bot_scope with bot.
Notation "x <- c ;; k" := (bind c (fun x => k))
  (at level 100, c at next level, right associativity) : bot_scope.
Notation "c ;;; k" := (bind c (fun _ => k))
  (at level 100, right associativity) : bot_scope.
Local Open Scope bot_scope.

(** [result.status] does not exist on an exception object. *)
Definition no_status (class_name : string) : string :=
  "'" ++ class_name ++ "' object has no attribute 'status'".

(** [results.add_result(result)] for an element of [batch_results]: the
    element is appended first and its status is read next. *)
Definition results_add_result (result : item) : M AccountData :=
  fun s =>
    match result with
    | Rec a => (Returned a, added a s)
    | Obj class_name msg =>
        (Raised (Exc (no_status class_name)), strayed class_name msg s)
    end.

(** [await asyncio.sleep(...)]. *)
Definition sleep : M unit := modify (emit Slept).

Section Run.

Variable config : BotConfig.

Variable repr : Py.value -> string.
Variable find_class_text : string -> string -> option string.
Variable select_one_text : string -> string -> option string.
Variable json_loads : string -> option Py.value.
Variable html_error_text : string -> option string.
Variable debug_listing : string -> option string.

(** [world k] is what happens to the [k]-th task the run creates;
    [gather_raises k] is the exception, if any, that the [await] of the
    batch whose first task is the [k]-th raises instead of returning. *)
Variable world : nat -> task_world.
Variable gather_raises : nat -> option string.

(** The chat and the database: [reply_raises k m] is the exception, if
    any, that the [k]-th call of [reply_text] of the run raises when it
    is asked to send [m], and [db_raises call] the exception that the
    save [call] raises.  Both are [Exception]s; a call that is cancelled
    ends the whole run and is left out. *)
Variable reply_raises : nat -> message -> option string.
Variable db_raises : db_call -> option string.

(** [await update.message.reply_text(...)]. *)
Definition reply_text (m : message) : M unit :=
  fun s =>
    match reply_raises (replies s) m with
    | Some msg => (Raised (Exc msg), called s)
    | None => (Returned tt, emit (Replied m) (called s))
    end.

(** [send_account_result(update, result, current, total)]: the fallback
    without markdown is not guarded. *)
Definition send_account_result (result : AccountData) (current total : Z)
  : M unit :=
  catch (reply_text (AccountResult result current total true))
    (fun _ => reply_text (AccountResult result current total false)).

(** [db_manager.save_..._results_batch(..., saved)]. *)
Definition save (call : db_call) (saved : list AccountData) : M unit :=
  fun s =>
    match db_raises call with
    | Some msg => (Raised (Exc msg), s)
    | None => (Returned tt, emit (Saved call saved) s)
    end.

(** "Save all results to database", the end of both modes. *)
Definition save_results : M unit :=
  saved <- read all_batch_results ;;
  match saved with
  | [] => ret tt
  | _ =>
      reply_text SavingResults ;;;
      save SaveAccountResults saved ;;;
      save SaveTransactionResults saved
  end.

(** The task created by [process_account(account)] as the [k]-th. *)
Definition run_task (k : nat) (account : AccountCredentials) : gathered :=
  match stopped (world k) with
  | Some e => Thrown e
  | None =>
      Value (fst (Scraper.process_account_with repr find_class_text
                    select_one_text json_loads html_error_text
                    debug_listing
                    (acquired (world k)) (exchange (world k))
                    (fetched (world k)) account))
  end.

Fixpoint gather (k : nat) (batch : list AccountCredentials) : list gathered :=
  match batch with
  | [] => []
  | account :: rest => run_task k account :: gather (S k) rest
  end.

(** The loop [for i, result in enumerate(results)]. *)
Fixpoint collect (batch : list AccountCredentials) (results : list gathered)
  : list item :=
  match batch, results with
  | account :: batch', Thrown (Exc msg) :: results' =>
      Rec (AccountData_init (cred_username account) "Error"
             ("Processing failed: " ++ msg))
      :: collect batch' results'
  | _ :: batch', Thrown (BaseExc class_name msg) :: results' =>
      Obj class_name msg :: collect batch' results'
  | _ :: batch', Value result :: results' =>
      Rec result :: collect batch' results'
  | _, _ => []
  end.

(** [process_batch_concurrent(batch)], the batch starting at task [k]. *)
Definition process_batch_concurrent (k : nat)
  (batch : list AccountCredentials) : list item :=
  match gather_raises k with
  | None => collect batch (gather k batch)
  | Some msg =>
      map (fun account =>
             Rec (AccountData_init (cred_username account) "Error"
                    ("Batch processing failed: " ++ msg)))
        batch
  end.

(** [await self.process_batch_concurrent(batch)] within a run. *)
Definition await_batch (batch : list AccountCredentials) : M (list item) :=
  fun s =>
    (Returned (process_batch_concurrent (created s) batch),
     spawned (List.length batch) s).

(** What a stretch of the run has added to the state. *)
Definition extended (s s' : run_state) (records : list AccountData) : Prop :=
  Models.results (results s') = (Models.results (results s) ++ records)%list
  /\ all_batch_results s' = (all_batch_results s ++ records)%list
  /\ processed_count s' = processed_count s + Z.of_nat (List.length records)
  /\ counted (results s') = counted (results s)
                            + Z.of_nat (List.length records)
  /\ total_accounts (results s') = total_accounts (results s).

(** The loop "Add results and send individual notifications". *)
Fixpoint add_results (total_accounts : Z) (batch_results : list item)
  : M unit :=
  match batch_results with
  | [] => ret tt
  | result :: rest =>
      a <- results_add_result result ;;
      modify (counted_in a) ;;;
      current <- read processed_count ;;
      send_account_result a current total_accounts ;;;
      add_results total_accounts rest
  end.

(** "Delay between batches (except for the last batch)". *)
Definition pause_between (n_batches batch_num : nat) : M unit :=
  if (batch_num <? n_batches)%nat
  then reply_text (BatchCompleted batch_num) ;;; sleep
  else ret tt.

(** The loop [for batch_num, batch in enumerate(batches, 1)]. *)
Fixpoint run_batches (total_accounts : Z) (n_batches batch_num : nat)
  (batches : list (list AccountCredentials)) : M unit :=
  match batches with
  | [] => ret tt
  | batch :: rest =>
      reply_text (BatchStarted batch_num n_batches (List.length batch)) ;;;
      batch_results <- await_batch batch ;;
      add_results total_accounts batch_results ;;;
      pause_between n_batches batch_num ;;;
      run_batches total_accounts n_batches (S batch_num) rest
  end.

(** [process_accounts_batch(update, accounts, results, processed_count,
    request_id, transaction_id)].  It raises [ValueError] when [range]
    gets a zero step. *)
Definition process_accounts_batch (accounts : list AccountCredentials)
  (results0 : ProcessingResult) (processed_count0 : Z)
  : ended unit * run_state :=
  let s0 := initial results0 processed_count0 in
  let total_accounts := Z.of_nat (List.length accounts) in
  let batch_size := Z.min (BATCH_SIZE config) total_accounts in
  if batch_size =? 0 then
    (Raised (Exc "range() arg 3 must not be zero"), s0)
  else
    let batches :=
      if batch_size <? 0 then []
      else
        map (fun i => slice accounts i (Z.to_nat batch_size))
          (range (List.length accounts) (Z.to_nat batch_size)) in
    (reply_text (BatchModeEnabled (List.length batches) batch_size) ;;;
     run_batches total_accounts (List.length batches) 1 batches ;;;
     save_results) s0.

End Run.

End Bot.

(** ** What a run of the orchestrator shows to the chat *)

Module BotView.

Import Models Bot.

(** The account notifications among the events, in order: the record
    sent, its number and the total ("Account i/total"), whether it went
    out with markdown or without. *)
Fixpoint sent (events : list event) : list (AccountData * Z * Z) :=
  match events with
  | [] => []
  | Replied (AccountResult result current total _) :: rest =>
      (result, current, total) :: sent rest
  | _ :: rest => sent rest
  end.

(** [records] numbered [start + 1], [start + 2], ... of [total]. *)
Fixpoint numbered (start total : Z) (records : list AccountData)
  : list (AccountData * Z * Z) :=
  match records with
  | [] => []
  | r :: rest => (r, start + 1, total) :: numbered (start + 1) total rest
  end.

(** The sizes of the batches announced, in order. *)
Fixpoint batch_sizes (events : list event) : list nat :=
  match events with
  | [] => []
  | Replied (BatchStarted _ _ size) :: rest => size :: batch_sizes rest
  | _ :: rest => batch_sizes rest
  end.

(** The number of pauses taken. *)
Fixpoint pauses (events : list event) : nat :=
  match events with
  | [] => O
  | Slept :: rest => S (pauses rest)
  | _ :: rest => pauses rest
  end.

(** The batches announced and the pauses taken, in the order in which
    they happened. *)
Inductive beat :=
| Batch (batch_num size : nat)
| Pause.

Fixpoint rhythm (events : list event) : list beat :=
  match events with
  | [] => []
  | Replied (BatchStarted batch_num _ size) :: rest =>
      Batch batch_num size :: rhythm rest
  | Slept :: rest => Pause :: rhythm rest
  | _ :: rest => rhythm rest
  end.

(** Batches of the given sizes, numbered from [batch_num], with one
    pause between two consecutive batches and none after the last. *)
Fixpoint paced (batch_num : nat) (sizes : list nat) : list beat :=
  match sizes with
  | [] => []
  | size :: rest =>
      Batch batch_num size
      :: match rest with
         | [] => []
         | _ => Pause :: paced (S batch_num) rest
         end
  end.

(** The records of [l] whose status passes [p]. *)
Definition count_where (p : string -> bool) (l : list AccountData) : Z :=
  Z.of_nat (List.length (filter (fun a => p (status a)) l)).

(** The three counters of a [ProcessingResult] agree with its list of
    records. *)
Definition tallied (r : ProcessingResult) : Prop :=
  successful r = count_where (String.eqb "Success") (Models.results r)
  /\ partial r = count_where (String.eqb "Partial Success") (Models.results r)
  /\ failed r
     = count_where
         (fun s => negb (String.eqb "Success" s)
                   && negb (String.eqb "Partial Success" s))
         (Models.results r).

(** Two states of a run that differ at most in the events and in the
    number of chat calls. *)
Definition same_run (s s' : run_state) : Prop :=
  results s' = results s /\ stray s' = stray s
  /\ processed_count s' = processed_count s
  /\ all_batch_results s' = all_batch_results s
  /\ created s' = created s.

(** From [s] to [s'] the run has added [records], in this order, and
    delivered the notifications of the first [j] of them, numbered from
    the count it started with; only the notification of the last record
    can be missing. *)
Definition progress (total : Z) (s s' : run_state)
  (records : list AccountData) (j : nat) : Prop :=
  extended s s' records
  /\ sent (events s')
     = (sent (events s)
        ++ numbered (processed_count s) total (firstn j records))%list
  /\ (tallied (results s) -> tallied (results s'))
  /\ (List.length records <= S j)%nat /\ (j <= List.length records)%nat.

(** The first attempt to send an account notification, with markdown. *)
Definition first_attempt (m : message) : bool :=
  match m with
  | AccountResult _ _ _ markdown => markdown
  | _ => false
  end.

(** The chat delivers every message: no call of [reply_text] raises,
    except possibly the first attempts of account notifications, which
    are sent again without markdown. *)
Definition chat_delivers (reply_raises : nat -> message -> option string)
  : Prop :=
  forall k m, first_attempt m = false -> reply_raises k m = None.

(** No task is ended by a [BaseException] that is no [Exception]. *)
Definition no_task_cancelled (world : nat -> task_world) : Prop :=
  forall k class_name msg, stopped (world k) <> Some (BaseExc class_name msg).

(** An element of [batch_results] made for [account]: a record that
    carries the account's user name and a terminal status, or the
    exception object of a task that a [BaseException] ended. *)
Definition item_ok (world : nat -> task_world) (account : AccountCredentials)
  (it : item) : Prop :=
  match it with
  | Rec a => username a = cred_username account /\ terminal a
  | Obj class_name msg =>
      exists k, stopped (world k) = Some (BaseExc class_name msg)
  end.

(** Both saves go through. *)
Definition database_saves (db_raises : db_call -> option string) : Prop :=
  forall call, db_raises call = None.

End BotView.

(** ** telegram_bot.py: the sequential fallback *)

Module Sequential.

Import Models Bot.
Local Open Scope bot_scope.

(** [f"Processing failed: {str(e)}" if str(e) else "Unknown processing
    error occurred"]. *)
Definition failure_text (msg : string) : string :=
  if Text.nonempty msg then "Processing failed: " ++ msg
  else "Unknown processing error occurred".

Section Run.

Variable repr : Py.value -> string.
Variable find_class_text : string -> string -> option string.
Variable select_one_text : string -> string -> option string.
Variable json_loads : string -> option Py.value.
Variable html_error_text : string -> option string.
Variable debug_listing : string -> option string.

(** [world k] is what happens to the [k]-th call of [process_account];
    the chat and the database are as in [Bot]. *)
Variable world : nat -> task_world.
Variable reply_raises : nat -> message -> option string.
Variable db_raises : db_call -> option string.

(** [await process_account(account)], awaited in the loop itself: an
    exception it does not handle is raised there. *)
Definition await_process_account (account : AccountCredentials)
  : M AccountData :=
  fun s =>
    match run_task repr find_class_text select_one_text json_loads
            html_error_text debug_listing world (created s) account with
    | Value result => (Returned result, spawned 1 s)
    | Thrown e => (Raised e, spawned 1 s)
    end.

(** [results.add_result(r); processed_count += 1; all_results.append(r);
    await self.send_account_result(update, r, processed_count,
    total_accounts)]. *)
Definition record_and_send (total_accounts : Z) (r : AccountData) : M unit :=
  modify (added r) ;;;
  modify (counted_in r) ;;;
  current <- read processed_count ;;
  send_account_result reply_raises r current total_accounts.

(** The body of [for account in accounts]: the [try] block and its
    [except Exception as e] branch, whose own notification is not
    guarded. *)
Definition step (total_accounts : Z) (account : AccountCredentials)
  : M unit :=
  catch
    (result <- await_process_account account ;;
     record_and_send total_accounts result ;;;
     sleep)
    (fun msg =>
       record_and_send total_accounts
         (AccountData_init (cred_username account) "Error"
            (failure_text msg))).

Fixpoint loop (total_accounts : Z) (accounts : list AccountCredentials)
  : M unit :=
  match accounts with
  | [] => ret tt
  | account :: rest =>
      step total_accounts account ;;; loop total_accounts rest
  end.

(** [process_accounts_sequential(update, accounts, results,
    processed_count, request_id, transaction_id)]. *)
Definition process_accounts_sequential (accounts : list AccountCredentials)
  (results0 : ProcessingResult) (processed_count0 : Z)
  : ended unit * run_state :=
  (loop (Z.of_nat (List.length accounts)) accounts ;;;
   save_results reply_raises db_raises)
    (initial results0 processed_count0).

End Run.

End Sequential.

(** ** telegram_bot.py: [parse_message] *)

Module Message.

(** [s.split('\n')]. *)
Fixpoint split_lines (s : string) : list string :=
  match s with
  | EmptyString => [EmptyString]
  | String c t =>
      if Ascii.eqb c "010" then EmptyString :: split_lines t
      else
        match split_lines t with
        | line :: rest => String c line :: rest
        | [] => [String c EmptyString]
        end
  end.

(** [[line.strip() for line in message_text.strip().split('\n')
     if line.strip()]]. *)
Definition lines_of (message_text : string) : list string :=
  filter Text.nonempty (map Py.strip (split_lines (Py.strip message_text))).

(** [.] without [re.DOTALL]. *)
Definition dot : Re.regex := Re.Chr (fun c => negb (Ascii.eqb c "010")).

(** [r'^(pass|password)\s*:\s*(.+)$'] with [re.IGNORECASE], up to the
    [$]; only the second group is read, it is the [Group] here. *)
Definition password_pattern : Re.regex :=
  Re.Seq (Re.Alt (Re.lit_i "pass") (Re.lit_i "password"))
    (Re.Seq (Re.Star Re.space)
       (Re.Seq (Re.chr ":")
          (Re.Seq (Re.Star Re.space) (Re.Group (Re.plus dot))))).

(** [$] without [re.MULTILINE]: the end of the text, or the place before
    a newline that ends the text. *)
Definition at_end (rest : string) : bool :=
  match rest with
  | EmptyString => true
  | String c EmptyString => Ascii.eqb c "010"
  | _ => false
  end.

(** [password_pattern.match(line)] and, when it matches, [group(2)]. *)
Definition match_password (line : string) : option string :=
  match Re.run password_pattern None line None
          (fun _ rest cap => if at_end rest then Some cap else None) with
  | Some (Some g) => Some g
  | _ => None
  end.

(** The [ValueError]s of [parse_message], by what they say. *)
Inductive parse_error :=
| NoAccountNumber                        (* "Please provide at least one account number." *)
| NoPassword                             (* "No password provided. ..." *)
| InvalidAccountNumber (num : string)    (* "Invalid account number: ..." *)
| TooManyAccounts (allowed : Z).         (* "Too many accounts. ..." *)

(** The loop [for num in account_numbers: if not num.isdigit(): raise]. *)
Fixpoint first_invalid (account_numbers : list string) : option string :=
  match account_numbers with
  | [] => None
  | num :: rest => if Py.isdigit num then first_invalid rest else Some num
  end.

Section Settings.

(** [bot_config.MAX_ACCOUNTS_PER_REQUEST] and what
    [user_manager.get_user_default_password(user_id)] returns. *)
Variable MAX_ACCOUNTS_PER_REQUEST : Z.
Variable default_password : option string.

(** [parse_message(message_text, user_id)]. *)
Definition parse_message (message_text : string)
  : (list string * string) + parse_error :=
  let lines := lines_of message_text in
  if (List.length lines <? 1)%nat then inr NoAccountNumber
  else
    let '(password, account_numbers) :=
      match match_password (last lines EmptyString) with
      | Some g => (Some (Py.strip g), removelast lines)
      | None => (None, lines)
      end in
    let password' :=
      match password with
      | Some p => Some p
      | None =>
          match default_password with
          | Some d => if Text.nonempty d then Some d else None
          | None => None
          end
      end in
    match password' with
    | None => inr NoPassword
    | Some p =>
        match account_numbers with
        | [] => inr NoAccountNumber
        | _ =>
            match first_invalid account_numbers with
            | Some num => inr (InvalidAccountNumber num)
            | None =>
                if MAX_ACCOUNTS_PER_REQUEST
                   <? Z.of_nat (List.length account_numbers)
                then inr (TooManyAccounts MAX_ACCOUNTS_PER_REQUEST)
                else inl (account_numbers, p)
            end
        end
    end.

End Settings.

End Message.

(** ** bot_config.py: [validate_config] *)

Module Front.

Import Models Bot.

(** The settings [validate_config] reads.  [TELEGRAM_BOT_TOKEN] is what
    [os.getenv('TELEGRAM_BOT_TOKEN')] returns; [batch] holds the settings
    of batch processing. *)
Record BotSettings := {
  TELEGRAM_BOT_TOKEN : option string;
  BOT_TOKEN : string;
  MAX_ACCOUNTS_PER_REQUEST : Z;
  batch : BotConfig;
  BATCH_DELAY : spec_float;
  REQUEST_DELAY : spec_float
}.

Definition placeholder : string := "YOUR_BOT_TOKEN_HERE".

(** [BotConfig.get_bot_token()]. *)
Definition get_bot_token (c : BotSettings) : option string :=
  let fallback :=
    if Text.nonempty (BOT_TOKEN c)
       && negb (String.eqb (BOT_TOKEN c) placeholder)
    then Some (BOT_TOKEN c) else None in
  match TELEGRAM_BOT_TOKEN c with
  | Some token => if Text.nonempty token then Some token else fallback
  | None => fallback
  end.

(** [x < y] and [x > y] for a float [x] and a number [y]; a NaN compares
    false. *)
Definition float_lt (x y : spec_float) : bool := SFltb x y.
Definition float_gt (x y : spec_float) : bool := SFltb y x.

(** The warnings of [validate_config], in order. *)
Definition warnings_of (c : BotSettings) : list string :=
  ((if (30 <? BATCH_SIZE (batch c))
       && (15 <? MAX_CONCURRENT_WORKERS (batch c))
    then ["High concurrency settings may cause rate limiting."] else [])
   ++ (if float_lt (REQUEST_DELAY c) (Py.float_of_decimal false 5 (-2))
       then ["Very low REQUEST_DELAY may trigger rate limiting."] else [])
   ++ (if float_lt (BATCH_DELAY c) (Py.float_of_decimal false 1 (-1))
          && (30 <? BATCH_SIZE (batch c))
       then ["Low BATCH_DELAY with large BATCH_SIZE may overwhelm the server."]
       else []))%list.

(** [BotConfig.validate_config()]. *)
Definition validate_config (c : BotSettings) : bool * string :=
  match get_bot_token c with
  | None =>
      (false, "Bot token not configured. Please set BOT_TOKEN or TELEGRAM_BOT_TOKEN environment variable.")
  | Some token =>
      if negb (Text.nonempty token) then
        (false, "Bot token not configured. Please set BOT_TOKEN or TELEGRAM_BOT_TOKEN environment variable.")
      else if String.eqb token placeholder then
        (false, "Please replace 'YOUR_BOT_TOKEN_HERE' with your actual bot token from @BotFather.")
      else if MAX_ACCOUNTS_PER_REQUEST c <=? 0 then
        (false, "MAX_ACCOUNTS_PER_REQUEST must be greater than 0.")
      else if 1000 <? MAX_ACCOUNTS_PER_REQUEST c then
        (false, "MAX_ACCOUNTS_PER_REQUEST should not exceed 1000 for performance reasons.")
      else if BATCH_SIZE (batch c) <=? 0 then
        (false, "BATCH_SIZE must be greater than 0.")
      else if 100 <? BATCH_SIZE (batch c) then
        (false, "BATCH_SIZE should not exceed 100 to avoid overwhelming the server.")
      else if MAX_CONCURRENT_WORKERS (batch c) <=? 0 then
        (false, "MAX_CONCURRENT_WORKERS must be greater than 0.")
      else if 50 <? MAX_CONCURRENT_WORKERS (batch c) then
        (false, "MAX_CONCURRENT_WORKERS should not exceed 50 for stability.")
      else if float_lt (BATCH_DELAY c) (Py.float_of_Z 0) then
        (false, "BATCH_DELAY cannot be negative.")
      else if float_gt (BATCH_DELAY c) (Py.float_of_Z 60) then
        (false, "BATCH_DELAY should not exceed 60 seconds for reasonable processing time.")
      else if float_lt (REQUEST_DELAY c) (Py.float_of_Z 0) then
        (false, "REQUEST_DELAY cannot be negative.")
      else if float_gt (REQUEST_DELAY c) (Py.float_of_Z 10) then
        (false, "REQUEST_DELAY should not exceed 10 seconds for reasonable processing time.")
      else
        (true,
         "Configuration is valid."
         ++ match warnings_of c with
            | [] => EmptyString
            | warnings => " Warnings: " ++ Text.join "; " warnings
            end)
  end.

(** [[AccountCredentials(username=num, password=password) for num in
    account_numbers]]: the accounts that [process_accounts] hands to the
    orchestrator. *)
Definition credentials_of (account_numbers : list string) (password : string)
  : list AccountCredentials :=
  map (fun num => {| cred_username := num; cred_password := password |})
    account_numbers.

End Front.

(** ** scraper.py: reading the accounts and writing the results *)

Module Cli.

Import Models.

Fixpoint zeros (n : nat) : string :=
  match n with
  | O => EmptyString
  | S k => String "0" (zeros k)
  end.

(** [s.zfill(width)]: a leading sign stays in front of the zeros. *)
Definition zfill (width : nat) (s : string) : string :=
  let pad := zeros (width - String.length s) in
  match s with
  | String c t =>
      if Ascii.eqb c "+" || Ascii.eqb c "-" then String c (pad ++ t)
      else pad ++ s
  | EmptyString => pad
  end.

(** One row of [csv.DictReader]: what [row.get('username')] and
    [row.get('password')] return. *)
Record csv_row := {
  row_username : option string;
  row_password : option string
}.

(** What opening and reading the input file gives: the file is missing,
    some other exception is raised before a row is read, or the reader
    has [fieldnames] ([None] for an empty file) and yields [rows], after
    which it ends or raises. *)
Inductive csv_source :=
| FileNotFound
| ReadFails (msg : string)
| Opened (fieldnames : option (list string)) (rows : list csv_row)
         (raises_at_end : option string).

Definition truthy_text (v : option string) : bool :=
  match v with
  | Some s => Text.nonempty s
  | None => false
  end.

(** "Format username to ensure 8 digits with leading zeros". *)
Definition format_username (raw : string) : string :=
  let username := Py.strip raw in
  if Py.isdigit username && (String.length username <=? 8)%nat
  then zfill 8 username else username.

(** The body of [for row in reader]. *)
Definition account_of_row (row : csv_row) : option AccountCredentials :=
  match row_username row, row_password row with
  | Some u, Some p =>
      if Text.nonempty u && Text.nonempty p
      then Some {| cred_username := format_username u; cred_password := p |}
      else None
  | _, _ => None
  end.

Fixpoint accounts_of_rows (rows : list csv_row) : list AccountCredentials :=
  match rows with
  | [] => []
  | row :: rest =>
      match account_of_row row with
      | Some a => a :: accounts_of_rows rest
      | None => accounts_of_rows rest
      end
  end.

(** [load_accounts()].  Every exception ends in [return accounts]. *)
Definition load_accounts (src : csv_source) : list AccountCredentials :=
  match src with
  | FileNotFound | ReadFails _ => []
  | Opened None _ _ => []          (* ['username' not in None] raises *)
  | Opened (Some fieldnames) rows _ =>
      if negb (existsb (String.eqb "username") fieldnames)
         || negb (existsb (String.eqb "password") fieldnames)
      then []
      else accounts_of_rows rows
  end.









End Cli.

(** ** The shape of what the patterns capture *)

Module Shape.

(** Every character class of the pattern [r] lies within [q]. *)
Fixpoint chars_within (q : ascii -> bool) (r : Re.regex) : Prop :=
  match r with
  | Re.Chr p => forall c, p c = true -> q c = true
  | Re.Seq r1 r2 | Re.Alt r1 r2 => chars_within q r1 /\ chars_within q r2
  | Re.Star r1 | Re.Group r1 => chars_within q r1
  | Re.Eps | Re.Boundary | Re.EndOfLine => True
  end.

(** The class [[\d/\-\.]]. *)
Definition is_date_char (c : ascii) : bool :=
  Py.is_ascii_digit c || Ascii.eqb c "/" || Ascii.eqb c "-"
  || Ascii.eqb c ".".

(** A text that is not empty and made of digits and the separators
    [/], [-] and [.] only. *)
Definition date_text (s : string) : Prop :=
  Text.nonempty s = true /\ Py.all_chars is_date_char s = true.

(** The field value [new] is the value [old] that was there before, or a
    date text. *)
Definition kept_or_date (old new : Py.value) : Prop :=
  new = old \/ exists d, new = Py.PStr d /\ date_text d.

End Shape.

(** ** What a failed stage leaves in the record *)

Module StageView.

Import Models Py Scraper.






End StageView.

(** ** What the registry guarantees to its callers *)

Module SessionState.

Import Session.

(** No [APIClient] object is registered for two users, every registered
    client was created by this manager, and a session is filed under its
    own user name. *)
Definition clients_private (m : SessionManager) : Prop :=
  (forall u s, lookup u (_sessions m) = Some s ->
     (client s < clients m)%nat /\ username s = u)
  /\ (forall u v s t,
        lookup u (_sessions m) = Some s -> lookup v (_sessions m) = Some t ->
        client s = client t -> u = v).

(** [timedelta(minutes=n)] can be built: Python raises [OverflowError]
    for a duration of more than 999999999 days either way. *)
Definition timedelta_exists (minutes : Z) : Prop :=
  -999999999 <= minutes / 1440 <= 999999999.

(** Both durations of the manager can be built, so that [is_expired] and
    [is_idle] return. *)
Definition durations_exist (m : SessionManager) : Prop :=
  timedelta_exists (_max_age_minutes m)
  /\ timedelta_exists (_max_idle_minutes m).

(** The login attempts so far were made by the clients [0], [1], ... in
    the order of their creation, one attempt per client. *)
Definition one_login_per_client (m : SessionManager) : Prop :=
  map ev_client (logins m) = rev (seq 0 (clients m)).

End SessionState.

(** ** Concrete worlds used to run the model *)

Module Scenario.

Import Http.

Definition u0 : string := "03123456".
Definition p0 : string := "secret".

(** One clock reading per second. *)
Definition clock0 (k : nat) : Z := Z.of_nat k * 1000000.

(** A clock that stands at minute seven. *)
Definition clock7 (k : nat) : Z := 420000000.

Definition page (address body : string) : Response :=
  {| status_code := 200; reason := "OK"; url := address;
     content_type := Some "text/html; charset=utf-8"; text := body |}.

(** A portal that accepts every login. *)
Definition portal_ok (c : nat) (u p : string) : Login.exchange :=
  {| Login.login_page := Responded (page "https://www.alfa.com.lb/en/account/login" "<form>");
     Login.login_post := Responded (page Config.ACCOUNT "Dashboard");
     Login.dashboard_page := Responded (page Config.ACCOUNT "Current Balance") |}.

(** A portal that rejects every login. *)
Definition portal_bad (c : nat) (u p : string) : Login.exchange :=
  {| Login.login_page := Responded (page "https://www.alfa.com.lb/en/account/login" "<form>");
     Login.login_post :=
       Responded (page "https://www.alfa.com.lb/en/account/login"
                    "Invalid username or password");
     Login.dashboard_page := Responded (page Config.ACCOUNT EmptyString) |}.

(** The default manager after one successful login of [u0]. *)
Definition manager1 : Session.SessionManager :=
  snd (Session.get_or_create_session clock0 portal_ok u0 p0
         Session.session_manager).

(** A manager with [max_age_minutes = 5] and [max_idle_minutes = 10]
    holding one valid session that logged in at minute zero and was last
    used at minute six. *)
Definition session7 : Session.SessionInfo :=
  {| Session.client := 0%nat; Session.username := u0;
     Session.password := p0; Session.login_time := 0;
     Session.last_used := 360000000; Session.is_valid := true |}.

Definition manager_5_10 : Session.SessionManager :=
  Session.with_sessions [(u0, session7)] (Session.__init__ 5 10).

(** Library behaviour used when a run needs one. *)
Definition repr0 (v : Py.value) : string := "<repr>".
Definition no_element (html selector : string) : option string := None.
Definition no_json (json_text : string) : option Py.value := None.
Definition no_error_element (html : string) : option string := None.
Definition listing_ok (username : string) : option string := None.

(** The login page served in place of a JSON answer. *)
Definition html_response : Response :=
  page Config.EXPIRY "<html><body>Sign in</body></html>".

Definition api_html : Scraper.api_exchange :=
  {| Scraper.timestamp := 1700000000000;
     Scraper.consumption := Responded html_response;
     Scraper.expiry := Responded html_response;
     Scraper.last_recharge := Responded html_response;
     Scraper.services := Responded html_response |}.

Definition pages_down : Scraper.pages :=
  {| Scraper.account_page := RaisedTimeout "timed out";
     Scraper.manage_services_page := RaisedTimeout "timed out" |}.

Definition credentials0 : Models.AccountCredentials :=
  {| Models.cred_username := u0; Models.cred_password := p0 |}.

(** A successful JSON answer carrying [d]. *)
Definition answered (d : Py.value) : Models.APIResponse :=
  {| Models.success := true; Models.data := d; Models.error := None;
     Models.status_code := Some 200; Models.raw_response := None |}.

(** A portal in good health.  The bodies of its JSON answers are named
    rather than spelled out; [parsed] is what [json.loads] makes of
    them. *)
Definition json_answer (body : string) : Response :=
  {| status_code := 200; reason := "OK"; url := Config.ACCOUNT;
     content_type := Some "application/json; charset=utf-8"; text := body |}.

Definition consumption_data : Py.value :=
  Py.PDict
    [("CurrentBalanceValue", Py.PStr "$12.50 ");
     ("ServiceInformationValue",
      Py.PList
        [Py.PDict
           [("ServiceNameValue", Py.PStr "U-share Main");
            ("ServiceDetailsInformationValue",
             Py.PList
               [Py.PDict
                  [("ConsumptionValue", Py.PStr "1500");
                   ("PackageValue", Py.PStr "20");
                   ("SecondaryValue",
                    Py.PList
                      [Py.PDict
                         [("SecondaryNumberValue", Py.PStr "71000001");
                          ("ConsumptionValue", Py.PStr "512");
                          ("QuotaValue", Py.PStr "5")];
                       Py.PDict
                         [("SecondaryNumberValue", Py.PStr "Mobile Internet");
                          ("ConsumptionValue", Py.PStr "2048");
                          ("QuotaValue", Py.PStr "5")]])]])]])].

Definition services_data : Py.value :=
  Py.PList
    [Py.PDict [("Name", Py.PStr "Alfa Voicemail")];
     Py.PDict
       [("Name", Py.PStr "USHARE Plan");
        ("ActiveBundle",
         Py.PDict
           [("Service",
             Py.PDict
               [("ServiceInfo",
                 Py.PDict [("NameEn", Py.PStr "U-share 20 GB")])])])]].

Definition parsed (body : string) : option Py.value :=
  if String.eqb body "consumption.json" then Some consumption_data
  else if String.eqb body "expiry.json" then Some (Py.PStr "15 days")
  else if String.eqb body "recharge.json" then
    Some (Py.PDict [("Amount", Py.PInt 10); ("Date", Py.PStr "01/02/2024")])
  else if String.eqb body "services.json" then Some services_data
  else None.

Definition api_ok : Scraper.api_exchange :=
  {| Scraper.timestamp := 1700000000000;
     Scraper.consumption := Responded (json_answer "consumption.json");
     Scraper.expiry := Responded (json_answer "expiry.json");
     Scraper.last_recharge := Responded (json_answer "recharge.json");
     Scraper.services := Responded (json_answer "services.json") |}.

Definition pages_ok : Scraper.pages :=
  {| Scraper.account_page := Responded (page Config.ACCOUNT "account page");
     Scraper.manage_services_page :=
       Responded (page Config.ACCOUNT "manage-services page") |}.

Definition activation_element (html class_name : string) : option string :=
  if String.eqb class_name "activation-date"
  then Some "Activation date: 03/04/2019" else None.

Definition links_element (html selector : string) : option string :=
  Some "Subscription date: 05/01/2024Validity date: 05/02/2024".

(** Every task finds its login rejected. *)
Definition rejected_world (k : nat) : Bot.task_world :=
  {| Bot.stopped := None;
     Bot.acquired :=
       Session.Raised "Login failed: Dashboard verification failed";
     Bot.exchange := api_html;
     Bot.fetched := pages_down |}.

(** A chat and a database that work. *)
Definition chat_ok (k : nat) (m : Bot.message) : option string := None.
Definition db_ok (call : Bot.db_call) : option string := None.


(** The world of [rejected_world] in which the second task is
    cancelled. *)
Definition second_cancelled (k : nat) : Bot.task_world :=
  if (k =? 1)%nat then
    {| Bot.stopped := Some (Bot.BaseExc "CancelledError" EmptyString);
       Bot.acquired := Bot.acquired (rejected_world k);
       Bot.exchange := api_html;
       Bot.fetched := pages_down |}
  else rejected_world k.

End Scenario.

(** * Properties *)

(** ** The registry as a dictionary *)

Module SessionFacts.

Import Session.
Local Open Scope session_scope.

Lemma lookup_in (u : string) (d : registry) (s : SessionInfo) :
  lookup u d = Some s -> In (u, s) d.
Proof.
  induction d as [|[k v] rest IH]; simpl; [discriminate|].
  destruct (String.eqb_spec k u) as [->|Hne]; intro H.
  - injection H as ->. now left.
  - right. now apply IH.
Qed.

Lemma lookup_none_keys (u : string) (d : registry) :
  lookup u d = None <-> ~ In u (map fst d).
Proof.
  induction d as [|[k v] rest IH]; simpl.
  - split; [intros _ []|reflexivity].
  - destruct (String.eqb_spec k u) as [->|Hne].
    + split; [discriminate|]. intro H. exfalso. apply H. now left.
    + rewrite IH. split; intro H.
      * intros [E|I]; [now apply Hne|now apply H].
      * intro I. apply H. now right.
Qed.

Lemma in_lookup (u : string) (d : registry) (s : SessionInfo) :
  dict_wf d -> In (u, s) d -> lookup u d = Some s.
Proof.
  unfold dict_wf.
  induction d as [|[k v] rest IH]; simpl; [intros _ []|].
  intros Hnd [E|I].
  - injection E as -> ->. now rewrite String.eqb_refl.
  - inversion Hnd as [|? ? Hk Hrest]; subst.
    destruct (String.eqb_spec k u) as [->|Hne].
    + exfalso. apply Hk. change u with (fst (u, s)). now apply in_map.
    + now apply IH.
Qed.

Lemma lookup_remove_other (u v : string) (d : registry) :
  u <> v -> lookup u (remove v d) = lookup u d.
Proof.
  intro Hne. induction d as [|[k w] rest IH]; simpl; [reflexivity|].
  destruct (String.eqb_spec k v) as [->|Hkv].
  - destruct (String.eqb_spec v u) as [E|_]; [now elim Hne|reflexivity].
  - simpl. now rewrite IH.
Qed.

Lemma keys_remove_subset (u v : string) (d : registry) :
  In u (map fst (remove v d)) -> In u (map fst d).
Proof.
  induction d as [|[k w] rest IH]; simpl; [tauto|].
  destruct (String.eqb k v); simpl; [tauto|].
  intros [E|I]; [now left|right; now apply IH].
Qed.

Lemma remove_wf (v : string) (d : registry) :
  dict_wf d -> dict_wf (remove v d).
Proof.
  unfold dict_wf.
  induction d as [|[k w] rest IH]; simpl; [trivial|].
  intro Hnd. inversion Hnd as [|? ? Hk Hrest]; subst.
  destruct (String.eqb k v); [assumption|].
  simpl. constructor; [|now apply IH].
  intro I. apply Hk. eapply keys_remove_subset, I.
Qed.

Lemma lookup_remove_same (u : string) (d : registry) :
  dict_wf d -> lookup u (remove u d) = None.
Proof.
  unfold dict_wf.
  induction d as [|[k w] rest IH]; simpl; [reflexivity|].
  intro Hnd. inversion Hnd as [|? ? Hk Hrest]; subst.
  destruct (String.eqb_spec k u) as [->|Hne].
  - now apply lookup_none_keys.
  - simpl. destruct (String.eqb_spec k u); [contradiction|]. now apply IH.
Qed.

Lemma lookup_remove_none (u v : string) (d : registry) :
  lookup u d = None -> lookup u (remove v d) = None.
Proof.
  rewrite !lookup_none_keys. intros H I. apply H.
  eapply keys_remove_subset, I.
Qed.

Lemma lookup_store_same (u : string) (s : SessionInfo) (d : registry) :
  lookup u (store u s d) = Some s.
Proof.
  induction d as [|[k w] rest IH]; simpl.
  - now rewrite String.eqb_refl.
  - destruct (String.eqb_spec k u) as [->|Hne]; simpl.
    + now rewrite String.eqb_refl.
    + destruct (String.eqb_spec k u); [contradiction|assumption].
Qed.

Lemma lookup_store_other (u v : string) (s : SessionInfo) (d : registry) :
  u <> v -> lookup u (store v s d) = lookup u d.
Proof.
  intro Hne. induction d as [|[k w] rest IH]; simpl.
  - destruct (String.eqb_spec v u) as [E|_]; [now elim Hne|reflexivity].
  - destruct (String.eqb_spec k v) as [->|Hkv]; simpl.
    + destruct (String.eqb_spec v u) as [E|_]; [now elim Hne|reflexivity].
    + now rewrite IH.
Qed.

Lemma keys_store_present (u : string) (s s0 : SessionInfo) (d : registry) :
  lookup u d = Some s0 -> map fst (store u s d) = map fst d.
Proof.
  induction d as [|[k w] rest IH]; simpl; [discriminate|].
  destruct (String.eqb_spec k u) as [->|Hne]; simpl; [reflexivity|].
  intro H. now rewrite IH.
Qed.

Lemma keys_store_absent (u : string) (s : SessionInfo) (d : registry) :
  lookup u d = None -> map fst (store u s d) = (map fst d ++ [u])%list.
Proof.
  induction d as [|[k w] rest IH]; simpl; [reflexivity|].
  destruct (String.eqb_spec k u) as [->|Hne]; simpl; [discriminate|].
  intro H. now rewrite IH.
Qed.

Lemma store_wf (u : string) (s : SessionInfo) (d : registry) :
  dict_wf d -> dict_wf (store u s d).
Proof.
  unfold dict_wf. intro Hnd.
  destruct (lookup u d) as [s0|] eqn:E.
  - now rewrite (keys_store_present u s s0 d E).
  - rewrite (keys_store_absent u s d E).
    apply NoDup_app; [assumption|repeat constructor; intros []|].
    intros k Hk [<-|[]]. now apply lookup_none_keys in E.
Qed.

Lemma remove_list_wf (l : list string) (d : registry) :
  dict_wf d -> dict_wf (remove_list l d).
Proof.
  revert d. induction l as [|u l IH]; simpl; intros d H; [assumption|].
  apply IH, remove_wf, H.
Qed.

Lemma lookup_remove_list_other (u : string) (l : list string) (d : registry) :
  ~ In u l -> lookup u (remove_list l d) = lookup u d.
Proof.
  revert d. induction l as [|v l IH]; simpl; intros d H; [reflexivity|].
  rewrite IH by tauto. apply lookup_remove_other. intro E. apply H. now left.
Qed.

Lemma lookup_remove_list_none (u : string) (l : list string) (d : registry) :
  lookup u d = None -> lookup u (remove_list l d) = None.
Proof.
  revert d. induction l as [|v l IH]; simpl; intros d H; [assumption|].
  apply IH, lookup_remove_none, H.
Qed.

Lemma lookup_remove_list_same (u : string) (l : list string) (d : registry) :
  dict_wf d -> In u l -> lookup u (remove_list l d) = None.
Proof.
  revert d. induction l as [|v l IH]; simpl; intros d Hwf; [intros []|].
  intros [->|I].
  - apply lookup_remove_list_none, lookup_remove_same, Hwf.
  - apply IH; [apply remove_wf, Hwf|assumption].
Qed.

Lemma lookup_remove_list_some (u : string) (l : list string) (d : registry)
  (s : SessionInfo) :
  dict_wf d -> lookup u (remove_list l d) = Some s -> lookup u d = Some s.
Proof.
  intros Hwf H. destruct (in_dec string_dec u l) as [I|N].
  - rewrite (lookup_remove_list_same u l d Hwf I) in H. discriminate.
  - now rewrite (lookup_remove_list_other u l d N) in H.
Qed.

End SessionFacts.

(** ** The sweep of [_cleanup_sessions] *)

Module SessionProps.

Import Session SessionFacts.
Local Open Scope session_scope.

Section World.

Variable clock : nat -> Z.
Variable portal : nat -> string -> string -> Login.exchange.

Lemma with_ticks_twice (a b : nat) (m : SessionManager) :
  with_ticks a (with_ticks b m) = with_ticks a m.
Proof. reflexivity. Qed.

Lemma with_ticks_same (m : SessionManager) : with_ticks (ticks m) m = m.
Proof. now destruct m. Qed.

Lemma stale_run (s : SessionInfo) (m : SessionManager) :
  exists b n,
    stale clock s m = (Returned b, with_ticks (ticks m + n) m)
    /\ (1 <= n <= 2)%nat
    /\ (is_valid s = false -> b = true)
    /\ (b = true ->
        is_valid s = false
        \/ exists k, (ticks m <= k < ticks m + n)%nat /\ ~ in_time clock m s k).
Proof.
  unfold stale, bind, max_age, max_idle, is_expired, is_idle, datetime_now,
    ret, in_time, with_ticks. simpl.
  destruct (Z.ltb_spec (timedelta_minutes (_max_age_minutes m))
              (clock (ticks m) - login_time s)) as [He|He].
  - exists true, 1%nat. split; [|split; [lia|split]].
    + now replace (ticks m + 1)%nat with (S (ticks m)) by lia.
    + reflexivity.
    + intros _. right. exists (ticks m). split; [lia|]. intros [H1 H2]. lia.
  - simpl.
    destruct (Z.ltb_spec (timedelta_minutes (_max_idle_minutes m))
                (clock (S (ticks m)) - last_used s)) as [Hi|Hi].
    + exists true, 2%nat. split; [|split; [lia|split]].
      * now replace (ticks m + 2)%nat with (S (S (ticks m))) by lia.
      * reflexivity.
      * intros _. right. exists (S (ticks m)). split; [lia|].
        intros [H1 H2]. lia.
    + exists (negb (is_valid s)), 2%nat. split; [|split; [lia|split]].
      * now replace (ticks m + 2)%nat with (S (S (ticks m))) by lia.
      * now intros ->.
      * intro H. left. now destruct (is_valid s).
Qed.

Lemma collect_stale_run (items : registry) (m : SessionManager) :
  exists l n,
    collect_stale clock items m = (Returned l, with_ticks (ticks m + n) m)
    /\ (n <= 2 * List.length items)%nat
    /\ (forall u s, In (u, s) items -> is_valid s = false -> In u l)
    /\ (forall u, In u l ->
        exists s, In (u, s) items
          /\ (is_valid s = false
              \/ exists k, (ticks m <= k < ticks m + n)%nat
                           /\ ~ in_time clock m s k)).
Proof.
  revert m. induction items as [|[u s] rest IH]; intro m.
  - exists [], 0%nat. simpl. unfold ret. split; [|split; [lia|split]].
    + now rewrite Nat.add_0_r, with_ticks_same.
    + intros ? ? [].
    + intros ? [].
  - destruct (stale_run s m) as (b & n1 & E1 & Hn1 & Hinv & Hb).
    destruct (IH (with_ticks (ticks m + n1) m))
      as (l & n2 & E2 & Hn2 & Hin & Hout).
    exists (if b then u :: l else l), (n1 + n2)%nat.
    split; [|split; [|split]].
    + simpl. unfold bind at 1. rewrite E1.
      unfold bind at 1. rewrite E2. unfold ret.
      rewrite with_ticks_twice. simpl. now rewrite Nat.add_assoc.
    + simpl. lia.
    + intros v t [E|I] Hv.
      * injection E as <- <-. rewrite (Hinv Hv). now left.
      * specialize (Hin v t I Hv). destruct b; [now right|assumption].
    + intros v Hv.
      assert (Hrest : In v l ->
        exists t, In (v, t) ((u, s) :: rest)
          /\ (is_valid t = false
              \/ exists k, (ticks m <= k < ticks m + (n1 + n2))%nat
                           /\ ~ in_time clock m t k)).
      { intro I. destruct (Hout v I) as (t & It & Hk).
        exists t. split; [now right|].
        destruct Hk as [Hk|(k & Hk & Hnt)]; [now left|right].
        exists k. simpl in Hk. split; [lia|exact Hnt]. }
      destruct b; [|now apply Hrest].
      destruct Hv as [<-|I]; [|now apply Hrest].
      exists s. split; [now left|].
      destruct (Hb eq_refl) as [Hv|(k & Hk & Hnt)]; [now left|right].
      exists k. split; [lia|exact Hnt].
Qed.

Lemma remove_all_run (l : list string) (m : SessionManager) :
  remove_all l m
  = (Returned tt, with_sessions (remove_list l (_sessions m)) m).
Proof.
  revert m. induction l as [|u l IH]; intro m; simpl.
  - unfold ret. now destruct m.
  - unfold bind, get_sessions, put_sessions. now rewrite IH.
Qed.

(** What one sweep does: it reads the clock at most [1 + 2 * n] times for
    [n] registered sessions and deletes the sessions it found stale. *)
Lemma cleanup_run (m : SessionManager) :
  exists l n,
    _cleanup_sessions clock m
    = (Returned tt,
       with_sessions (remove_list l (_sessions m))
         (with_ticks (ticks m + n) m))
    /\ (1 <= n <= 1 + 2 * List.length (_sessions m))%nat
    /\ (forall u s, In (u, s) (_sessions m) -> is_valid s = false -> In u l)
    /\ (forall u, In u l ->
        exists s, In (u, s) (_sessions m)
          /\ (is_valid s = false
              \/ exists k, (ticks m <= k < ticks m + n)%nat
                           /\ ~ in_time clock m s k)).
Proof.
  destruct (collect_stale_run (_sessions m) (with_ticks (S (ticks m)) m))
    as (l & n & E & Hn & Hin & Hout).
  exists l, (S n). split; [|split; [|split]].
  - unfold _cleanup_sessions, bind at 1, datetime_now.
    unfold bind at 1, get_sessions. simpl.
    unfold bind. simpl in E. rewrite E. rewrite remove_all_run.
    rewrite with_ticks_twice. simpl.
    now replace (ticks m + S n)%nat with (S (ticks m + n)) by lia.
  - simpl in Hn. lia.
  - exact Hin.
  - intros u Hu. destruct (Hout u Hu) as (s & Is & Hs).
    exists s. split; [exact Is|].
    destruct Hs as [Hs|(k & Hk & Hnt)]; [now left|right].
    exists k. simpl in Hk. split; [lia|exact Hnt].
Qed.

Lemma create_new_run (u p : string) (m : SessionManager) :
  create_new clock portal u p m =
  let m1 := with_logins (next_event portal u p m :: logins m)
              (with_clients (S (clients m)) m) in
  if fst (next_login portal u p m) then
    (Returned (clients m, true),
     with_sessions
       (store u {| client := clients m; username := u; password := p;
                   login_time := clock (ticks m);
                   last_used := clock (S (ticks m));
                   is_valid := true |} (_sessions m))
       (with_ticks (S (S (ticks m))) m1))
  else
    (Raised ("Login failed: " ++ str_of_error (snd (next_login portal u p m))), m1).
Proof.
  unfold create_new, bind, new_APIClient, client_login, next_event,
    next_login. simpl.
  destruct (Login.login (portal (clients m) u p) u p) as [[|] error];
    reflexivity.
Qed.

Lemma get_or_create_session_unfold (u p : string) :
  get_or_create_session clock portal u p
  = (_cleanup_sessions clock ;;; after_cleanup clock portal u p).
Proof. reflexivity. Qed.

Lemma after_cleanup_run (u p : string) (m : SessionManager) :
  after_cleanup clock portal u p m =
  match lookup u (_sessions m) with
  | Some s =>
      if reusable clock m s p (ticks m) then
        (Returned (client s, false),
         with_sessions
           (store u (set_last_used (clock (S (ticks m))) s) (_sessions m))
           (with_ticks (S (S (S (ticks m)))) m))
      else
        create_new clock portal u p
          (with_sessions (remove u (_sessions m))
             (with_ticks (S (ticks m)) m))
  | None => create_new clock portal u p m
  end.
Proof.
  unfold after_cleanup, bind at 1, get_sessions.
  destruct (lookup u (_sessions m)) as [s|] eqn:E.
  - unfold reusable, bind at 1, bind at 1, max_age, bind at 1, is_expired,
      bind at 1, datetime_now, ret.
    simpl.
    destruct (negb (timedelta_minutes (_max_age_minutes m)
                    <? clock (ticks m) - login_time s)
              && is_valid s && String.eqb (password s) p); reflexivity.
  - reflexivity.
Qed.

(** A session that is valid and in time at every clock reading of the
    sweep is not among the sessions the sweep deletes. *)
Lemma cleanup_spares (m : SessionManager) (u : string) (s : SessionInfo)
  (l : list string) (n : nat) :
  dict_wf (_sessions m) ->
  lookup u (_sessions m) = Some s ->
  is_valid s = true ->
  (forall k, (ticks m <= k < ticks m + n)%nat -> in_time clock m s k) ->
  (forall v, In v l ->
     exists t, In (v, t) (_sessions m)
       /\ (is_valid t = false
           \/ exists k, (ticks m <= k < ticks m + n)%nat
                        /\ ~ in_time clock m t k)) ->
  lookup u (remove_list l (_sessions m)) = Some s.
Proof.
  intros Hwf Hl Hv Htime Hout.
  rewrite lookup_remove_list_other; [exact Hl|].
  intro I. destruct (Hout u I) as (t & It & Ht).
  apply (in_lookup u _ t Hwf) in It. rewrite Hl in It. injection It as <-.
  destruct Ht as [Ht|(k & Hk & Hnt)]; [congruence|].
  apply Hnt, Htime, Hk.
Qed.

Lemma reuse_run (m : SessionManager) (u p : string) (s : SessionInfo) :
  dict_wf (_sessions m) ->
  lookup u (_sessions m) = Some s ->
  is_valid s = true ->
  password s = p ->
  (forall k, (ticks m <= k <= ticks m + 1 + 2 * List.length (_sessions m))%nat ->
             in_time clock m s k) ->
  exists m' k,
    get_or_create_session clock portal u p m
    = (Returned (client s, false), m')
    /\ (ticks m < k < ticks m')%nat
    /\ lookup u (_sessions m') = Some (set_last_used (clock k) s)
    /\ dict_wf (_sessions m')
    /\ logins m' = logins m /\ clients m' = clients m
    /\ _max_age_minutes m' = _max_age_minutes m
    /\ _max_idle_minutes m' = _max_idle_minutes m.
Proof.
  intros Hwf Hl Hv Hp Htime.
  destruct (cleanup_run m) as (l & n & Ec & Hn & _ & Hout).
  assert (Hkeep : lookup u (remove_list l (_sessions m)) = Some s).
  { apply (cleanup_spares m u s l n); try assumption.
    intros k Hk. apply Htime. lia. }
  rewrite get_or_create_session_unfold. unfold bind. rewrite Ec.
  rewrite after_cleanup_run. simpl. rewrite Hkeep.
  assert (Hr : reusable clock
                 (with_sessions (remove_list l (_sessions m))
                    (with_ticks (ticks m + n) m)) s p (ticks m + n) = true).
  { unfold reusable. simpl. rewrite Hv, Hp, String.eqb_refl.
    destruct (Htime (ticks m + n)%nat ltac:(lia)) as [Ha _].
    destruct (Z.ltb_spec (timedelta_minutes (_max_age_minutes m))
                (clock (ticks m + n) - login_time s)); [lia|reflexivity]. }
  rewrite Hr.
  eexists. exists (S (ticks m + n)). split; [reflexivity|]. simpl.
  split; [lia|]. split; [apply lookup_store_same|].
  split; [apply store_wf, remove_list_wf, Hwf|]. tauto.
Qed.

(** When [get_or_create_session] returns, the registry holds a valid
    entry for the user with the returned client and the given password. *)
Lemma acquire_returned (m m1 : SessionManager) (u p : string) (c : nat)
  (b : bool) :
  dict_wf (_sessions m) ->
  get_or_create_session clock portal u p m = (Returned (c, b), m1) ->
  dict_wf (_sessions m1)
  /\ _max_age_minutes m1 = _max_age_minutes m
  /\ _max_idle_minutes m1 = _max_idle_minutes m
  /\ exists s1, lookup u (_sessions m1) = Some s1
       /\ client s1 = c /\ is_valid s1 = true /\ password s1 = p.
Proof.
  intros Hwf.
  destruct (cleanup_run m) as (l & n & Ec & Hn & _ & _).
  rewrite get_or_create_session_unfold. unfold bind. rewrite Ec.
  rewrite after_cleanup_run. simpl.
  pose proof (remove_list_wf l _ Hwf) as Hwf1.
  destruct (lookup u (remove_list l (_sessions m))) as [s|] eqn:El.
  - destruct (reusable _ _ s p _) eqn:Er.
    + intro E. injection E as <- <- <-. simpl.
      split; [now apply store_wf|]. split; [reflexivity|].
      split; [reflexivity|].
      eexists. split; [apply lookup_store_same|]. simpl.
      unfold reusable in Er.
      apply andb_prop in Er as [Er Ep]. apply andb_prop in Er as [_ Ev].
      apply String.eqb_eq in Ep. tauto.
    + rewrite create_new_run. simpl.
      destruct (fst (next_login portal u p _)); [|discriminate].
      intro E. injection E as <- <- <-. simpl.
      split; [now apply store_wf, remove_wf|]. split; [reflexivity|].
      split; [reflexivity|].
      eexists. split; [apply lookup_store_same|]. simpl. tauto.
  - rewrite create_new_run. simpl.
    destruct (fst (next_login portal u p _)); [|discriminate].
    intro E. injection E as <- <- <-. simpl.
    split; [now apply store_wf|]. split; [reflexivity|].
    split; [reflexivity|].
    eexists. split; [apply lookup_store_same|]. simpl. tauto.
Qed.

(** The three ways a call of [get_or_create_session] can go. *)
Lemma acquire_cases (m : SessionManager) (u p : string) :
  dict_wf (_sessions m) ->
  exists r m',
    get_or_create_session clock portal u p m = (r, m')
    /\ dict_wf (_sessions m')
    /\ (forall v s, v <> u -> lookup v (_sessions m') = Some s ->
                    lookup v (_sessions m) = Some s)
    /\ ((exists s k,
           lookup u (_sessions m) = Some s
           /\ is_valid s = true /\ password s = p
           /\ r = Returned (client s, false)
           /\ lookup u (_sessions m') = Some (set_last_used (clock k) s)
           /\ logins m' = logins m /\ clients m' = clients m)
        \/ (logins m' = next_event portal u p m :: logins m
            /\ clients m' = S (clients m)
            /\ ((fst (next_login portal u p m) = true
                 /\ r = Returned (clients m, true)
                 /\ exists t1 t2,
                      lookup u (_sessions m')
                      = Some {| client := clients m; username := u;
                                password := p; login_time := t1;
                                last_used := t2; is_valid := true |})
                \/ (fst (next_login portal u p m) = false
                    /\ r = Raised ("Login failed: "
                                   ++ str_of_error
                                        (snd (next_login portal u p m)))
                    /\ lookup u (_sessions m') = None)))).
Proof.
  intros Hwf.
  destruct (cleanup_run m) as (l & n & Ec & Hn & _ & _).
  rewrite get_or_create_session_unfold. unfold bind. rewrite Ec.
  rewrite after_cleanup_run. simpl.
  pose proof (remove_list_wf l _ Hwf) as Hwf1.
  assert (Hold : forall d' : registry,
            (forall v s, v <> u -> lookup v d' = Some s ->
                         lookup v (remove_list l (_sessions m)) = Some s) ->
            forall v s, v <> u -> lookup v d' = Some s ->
                        lookup v (_sessions m) = Some s).
  { intros d' H v s Hv Hs.
    eapply lookup_remove_list_some; [exact Hwf|]. now apply H. }
  destruct (lookup u (remove_list l (_sessions m))) as [s|] eqn:El.
  - destruct (reusable _ _ s p _) eqn:Er.
    + do 2 eexists. split; [reflexivity|]. simpl.
      split; [now apply store_wf|]. split.
      * apply Hold. intros v t Hv. now rewrite lookup_store_other.
      * left. exists s, (S (ticks m + n)).
        unfold reusable in Er.
        apply andb_prop in Er as [Er Ep]. apply andb_prop in Er as [_ Ev].
        apply String.eqb_eq in Ep.
        split; [eapply lookup_remove_list_some; eassumption|].
        repeat split; try assumption. apply lookup_store_same.
    + rewrite create_new_run. simpl.
      change (next_login portal u p _) with (next_login portal u p m).
      change (next_event portal u p _) with (next_event portal u p m).
      destruct (fst (next_login portal u p m)) eqn:Es.
      * do 2 eexists. split; [reflexivity|]. simpl.
        split; [now apply store_wf, remove_wf|]. split.
        -- apply Hold. intros v t Hv.
           rewrite lookup_store_other, lookup_remove_other by assumption.
           trivial.
        -- right. repeat split. left. repeat split.
           do 2 eexists. apply lookup_store_same.
      * do 2 eexists. split; [reflexivity|]. simpl.
        split; [now apply remove_wf|]. split.
        -- apply Hold. intros v t Hv.
           now rewrite lookup_remove_other by assumption.
        -- right. repeat split. right. repeat split.
           now apply lookup_remove_same.
  - rewrite create_new_run. simpl.
    change (next_login portal u p _) with (next_login portal u p m).
    change (next_event portal u p _) with (next_event portal u p m).
    destruct (fst (next_login portal u p m)) eqn:Es.
    + do 2 eexists. split; [reflexivity|]. simpl.
      split; [now apply store_wf|]. split.
      * apply Hold. intros v t Hv. now rewrite lookup_store_other.
      * right. repeat split. left. repeat split.
        do 2 eexists. apply lookup_store_same.
    + do 2 eexists. split; [reflexivity|]. simpl.
      split; [assumption|]. split.
      * apply Hold. trivial.
      * right. repeat split. right. repeat split. exact El.
Qed.

(** [get_or_create_session] keeps the registry within the clients that
    logged in. *)
Lemma acquire_logged_in (m m' : SessionManager) (u p : string)
  (r : result (nat * bool)) :
  dict_wf (_sessions m) ->
  registry_logged_in m ->
  get_or_create_session clock portal u p m = (r, m') ->
  registry_logged_in m'.
Proof.
  intros Hwf Hinv E.
  destruct (acquire_cases m u p Hwf)
    as (r0 & m0 & Ea & Hwf' & Hold & Hcase).
  rewrite E in Ea. injection Ea as <- <-.
  intros v t Hvt.
  destruct Hcase as [(s & k & Hl & Hv & Hp & Hr & Hl' & Hlog & Hcl)
                    |(Hlog & Hcl & [(Hs & Hr & t1 & t2 & Hl')
                                   |(Hs & Hr & Hl')])];
    rewrite Hlog.
  - destruct (string_dec v u) as [->|Hne].
    + rewrite Hl' in Hvt. injection Hvt as <-. simpl. now apply Hinv.
    + apply Hinv. now apply Hold.
  - destruct (string_dec v u) as [->|Hne].
    + rewrite Hl' in Hvt. injection Hvt as <-. simpl. left.
      unfold next_event. now rewrite Hs.
    + right. apply Hinv. now apply Hold.
  - right. destruct (string_dec v u) as [->|Hne]; [congruence|].
    apply Hinv. now apply Hold.
Qed.

(** Every state the manager can reach has distinct keys and holds only
    sessions of clients that logged in: the assumptions of the claims
    below hold throughout a run. *)
Lemma reachable_invariant (m : SessionManager) :
  reachable clock portal m -> dict_wf (_sessions m) /\ registry_logged_in m.
Proof.
  induction 1 as [a b|m u p _ [Hwf Hinv]|m u _ [Hwf Hinv]|m u _ [Hwf Hinv]
                 |m _ [Hwf Hinv]|m _ [Hwf Hinv]].
  - split; [constructor|]. intros v s H. discriminate H.
  - destruct (get_or_create_session clock portal u p m) as [r m'] eqn:E.
    simpl. split.
    + destruct (acquire_cases m u p Hwf) as (r0 & m0 & Ea & Hwf' & _).
      rewrite E in Ea. now injection Ea as <- <-.
    + eapply acquire_logged_in; eassumption.
  - unfold invalidate_session, bind, get_sessions, put_sessions, ret.
    destruct (lookup u (_sessions m)) as [s|] eqn:El; simpl;
      [|now split].
    split; [now apply store_wf|].
    intros v t Hvt. simpl in Hvt. simpl.
    destruct (string_dec v u) as [->|Hne].
    + rewrite lookup_store_same in Hvt. injection Hvt as <-. simpl.
      now apply Hinv.
    + rewrite lookup_store_other in Hvt by assumption. now apply Hinv.
  - unfold remove_session, bind, get_sessions, put_sessions, ret.
    destruct (lookup u (_sessions m)) as [s|] eqn:El; simpl;
      [|now split].
    split; [now apply remove_wf|].
    intros v t Hvt. simpl in Hvt. simpl.
    destruct (string_dec v u) as [->|Hne].
    + rewrite lookup_remove_same in Hvt by assumption. discriminate.
    + rewrite lookup_remove_other in Hvt by assumption. now apply Hinv.
  - destruct (cleanup_run m) as (l & n & Ec & _).
    rewrite Ec. simpl. split; [now apply remove_list_wf|].
    intros v t Hvt. simpl in Hvt. simpl.
    apply Hinv. eapply lookup_remove_list_some; eassumption.
  - simpl. split; [constructor|]. intros v s H. discriminate H.
Qed.

(** *** Claims about the session manager *)

(** C3. Two calls of [get_or_create_session] for the same user and
    password, the second made while every clock reading is within
    [max_age] of the session's login and within [max_idle] of its last
    use, and nothing happening to the registry in between: the second
    call returns the same client object with [is_new_session = False],
    performs no login and creates no client; the session registered for
    the user afterwards is the one that was there, with the same client,
    user name, password, login time and validity, and its [last_used] is
    a clock reading taken during that second call. *)
Theorem acquire_twice_same_session (m m1 : SessionManager) (u p : string)
  (c : nat) (b : bool) :
  dict_wf (_sessions m) ->
  get_or_create_session clock portal u p m = (Returned (c, b), m1) ->
  (forall s1 k,
     lookup u (_sessions m1) = Some s1 ->
     (ticks m1 <= k <= ticks m1 + 1 + 2 * List.length (_sessions m1))%nat ->
     in_time clock m1 s1 k) ->
  exists s1 s2 m2 k,
    lookup u (_sessions m1) = Some s1
    /\ client s1 = c
    /\ get_or_create_session clock portal u p m1 = (Returned (c, false), m2)
    /\ (ticks m1 < k < ticks m2)%nat
    /\ lookup u (_sessions m2) = Some s2
    /\ last_used s2 = clock k
    /\ client s2 = c
    /\ username s2 = username s1
    /\ password s2 = p
    /\ login_time s2 = login_time s1
    /\ is_valid s2 = true
    /\ logins m2 = logins m1
    /\ clients m2 = clients m1.
Proof.
  intros Hwf E1 Htime.
  destruct (acquire_returned m m1 u p c b Hwf E1)
    as (Hwf1 & _ & _ & s1 & Hl1 & Hc & Hv & Hp).
  destruct (reuse_run m1 u p s1 Hwf1 Hl1 Hv Hp (fun k => Htime s1 k Hl1))
    as (m2 & k & E2 & Hk & Hl2 & _ & Hlog & Hcl & _).
  exists s1, (set_last_used (clock k) s1), m2, k. rewrite <- Hc.
  repeat (split; [first [assumption | reflexivity]|]). assumption.
Qed.

(** C4. [invalidate_session] marks the user's entry, when there is one,
    as not valid and removes nothing; the next [get_or_create_session]
    for that user does not reuse the entry: it logs in with a newly
    created client, and returns that client with [is_new_session = True]
    when the login succeeds (it raises when the login fails). *)
Theorem invalidate_then_fresh_login (m : SessionManager) (u p : string) :
  dict_wf (_sessions m) ->
  exists m0,
    invalidate_session u m = (Returned tt, m0)
    /\ map fst (_sessions m0) = map fst (_sessions m)
    /\ (forall s, lookup u (_sessions m) = Some s ->
                  lookup u (_sessions m0) = Some (set_is_valid false s))
    /\ (lookup u (_sessions m) = None -> m0 = m)
    /\ (forall v, v <> u ->
                  lookup v (_sessions m0) = lookup v (_sessions m))
    /\ exists r m1,
         get_or_create_session clock portal u p m0 = (r, m1)
         /\ logins m1 = next_event portal u p m0 :: logins m0
         /\ clients m1 = S (clients m0)
         /\ (fst (next_login portal u p m0) = true ->
             r = Returned (clients m0, true)
             /\ exists s', lookup u (_sessions m1) = Some s'
                   /\ client s' = clients m0 /\ is_valid s' = true)
         /\ (fst (next_login portal u p m0) = false ->
             exists msg, r = Raised msg).
Proof.
  intros Hwf.
  assert (Hinv : exists m0,
    invalidate_session u m = (Returned tt, m0)
    /\ dict_wf (_sessions m0)
    /\ map fst (_sessions m0) = map fst (_sessions m)
    /\ (forall s, lookup u (_sessions m) = Some s ->
                  lookup u (_sessions m0) = Some (set_is_valid false s))
    /\ (lookup u (_sessions m) = None -> m0 = m)
    /\ (forall v, v <> u ->
                  lookup v (_sessions m0) = lookup v (_sessions m))).
  { unfold invalidate_session, bind, get_sessions, put_sessions, ret.
    destruct (lookup u (_sessions m)) as [s|] eqn:El.
    - eexists. split; [reflexivity|]. simpl.
      split; [now apply store_wf|].
      split; [now apply (keys_store_present u _ s)|].
      split; [intros s0 E; injection E as <-; apply lookup_store_same|].
      split; [discriminate|].
      intros v Hv. now apply lookup_store_other.
    - exists m. repeat split; try assumption; try discriminate. }
  destruct Hinv as (m0 & Ei & Hwf0 & Hkeys & Hmark & Hnone & Hother).
  exists m0. repeat (split; [assumption|]).
  (* the entry of [u] in [m0] is absent or not valid: it cannot be reused *)
  destruct (acquire_cases m0 u p Hwf0)
    as (r & m1 & Ea & _ & _ & [Hreuse|Hfresh]).
  - exfalso. destruct Hreuse as (s & k & Hl & Hv & _).
    destruct (lookup u (_sessions m)) as [s0|] eqn:El.
    + rewrite (Hmark s0 eq_refl) in Hl. injection Hl as <-. discriminate.
    + rewrite (Hnone eq_refl) in Hl. congruence.
  - destruct Hfresh as (Hlog & Hcl & Hres).
    exists r, m1. repeat (split; [assumption|]).
    destruct Hres as [(Hs & Hr & t1 & t2 & Hl)|(Hs & Hr & Hl)].
    + split; [|congruence]. intros _. split; [exact Hr|].
      eexists. split; [exact Hl|]. split; reflexivity.
    + split; [congruence|]. intros _. eexists. exact Hr.
Qed.

(** C9, as amended.  A sweep of [_cleanup_sessions] keeps, unchanged,
    every registered session that is valid and that, at every clock
    reading of the sweep, is no older than [max_age] and was last used no
    longer than [max_idle] ago. *)
Theorem cleanup_keeps_session_in_time (m : SessionManager) (u : string)
  (s : SessionInfo) :
  dict_wf (_sessions m) ->
  lookup u (_sessions m) = Some s ->
  is_valid s = true ->
  (forall k, (ticks m <= k <= ticks m + 2 * List.length (_sessions m))%nat ->
             in_time clock m s k) ->
  exists m',
    _cleanup_sessions clock m = (Returned tt, m')
    /\ lookup u (_sessions m') = Some s.
Proof.
  intros Hwf Hl Hv Htime.
  destruct (cleanup_run m) as (l & n & Ec & Hn & _ & Hout).
  eexists. split; [exact Ec|]. simpl.
  apply (cleanup_spares m u s l n); try assumption.
  intros k Hk. apply Htime. lia.
Qed.

(** C10. A call of [get_or_create_session] that raises has attempted a
    login with a new client, that login failed, the exception carries
    the failure reason, the registry has no entry for the user, and the
    next call for that user logs in afresh.  A call that attempts a login
    which fails does raise.  A call that returns hands out a client whose
    login for that user and password succeeded. *)
Theorem failed_login_leaves_no_session (m m' : SessionManager)
  (u p : string) (r : result (nat * bool)) :
  dict_wf (_sessions m) ->
  registry_logged_in m ->
  get_or_create_session clock portal u p m = (r, m') ->
  registry_logged_in m'
  /\ (forall msg, r = Raised msg ->
        logins m' = {| ev_client := clients m; ev_username := u;
                       ev_password := p; ev_success := false |} :: logins m
        /\ fst (Login.login (portal (clients m) u p) u p) = false
        /\ msg = "Login failed: "
                 ++ str_of_error
                      (snd (Login.login (portal (clients m) u p) u p))
        /\ lookup u (_sessions m') = None
        /\ forall p2, exists r2 m2,
             get_or_create_session clock portal u p2 m' = (r2, m2)
             /\ logins m2 = next_event portal u p2 m' :: logins m')
  /\ (forall e, logins m' = e :: logins m -> ev_success e = false ->
                exists msg, r = Raised msg)
  /\ (forall c b, r = Returned (c, b) ->
        In {| ev_client := c; ev_username := u; ev_password := p;
              ev_success := true |} (logins m')).
Proof.
  intros Hwf Hinv E.
  split; [eapply acquire_logged_in; eassumption|].
  destruct (acquire_cases m u p Hwf)
    as (r0 & m0 & Ea & Hwf' & Hold & Hcase).
  rewrite E in Ea. injection Ea as <- <-.
  destruct Hcase as [(s & k & Hl & Hv & Hp & Hr & Hl' & Hlog & Hcl)
                    |(Hlog & Hcl & [(Hs & Hr & t1 & t2 & Hl')
                                   |(Hs & Hr & Hl')])].
  - (* the entry was reused *)
    split; [|split].
    + intros msg Hm. congruence.
    + intros e He. rewrite Hlog in He. exfalso.
      assert (H : List.length (logins m) = List.length (e :: logins m))
        by now rewrite <- He.
      simpl in H. lia.
    + intros c b Hcb. rewrite Hr in Hcb. injection Hcb as <- <-.
      rewrite Hlog, <- Hp. now apply Hinv.
  - (* a fresh login that succeeded *)
    split; [|split].
    + intros msg Hm. congruence.
    + intros e He. rewrite Hlog in He. injection He as <-.
      unfold next_event. simpl. congruence.
    + intros c b Hcb. rewrite Hr in Hcb. injection Hcb as <- <-.
      rewrite Hlog. left. unfold next_event. now rewrite Hs.
  - (* a fresh login that failed *)
    split; [|split].
    + intros msg Hm. rewrite Hr in Hm. injection Hm as <-.
      split; [rewrite Hlog; unfold next_event; now rewrite Hs|].
      split; [exact Hs|]. split; [reflexivity|]. split; [exact Hl'|].
      intro p2.
      destruct (acquire_cases m' u p2 Hwf')
        as (r2 & m2 & E2 & _ & _ & [(s & k & Hl2 & _)|(Hlog2 & _)]).
      * congruence.
      * now exists r2, m2.
    + intros _ _ _. eexists. exact Hr.
    + intros c b Hcb. congruence.
Qed.

End World.

Import Scenario.

Lemma acquire_twice_same_session_witness :
  exists s1 s2 m2 k,
    lookup u0 (_sessions manager1) = Some s1
    /\ client s1 = 0%nat
    /\ get_or_create_session clock0 portal_ok u0 p0 manager1
       = (Returned (0%nat, false), m2)
    /\ (ticks manager1 < k < ticks m2)%nat
    /\ lookup u0 (_sessions m2) = Some s2
    /\ last_used s2 = clock0 k
    /\ client s2 = 0%nat
    /\ username s2 = username s1
    /\ password s2 = p0
    /\ login_time s2 = login_time s1
    /\ is_valid s2 = true
    /\ logins m2 = logins manager1
    /\ clients m2 = clients manager1.
Proof.
  apply (acquire_twice_same_session clock0 portal_ok session_manager
           manager1 u0 p0 0%nat true).
  - constructor.
  - reflexivity.
  - intros s1 k Hl Hk. vm_compute in Hl. injection Hl as <-.
    vm_compute in Hk. unfold in_time, clock0, timedelta_minutes. simpl.
    lia.
Defined.

Lemma invalidate_then_fresh_login_witness :
  exists m0,
    invalidate_session u0 manager1 = (Returned tt, m0)
    /\ lookup u0 (_sessions m0)
       = Some {| client := 0%nat; username := u0; password := p0;
                 login_time := 1000000; last_used := 2000000;
                 is_valid := false |}
    /\ exists m1,
         get_or_create_session clock0 portal_ok u0 p0 m0
         = (Returned (1%nat, true), m1).
Proof.
  destruct (invalidate_then_fresh_login clock0 portal_ok manager1 u0 p0)
    as (m0 & Ei & _ & Hmark & _ & _ & r & m1 & Ea & _ & _ & Hok & _).
  - repeat constructor. intros [].
  - exists m0. split; [exact Ei|].
    split; [exact (Hmark {| client := 0%nat; username := u0; password := p0;
                            login_time := 1000000; last_used := 2000000;
                            is_valid := true |} eq_refl)|].
    exists m1. rewrite Ea.
    destruct (Hok eq_refl) as [-> _].
    vm_compute in Ei. injection Ei as <-. reflexivity.
Defined.

Lemma cleanup_keeps_session_in_time_witness :
  exists m',
    _cleanup_sessions clock0 manager1 = (Returned tt, m')
    /\ lookup u0 (_sessions m')
       = Some {| client := 0%nat; username := u0; password := p0;
                 login_time := 1000000; last_used := 2000000;
                 is_valid := true |}.
Proof.
  apply (cleanup_keeps_session_in_time clock0 manager1 u0).
  - repeat constructor. intros [].
  - reflexivity.
  - reflexivity.
  - intros k Hk. vm_compute in Hk.
    unfold in_time, clock0, timedelta_minutes. simpl. lia.
Defined.

(** C9 as it is worded fails when [max_age] is below [max_idle]: with
    [SessionManager(5, 10)], a valid session that logged in seven minutes
    ago (younger than [max_idle]) and was used one minute ago is removed
    by the sweep, because it is older than [max_age]. *)
Lemma cleanup_removes_session_younger_than_max_idle :
  lookup u0 (_sessions manager_5_10) = Some session7
  /\ is_valid session7 = true
  /\ (forall k,
        clock7 k - login_time session7
        < timedelta_minutes (_max_idle_minutes manager_5_10)
        /\ clock7 k - last_used session7
           <= timedelta_minutes (_max_idle_minutes manager_5_10))
  /\ lookup u0 (_sessions (snd (_cleanup_sessions clock7 manager_5_10)))
     = None.
Proof.
  split; [reflexivity|]. split; [reflexivity|]. split; [|reflexivity].
  intro k. vm_compute. split; [reflexivity|discriminate].
Qed.

Lemma failed_login_leaves_no_session_witness :
  get_or_create_session clock0 portal_bad u0 p0 session_manager
  = (Raised "Login failed: Dashboard verification failed",
     snd (get_or_create_session clock0 portal_bad u0 p0 session_manager))
  /\ lookup u0
       (_sessions
          (snd (get_or_create_session clock0 portal_bad u0 p0
                  session_manager))) = None.
Proof.
  split; [reflexivity|].
  destruct (failed_login_leaves_no_session clock0 portal_bad
              session_manager
              (snd (get_or_create_session clock0 portal_bad u0 p0
                      session_manager))
              u0 p0 (Raised "Login failed: Dashboard verification failed"))
    as (_ & Hraise & _).
  - constructor.
  - intros v s H. discriminate H.
  - reflexivity.
  - destruct (Hraise _ eq_refl) as (_ & _ & _ & Hnone & _). exact Hnone.
Defined.

End SessionProps.

(** ** [make_api_request] *)

Module ApiClientProps.

Import Http Models ApiClient.

(** A failed [APIResponse] of [make_api_request] always carries an error
    text, so [extract_api_data] can test it for "session". *)
Lemma make_api_request_error (json_loads : string -> option Py.value)
  (html_error_text : string -> option string)
  (debug_listing : string -> option string) (o : outcome)
  (url username description : string) (password : option string)
  (retry_count : Z) :
  exists b,
    Scraper.session_error
      (make_api_request json_loads html_error_text debug_listing o url username
         description password retry_count) = Py.Ok b.
Proof.
  unfold make_api_request, Scraper.session_error.
  destruct o as [response|msg|msg|msg]; simpl; try (eexists; reflexivity).
  destruct (debug_listing username); simpl; [eexists; reflexivity|].
  destruct (raise_for_status response); simpl; [eexists; reflexivity|].
  destruct (is_html response && password_given password && (retry_count <? 2));
    simpl; [eexists; reflexivity|].
  destruct (Py.truthy (parse_json_safely json_loads (text response)));
    simpl; [eexists; reflexivity|].
  destruct (is_html response); simpl; eexists; reflexivity.
Qed.

(** C5, as amended.  When the listing of the user's debug directory
    does not raise, the HTTP status is fine, the response looks like
    HTML, a non-empty password was passed and [retry_count] is below two
    (so also on the first attempt), [make_api_request] returns the
    unsuccessful "Session expired - HTML response received" result,
    whatever [json.loads] would make of the body; [extract_api_data]
    reads that result as a session expiry. *)
Theorem html_response_is_session_expired
  (json_loads : string -> option Py.value)
  (html_error_text : string -> option string)
  (debug_listing : string -> option string) (response : Response)
  (url username description : string) (password : option string)
  (retry_count : Z) :
  debug_listing username = None ->
  raise_for_status response = None ->
  is_html response = true ->
  password_given password = true ->
  retry_count < 2 ->
  make_api_request json_loads html_error_text debug_listing
    (Responded response) url username description password retry_count
  = {| success := false; data := Py.PNone;
       error := Some "Session expired - HTML response received";
       status_code := Some (Http.status_code response);
       raw_response := Some (text response) |}
  /\ Scraper.session_error
       (make_api_request json_loads html_error_text debug_listing
          (Responded response) url username description password
          retry_count) = Py.Ok true.
Proof.
  intros Hl Hs Hh Hp Hr. unfold make_api_request.
  rewrite Hl, Hs, Hh, Hp. apply Z.ltb_lt in Hr. rewrite Hr. simpl.
  split; reflexivity.
Qed.

Import Scenario.

Lemma html_response_is_session_expired_witness :
  make_api_request no_json no_error_element listing_ok
    (Responded html_response) Config.EXPIRY u0 "Expiry Date" (Some p0) 0
  = {| success := false; data := Py.PNone;
       error := Some "Session expired - HTML response received";
       status_code := Some 200;
       raw_response := Some "<html><body>Sign in</body></html>" |}
  /\ Scraper.session_error
       (make_api_request no_json no_error_element listing_ok
          (Responded html_response) Config.EXPIRY u0 "Expiry Date"
          (Some p0) 0) = Py.Ok true.
Proof.
  apply (html_response_is_session_expired no_json no_error_element listing_ok
           html_response Config.EXPIRY u0 "Expiry Date" (Some p0) 0).
  - reflexivity.
  - reflexivity.
  - reflexivity.
  - reflexivity.
  - lia.
Defined.

(** The same HTML answer when the user's debug directory cannot be
    listed: the exception of the listing reaches the last handler before
    the response is looked at, and the call reports an unexpected error
    that [extract_api_data] does not read as a session expiry. *)
Example html_response_with_unlistable_debug_directory :
  let r :=
    make_api_request no_json no_error_element
      (fun _ => Some "[Errno 36] File name too long")
      (Responded html_response) Config.EXPIRY u0 "Expiry Date" (Some p0) 0 in
  success r = false
  /\ error r
     = Some ("Unexpected error fetching Expiry Date from API: "
             ++ Config.EXPIRY ++ " - [Errno 36] File name too long")
  /\ Scraper.session_error r = Py.Ok false.
Proof. repeat split. Qed.

(** C5 as it is worded fails: on the third attempt ([retry_count = 2],
    not the first attempt) an HTML response is not classified as a
    session expiry; the call goes on to parse the body and reports an
    HTML error that [extract_api_data] does not read as a session
    expiry. *)
Lemma html_response_on_third_attempt_is_parsed :
  raise_for_status html_response = None
  /\ is_html html_response = true
  /\ 0 < 2
  /\ error (make_api_request no_json no_error_element listing_ok
              (Responded html_response) Config.EXPIRY u0 "Expiry Date"
              (Some p0) 2)
     = Some "HTML Error: Received HTML instead of JSON"
  /\ Scraper.session_error
       (make_api_request no_json no_error_element listing_ok (Responded html_response)
          Config.EXPIRY u0 "Expiry Date" (Some p0) 2) = Py.Ok false.
Proof.
  split; [reflexivity|]. split; [reflexivity|]. split; [lia|].
  split; reflexivity.
Qed.

End ApiClientProps.

(** ** Substrings *)

Module TextFacts.

Import Text.

Lemma starts_with_app (p t : string) : starts_with p (p ++ t) = true.
Proof.
  induction p as [|c p IH]; simpl; [reflexivity|].
  now rewrite Ascii.eqb_refl.
Qed.

Lemma starts_with_app_l (n s post : string) :
  starts_with n s = true -> starts_with n (s ++ post) = true.
Proof.
  revert s. induction n as [|c n IH]; intros s; [reflexivity|].
  destruct s as [|d s]; simpl; [discriminate|].
  intro H. apply andb_prop in H as [H1 H2]. now rewrite H1, IH.
Qed.

Lemma contains_app_l (n s post : string) :
  contains n s = true -> contains n (s ++ post) = true.
Proof.
  induction s as [|d s IH]; simpl.
  - rewrite orb_false_r. intro H.
    destruct n; [now destruct post|discriminate].
  - intro H. apply orb_prop in H as [H|H].
    + change (String d (s ++ post)) with (String d s ++ post).
      now rewrite starts_with_app_l.
    + rewrite (IH H). apply orb_true_r.
Qed.

Lemma contains_app_r (n pre s : string) :
  contains n s = true -> contains n (pre ++ s) = true.
Proof.
  intro H. induction pre as [|d pre IH]; simpl; [exact H|].
  rewrite IH. apply orb_true_r.
Qed.

Lemma contains_refl (n : string) : contains n n = true.
Proof.
  assert (H : starts_with n n = true).
  { induction n as [|c n IH]; simpl; [reflexivity|].
    now rewrite Ascii.eqb_refl. }
  destruct n as [|c n]; [reflexivity|].
  unfold contains; fold contains. now rewrite H.
Qed.

Lemma contains_nonempty (n s : string) :
  n <> EmptyString -> contains n s = true -> nonempty s = true.
Proof.
  intros Hn H. destruct s; [|reflexivity].
  destruct n; [now elim Hn|discriminate].
Qed.

Lemma join_contains (sep tag : string) (parts : list string) :
  In tag parts -> contains tag (join sep parts) = true.
Proof.
  induction parts as [|p rest IH]; [intros []|].
  intros [->|I].
  - destruct rest as [|q rest]; simpl join.
    + apply contains_refl.
    + apply contains_app_l, contains_refl.
  - destruct rest as [|q rest]; [destruct I|].
    change (join sep (p :: q :: rest))
      with (p ++ sep ++ join sep (q :: rest)).
    apply contains_app_r, contains_app_r, IH, I.
Qed.

End TextFacts.

(** ** Error tags *)

Module TagFacts.

Import Text TextFacts Models Scraper.

(** A tag that is recorded stays recorded. *)
Lemma add_error_tag_contains (t tag : string) (a : AccountData) :
  Text.contains tag (error_details a) = true ->
  Text.contains tag (error_details (add_error_tag t a)) = true.
Proof.
  intro H. unfold add_error_tag.
  destruct (Text.nonempty (error_details a)) eqn:E; simpl.
  - now apply contains_app_l.
  - destruct (error_details a); [|discriminate].
    destruct tag; [now destruct t|discriminate].
Qed.


End TagFacts.

(** ** The extraction pipeline *)

Module ScraperProps.

Import Models Py Scraper StageView.

Lemma eq_str_true (v : value) (s : string) :
  eq_str v s = true <-> v = PStr s.
Proof.
  destruct v; simpl; try (split; [discriminate|discriminate]).
  rewrite String.eqb_eq. split; [now intros ->|now intros [= ->]].
Qed.

Lemma eq_str_false (v : value) (s : string) :
  eq_str v s = false <-> v <> PStr s.
Proof.
  rewrite <- eq_str_true. destruct (eq_str v s); split; congruence.
Qed.

Lemma is_metadata (k : string) :
  existsb (String.eqb k) metadata_fields = true <-> In k metadata_fields.
Proof.
  rewrite existsb_exists. split.
  - intros (x & I & E). apply String.eqb_eq in E. now subst.
  - intro I. exists k. split; [assumption|apply String.eqb_refl].
Qed.

(** The test of "Determine final status" says what its words say. *)
Lemma has_sentinel_false (a : AccountData) :
  has_sentinel a = false <-> no_sentinel_fields a.
Proof.
  unfold has_sentinel, no_sentinel_fields. split.
  - intros H k v I Hk.
    assert (E : existsb
                  (fun kv =>
                     negb (existsb (String.eqb (fst kv)) metadata_fields)
                     && (eq_str (snd kv) "API Error"
                         || eq_str (snd kv) "Not Found"))
                  (to_dict a) = true -> False) by congruence.
    rewrite existsb_exists in E.
    assert (Em : existsb (String.eqb k) metadata_fields = false).
    { destruct (existsb (String.eqb k) metadata_fields) eqn:Em;
        [now apply is_metadata in Em|reflexivity]. }
    split; intro Hv; apply E; exists (k, v); (split; [exact I|]);
      cbn [fst snd]; rewrite Em; subst v; reflexivity.
  - intro H.
    destruct (existsb _ (to_dict a)) eqn:E; [exfalso|reflexivity].
    apply existsb_exists in E as ([k v] & I & E). cbn [fst snd] in E.
    apply andb_prop in E as [Em Ev].
    destruct (H k v I) as [H1 H2].
    + intro Hk. apply is_metadata in Hk. now rewrite Hk in Em.
    + apply orb_prop in Ev as [Ev|Ev]; apply eq_str_true in Ev; contradiction.
Qed.

Lemma has_sentinel_set_status (s : string) (a : AccountData) :
  has_sentinel (set_status s a) = has_sentinel a.
Proof. reflexivity. Qed.

Lemma has_sentinel_set_error_details (s : string) (a : AccountData) :
  has_sentinel (set_error_details s a) = has_sentinel a.
Proof. reflexivity. Qed.

Lemma has_sentinel_new (u s e : string) :
  has_sentinel (AccountData_init u s e) = true.
Proof. reflexivity. Qed.

Lemma nonempty_false (s : string) :
  Text.nonempty s = false <-> s = EmptyString.
Proof. destruct s; simpl; split; congruence. Qed.

(** The two outcomes of "Determine final status". *)
Lemma determine_final_status_cases (a : AccountData) :
  let r := determine_final_status a in
  (has_sentinel a = false /\ status r = "Success"
   /\ error_details r = EmptyString /\ has_sentinel r = false)
  \/ (has_sentinel a = true /\ status r = "Partial Success"
      /\ has_sentinel r = true
      /\ error_details r <> EmptyString
      /\ (error_details a = EmptyString ->
          error_details r = "Some data could not be retrieved")
      /\ (error_details a <> EmptyString ->
          error_details r = error_details a)).
Proof.
  unfold determine_final_status.
  destruct (has_sentinel a) eqn:E.
  - right. split; [reflexivity|].
    destruct (error_details a) as [|c t] eqn:Ed.
    + change (error_details (set_status "Partial Success" a))
        with (error_details a).
      rewrite Ed. simpl. repeat split; try assumption; try discriminate.
      congruence.
    + change (error_details (set_status "Partial Success" a))
        with (error_details a).
      rewrite Ed. simpl. rewrite Ed.
      repeat split; try assumption; try discriminate.
  - left. simpl. repeat split. exact E.
Qed.

(** The [except] branch of [process_account]. *)
Lemma unhandled_spec (msg : string) (a : AccountData) :
  status (unhandled msg a) = "Error"
  /\ error_details (unhandled msg a)
     = (if Text.nonempty msg then "Unhandled Exception: " ++ msg
        else "Unknown processing error occurred")
  /\ error_details (unhandled msg a) <> EmptyString
  /\ has_sentinel (unhandled msg a) = has_sentinel a.
Proof.
  unfold unhandled. simpl. repeat split.
  destruct (Text.nonempty msg); discriminate.
Qed.

Section Libraries.

Variable repr : value -> string.
Variable find_class_text : string -> string -> option string.
Variable select_one_text : string -> string -> option string.
Variable json_loads : string -> option value.
Variable html_error_text : string -> option string.
Variable debug_listing : string -> option string.

(** *** The stages never assign [username] *)

Ltac split_matches H :=
  repeat match type of H with
         | context [match ?x with _ => _ end] => destruct x eqn:?
         end.

Ltac split_all_matches :=
  repeat match goal with
         | H : context [match ?x with _ => _ end] |- _ => destruct x eqn:?
         end.

Ltac use_equations :=
  repeat match goal with
         | H : Ok _ = Ok _ |- _ => injection H as H; try subst
         | H : Err _ = Ok _ |- _ => discriminate H
         end.

Ltac split_goal_matches :=
  repeat match goal with
         | |- context [match ?x with _ => _ end] => destruct x eqn:?
         end.

Lemma fold_res_keeps {A S B : Type} (f : A -> S -> res S) (g : S -> B) :
  (forall x s s', f x s = Ok s' -> g s' = g s) ->
  forall l s s', fold_res f l s = Ok s' -> g s' = g s.
Proof.
  intros Hf l. induction l as [|x l IH]; simpl; intros s s' H.
  - now injection H as <-.
  - unfold bind in H. destruct (f x s) as [s1|e] eqn:E; [|discriminate].
    rewrite (IH _ _ H). now apply (Hf x).
Qed.

Lemma main_consumption_of_detail_user (service_name detail : value)
  (a a' : AccountData) :
  main_consumption_of_detail repr service_name detail a = Ok a' ->
  username a' = username a.
Proof.
  unfold main_consumption_of_detail, bind. intro H.
  split_matches H; try discriminate; injection H as <-; reflexivity.
Qed.

Lemma secondary_entry_user (u : string) (secondary : value)
  (st st' : consumption_state) :
  secondary_entry repr u secondary st = Ok st' ->
  username (acc st') = username (acc st).
Proof.
  unfold secondary_entry, bind. intro H.
  split_all_matches; use_equations; reflexivity.
Qed.

Lemma detail_step_user (u : string) (service_name detail : value)
  (st st' : consumption_state) :
  detail_step repr u service_name detail st = Ok st' ->
  username (acc st') = username (acc st).
Proof.
  unfold detail_step, bind. intro H.
  destruct (main_consumption_of_detail repr service_name detail (acc st))
    as [a|e] eqn:Ea; [|discriminate].
  apply main_consumption_of_detail_user in Ea.
  assert (Hst : username (acc (with_acc a st)) = username (acc st))
    by exact Ea.
  destruct (eq_str service_name "U-share Main");
    [|injection H as <-; exact Hst].
  destruct (get detail "SecondaryValue" (PList [])) as [secondaries|e];
    [|discriminate].
  destruct (truthy secondaries); [|injection H as <-; exact Hst].
  destruct (iter secondaries) as [items|e]; [|discriminate].
  rewrite <- Hst.
  eapply (fold_res_keeps (secondary_entry repr u)
            (fun s => username (acc s))); [|exact H].
  intros x s s'. apply secondary_entry_user.
Qed.

Lemma service_step_user (u : string) (service : value)
  (st st' : consumption_state) :
  service_step repr u service st = Ok st' ->
  username (acc st') = username (acc st).
Proof.
  unfold service_step, bind. intro H.
  destruct (get service "ServiceNameValue" (PStr EmptyString))
    as [service_name|e]; [|discriminate].
  destruct (get service "ServiceDetailsInformationValue" (PList []))
    as [details|e]; [|discriminate].
  destruct (iter details) as [items|e]; [|discriminate].
  eapply (fold_res_keeps (detail_step repr u service_name)
            (fun s => username (acc s))); [|exact H].
  intros x s s'. apply detail_step_user.
Qed.

Lemma consumption_try_user (u : string) (d : value) (a a' : AccountData) :
  consumption_try repr u d a = Ok a' -> username a' = username a.
Proof.
  unfold consumption_try, bind. intro H.
  destruct (parse_balance d) as [balance|e]; [|discriminate].
  destruct (get d "ServiceInformationValue" (PList [])) as [services|e];
    [|discriminate].
  destruct (iter services) as [items|e]; [|discriminate].
  destruct (fold_res _ items _) as [st|e] eqn:Ef; [|discriminate].
  apply (fold_res_keeps (service_step repr u)
           (fun s => username (acc s))) in Ef;
    [|intros x s s'; apply service_step_user].
  destruct (strings_of (numbers st)); [|discriminate].
  injection H as <-. exact Ef.
Qed.

Lemma consumption_stage_user (resp : APIResponse)
  (s : AccountData * list string) :
  username (fst (consumption_stage repr resp s)) = username (fst s).
Proof.
  destruct s as [a errors]. unfold consumption_stage.
  destruct (success resp && truthy (data resp)); [|reflexivity].
  destruct (consumption_try repr (username a) (data resp) a) eqn:E;
    [|reflexivity].
  simpl. now apply consumption_try_user in E.
Qed.

Lemma expiry_stage_user (resp : APIResponse) (s : AccountData * list string) :
  username (fst (expiry_stage repr resp s)) = username (fst s).
Proof.
  destruct s as [a errors]. unfold expiry_stage.
  split_goal_matches; reflexivity.
Qed.

Lemma recharge_stage_user (resp : APIResponse)
  (s : AccountData * list string) :
  username (fst (recharge_stage resp s)) = username (fst s).
Proof.
  destruct s as [a errors]. unfold recharge_stage.
  destruct (success resp && truthy (data resp)); [|reflexivity].
  destruct (recharge_try (data resp) a) eqn:E; [|reflexivity].
  unfold recharge_try, bind in E.
  split_matches E; try discriminate; injection E as <-; reflexivity.
Qed.

Lemma services_stage_user (resp : APIResponse)
  (s : AccountData * list string) :
  username (fst (services_stage resp s)) = username (fst s).
Proof.
  destruct s as [a errors]. unfold services_stage.
  split_goal_matches; reflexivity.
Qed.

Lemma add_error_tag_user (tag : string) (a : AccountData) :
  username (add_error_tag tag a) = username a.
Proof. unfold add_error_tag. now destruct (Text.nonempty _). Qed.


Lemma add_error_tag_nonempty (tag : string) (a : AccountData) :
  tag <> EmptyString -> error_details (add_error_tag tag a) <> EmptyString.
Proof.
  unfold add_error_tag. intro Ht.
  destruct (error_details a) as [|c t]; simpl; [exact Ht|discriminate].
Qed.

Lemma extract_api_data_from_user (r1 r2 r3 r4 : APIResponse)
  (a : AccountData) :
  username (fst (extract_api_data_from repr r1 r2 r3 r4 a)) = username a.
Proof.
  unfold extract_api_data_from.
  pose proof (consumption_stage_user r1 (a, [])) as H1.
  pose proof (expiry_stage_user r2 (consumption_stage repr r1 (a, [])))
    as H2.
  pose proof (recharge_stage_user r3
                (expiry_stage repr r2 (consumption_stage repr r1 (a, []))))
    as H3.
  pose proof (services_stage_user r4
                (recharge_stage r3
                   (expiry_stage repr r2
                      (consumption_stage repr r1 (a, []))))) as H4.
  cbn [fst] in H1.
  destruct (session_error r1); [|reflexivity].
  destruct (session_error r2); [|cbn [fst]; congruence].
  destruct (session_error r3); [|cbn [fst]; congruence].
  destruct (session_error r4); [|cbn [fst]; congruence].
  cbn [fst]. unfold record_errors.
  destruct (snd _); [|rewrite add_error_tag_user]; congruence.
Qed.

Lemma extract_html_data_user (p : pages) (a : AccountData) :
  username (extract_html_data find_class_text select_one_text p a)
  = username a.
Proof.
  unfold extract_html_data, extract_manage_services_data, read_service_dates,
    add_error_tag.
  split_goal_matches; reflexivity.
Qed.

Lemma determine_final_status_user (a : AccountData) :
  username (determine_final_status a) = username a.
Proof.
  unfold determine_final_status. split_goal_matches; reflexivity.
Qed.

(** With the responses that [make_api_request] builds, no exception
    leaves [extract_api_data]. *)
Lemma extract_api_data_completes (x : api_exchange) (a : AccountData)
  (password : string) :
  exists a' session_expired,
    extract_api_data repr json_loads html_error_text debug_listing x a password
    = (a', Completed session_expired).
Proof.
  unfold extract_api_data, extract_api_data_from. cbv beta zeta.
  destruct (ApiClientProps.make_api_request_error json_loads html_error_text debug_listing
              (consumption x) (Config.get_consumption_url (timestamp x))
              (username a) "Consumption" (Some password) 0) as [b1 ->].
  destruct (ApiClientProps.make_api_request_error json_loads html_error_text debug_listing
              (expiry x) Config.EXPIRY (username a) "Expiry Date"
              (Some password) 0) as [b2 ->].
  destruct (ApiClientProps.make_api_request_error json_loads html_error_text debug_listing
              (last_recharge x) Config.LAST_RECHARGE (username a)
              "Last Recharge" (Some password) 0) as [b3 ->].
  destruct (ApiClientProps.make_api_request_error json_loads html_error_text debug_listing
              (services x) Config.SERVICES (username a) "My Services"
              (Some password) 0) as [b4 ->].
  do 2 eexists. reflexivity.
Qed.

(** The record of one extraction attempt, by the way the session was
    obtained. *)
Lemma process_account_with_cases (acquired : Session.result (nat * bool))
  (x : api_exchange) (p : pages) (credentials : AccountCredentials) :
  let a := fst (process_account_with repr find_class_text select_one_text
                  json_loads html_error_text debug_listing acquired x p credentials) in
  username a = cred_username credentials
  /\ match acquired with
     | Session.Returned _ =>
         (status a = "Success" /\ error_details a = EmptyString
          /\ has_sentinel a = false)
         \/ (status a = "Partial Success" /\ error_details a <> EmptyString
             /\ has_sentinel a = true)
     | Session.Raised msg =>
         status a = "Error"
         /\ error_details a
            = (if Text.nonempty msg then "Unhandled Exception: " ++ msg
               else "Unknown processing error occurred")
         /\ error_details a <> EmptyString
         /\ has_sentinel a = true
     end.
Proof.
  unfold process_account_with.
  destruct acquired as [[client is_new_session]|msg].
  - destruct (extract_api_data_completes x
                (AccountData_new (cred_username credentials))
                (cred_password credentials)) as (a' & expired & E).
    rewrite E. cbn [fst].
    assert (Hu : username a' = cred_username credentials).
    { change a' with (fst (a', Completed expired)). rewrite <- E.
      unfold extract_api_data. now rewrite extract_api_data_from_user. }
    split.
    + now rewrite determine_final_status_user, extract_html_data_user.
    + destruct (determine_final_status_cases
                  (extract_html_data find_class_text select_one_text p a'))
        as [(_ & Hs & He & Hn)|(_ & Hs & Hn & He & _)]; tauto.
  - cbn [fst]. split; [reflexivity|].
    destruct (unhandled_spec msg
                (AccountData_new (cred_username credentials)))
      as (Hs & He & Hne & Hn).
    rewrite Hn. repeat split; assumption.
Qed.

(** *** The loop over the services leaves the balance alone *)






(** *** The manage-services page leaves the activation date and the
    recorded tags alone *)



(** *** Claims about the stages *)

(** C7. The three scenarios, run through the stage parsers on the fresh
    record of an attempt: the balance text "$12.50 " becomes the float
    12.5 (25/2), the expiry answer "15 days" becomes the integer 15, and
    the detail with 2048 MB out of a package of 5 under the service
    "Mobile Internet" becomes "2.00 GB/5 GB"; none of them records an
    error. *)
Theorem stage_parsers_on_the_scenarios (u : string) :
  let a := AccountData_new u in
  let detail :=
    PDict [("ConsumptionValue", PStr "2048"); ("PackageValue", PStr "5")] in
  let balance_response :=
    Scenario.answered (PDict [("CurrentBalanceValue", PStr "$12.50 ")]) in
  let consumption_response :=
    Scenario.answered
      (PDict [("ServiceInformationValue",
               PList [PDict [("ServiceNameValue", PStr "Mobile Internet");
                             ("ServiceDetailsInformationValue",
                              PList [detail])]])]) in
  (exists x,
      current_balance (fst (consumption_stage repr balance_response (a, [])))
      = PFloat x
      /\ as_integer_ratio x = Some (25, 2))
  /\ snd (consumption_stage repr balance_response (a, [])) = []
  /\ float_of_string (strip (remove_char "$" "$12.50 "))
     = Some (float_of_decimal false 1250 (-2))
  /\ validity_days_remaining
       (fst (expiry_stage repr (Scenario.answered (PStr "15 days")) (a, [])))
     = PInt 15
  /\ snd (expiry_stage repr (Scenario.answered (PStr "15 days")) (a, [])) = []
  /\ (exists a',
        main_consumption_of_detail repr (PStr "Mobile Internet") detail a
        = Ok a'
        /\ mobile_internet_consumption a' = PStr "2.00 GB/5 GB")
  /\ mobile_internet_consumption
       (fst (consumption_stage repr consumption_response (a, [])))
     = PStr "2.00 GB/5 GB"
  /\ snd (consumption_stage repr consumption_response (a, [])) = []
  /\ format_2f (float_div (float_of_Z 2048) (float_of_Z 1024)) = "2.00".
Proof.
  cbv zeta.
  split; [|split; [|split; [|split; [|split; [|split; [|split; [|split]]]]]]].
  - eexists. split; vm_compute; reflexivity.
  - vm_compute. reflexivity.
  - vm_compute. reflexivity.
  - vm_compute. reflexivity.
  - vm_compute. reflexivity.
  - eexists. split; vm_compute; reflexivity.
  - vm_compute. reflexivity.
  - vm_compute. reflexivity.
  - vm_compute. reflexivity.
Qed.


(** *** Claims about [process_account] *)

Section World.

Variable clock : nat -> Z.
Variable portal : nat -> string -> string -> Login.exchange.
Variable api : nat -> string -> api_exchange.
Variable html : nat -> string -> pages.

(** [process_account] always returns a record; it is the record
    [process_account_with] builds from the way the session was obtained. *)
Lemma process_account_run (credentials : AccountCredentials)
  (m : Session.SessionManager) :
  exists a m' x p,
    process_account repr find_class_text select_one_text json_loads
      html_error_text debug_listing clock portal api html credentials m
    = (Session.Returned a, m')
    /\ a = fst (process_account_with repr find_class_text select_one_text
                  json_loads html_error_text debug_listing
                  (fst (Session.get_or_create_session clock portal
                          (cred_username credentials)
                          (cred_password credentials) m))
                  x p credentials).
Proof.
  unfold process_account.
  destruct (Session.get_or_create_session clock portal
              (cred_username credentials) (cred_password credentials) m)
    as [acquired m1].
  cbn [fst].
  destruct (process_account_with _ _ _ _ _ _ acquired _ _ credentials)
    as [a invalidate] eqn:E.
  do 4 eexists. split; [reflexivity|]. now rewrite E.
Qed.

(** C1, as amended.  The record of an extraction attempt has status
    "Success" exactly when no field besides [username], [status] and
    [error_details] is "Not Found" or "API Error", and then
    [error_details] is empty.  Otherwise it is "Partial Success" when the
    session was obtained, and "Error" when obtaining it raised. *)
Theorem final_status_of_an_attempt (credentials : AccountCredentials)
  (m : Session.SessionManager) :
  exists a m',
    process_account repr find_class_text select_one_text json_loads
      html_error_text debug_listing clock portal api html credentials m
    = (Session.Returned a, m')
    /\ (status a = "Success" <-> no_sentinel_fields a)
    /\ (status a = "Success" -> error_details a = EmptyString)
    /\ (status a <> "Success" ->
        match fst (Session.get_or_create_session clock portal
                     (cred_username credentials)
                     (cred_password credentials) m) with
        | Session.Returned _ => status a = "Partial Success"
        | Session.Raised _ => status a = "Error"
        end).
Proof.
  destruct (process_account_run credentials m) as (a & m' & x & p & E & Ha).
  exists a, m'. split; [exact E|].
  destruct (process_account_with_cases
              (fst (Session.get_or_create_session clock portal
                      (cred_username credentials)
                      (cred_password credentials) m)) x p credentials)
    as [_ H].
  cbv zeta in H. rewrite <- Ha in H. rewrite <- has_sentinel_false.
  destruct (fst (Session.get_or_create_session clock portal
                   (cred_username credentials)
                   (cred_password credentials) m)).
  - destruct H as [(Hs & He & Hn)|(Hs & He & Hn)].
    + repeat split; tauto.
    + rewrite Hs, Hn. repeat split; try discriminate; reflexivity.
  - destruct H as (Hs & _ & _ & Hn).
    rewrite Hs, Hn. repeat split; try discriminate; reflexivity.
Qed.

(** C6. The record of an extraction attempt has a non-empty
    [error_details] whenever its status is "Partial Success" or "Error"
    (and it has one of the three statuses); a partial success without a
    tag gets the generic message; an "Error" record carries the
    exception text or the fallback message; the records among the
    results of [process_batch_concurrent], those it makes for failed
    tasks included, carry a non-empty message too. *)
Theorem error_details_never_empty_on_failure :
  (forall credentials m,
      exists a m',
        process_account repr find_class_text select_one_text json_loads
          html_error_text debug_listing clock portal api html credentials m
        = (Session.Returned a, m')
        /\ (status a = "Success"
            \/ (status a = "Partial Success"
                /\ error_details a <> EmptyString)
            \/ (status a = "Error" /\ error_details a <> EmptyString)))
  /\ (forall a,
        has_sentinel a = true ->
        status (determine_final_status a) = "Partial Success"
        /\ error_details (determine_final_status a) <> EmptyString
        /\ (error_details a = EmptyString ->
            error_details (determine_final_status a)
            = "Some data could not be retrieved"))
  /\ (forall msg a,
        status (unhandled msg a) = "Error"
        /\ error_details (unhandled msg a)
           = (if Text.nonempty msg then "Unhandled Exception: " ++ msg
              else "Unknown processing error occurred")
        /\ error_details (unhandled msg a) <> EmptyString)
  /\ (forall world gather_raises k batch a,
        In (Bot.Rec a)
          (Bot.process_batch_concurrent repr find_class_text
             select_one_text json_loads html_error_text debug_listing world
             gather_raises k batch) ->
        status a = "Success"
        \/ (status a = "Partial Success" /\ error_details a <> EmptyString)
        \/ (status a = "Error" /\ error_details a <> EmptyString)).
Proof.
  split; [|split; [|split]].
  - intros credentials m.
    destruct (process_account_run credentials m) as (a & m' & x & p & E & Ha).
    exists a, m'. split; [exact E|].
    destruct (process_account_with_cases
                (fst (Session.get_or_create_session clock portal
                        (cred_username credentials)
                        (cred_password credentials) m)) x p credentials)
      as [_ H].
    cbv zeta in H. rewrite <- Ha in H.
    destruct (fst (Session.get_or_create_session _ _ _ _ _)); tauto.
  - intros a Ha.
    destruct (determine_final_status_cases a)
      as [(Hn & _)|(_ & Hs & _ & He & Hg & _)]; [congruence|tauto].
  - intros msg a. destruct (unhandled_spec msg a); tauto.
  - intros world gather_raises k batch a.
    unfold Bot.process_batch_concurrent.
    destruct (gather_raises k) as [msg|].
    + rewrite in_map_iff. intros (account & E & _). injection E as <-.
      right. right. split; [reflexivity|discriminate].
    + revert k. induction batch as [|account batch IH]; intro k; simpl;
        [intros []|].
      unfold Bot.run_task at 1.
      destruct (Bot.stopped (world k)) as [[msg|class_name msg]|].
      * intros [E|I]; [injection E as <-|now apply (IH (S k))].
        right. right. split; [reflexivity|discriminate].
      * intros [E|I]; [discriminate E|now apply (IH (S k))].
      * intros [E|I]; [injection E as <-|now apply (IH (S k))].
        destruct (process_account_with_cases (Bot.acquired (world k))
                    (Bot.exchange (world k)) (Bot.fetched (world k)) account)
          as [_ H].
        cbv zeta in H.
        destruct (Bot.acquired (world k)); tauto.
Qed.

End World.

End Libraries.

Import Scenario.

(** The whole pipeline on a portal in good health: every field is
    filled, the status is "Success". *)
Example attempt_on_a_healthy_portal :
  fst (process_account repr0 activation_element links_element parsed
         no_error_element listing_ok clock0 portal_ok (fun _ _ => api_ok)
         (fun _ _ => pages_ok) credentials0 Session.session_manager)
  = Session.Returned
      {| username := "03123456";
         status := "Success";
         error_details := EmptyString;
         activation_date := PStr "03/04/2019";
         validity_days_remaining := PInt 15;
         current_balance := PFloat (float_of_decimal false 125 (-1));
         last_recharge_amount := PFloat (float_of_Z 10);
         last_recharge_date := PStr "01/02/2024";
         service_details := PStr "USHARE: 20GB";
         secondary_numbers := PStr "71000001";
         main_consumption := PStr "1.46 GB/20 GB";
         mobile_internet_consumption := PStr "2.00 GB/5 GB";
         secondary_consumption := PStr "71000001: 0.50 GB/5 GB";
         subscription_date := PStr "05/01/2024";
         validity_date := PStr "05/02/2024" |}.
Proof. vm_compute. reflexivity. Qed.

(** The same attempt when every data request is answered with the login
    page: all four API stages fail, the session is invalidated. *)
Example attempt_with_an_expired_session :
  let '(r, m) :=
    process_account repr0 activation_element links_element parsed
      no_error_element listing_ok clock0 portal_ok (fun _ _ => api_html)
      (fun _ _ => pages_ok) credentials0 Session.session_manager in
  (exists a,
      r = Session.Returned a
      /\ status a = "Partial Success"
      /\ error_details a
         = "Consumption API Fetch Error, Expiry API Fetch Error, Recharge API Fetch Error, Services API Fetch Error"
      /\ current_balance a = PStr "API Error")
  /\ option_map Session.is_valid (Session.lookup u0 (Session._sessions m))
     = Some false.
Proof. vm_compute. split; [eexists; repeat split|reflexivity]. Qed.

(** C1 as it is worded fails on an attempt whose login is rejected: its
    record is marked "Error", neither "Success" nor "Partial Success". *)
Lemma rejected_login_gives_error_status :
  exists a m',
    process_account repr0 no_element no_element no_json no_error_element listing_ok
      clock0 portal_bad (fun _ _ => api_html) (fun _ _ => pages_down)
      credentials0 Session.session_manager
    = (Session.Returned a, m')
    /\ status a = "Error"
    /\ status a <> "Success"
    /\ status a <> "Partial Success"
    /\ error_details a
       = "Unhandled Exception: Login failed: Dashboard verification failed".
Proof.
  do 2 eexists. split; [vm_compute; reflexivity|].
  repeat split; discriminate.
Qed.

(** The failures of C8 on concrete answers: a request that failed, a
    balance that is no number (an exception in the [try] block), an
    empty balance and a recharge without amount (one field, no tag), and
    an expiry answer whose days are a superscript digit, which passes
    [isdigit] and makes [int] raise. *)
Example stage_failures_on_answers :
  let a := AccountData_new u0 in
  consumption_stage repr0 (ApiClient.failed "Timeout") (a, [])
  = (consumption_failed a, ["Consumption API Fetch Error"])
  /\ consumption_stage repr0
       (answered (PDict [("CurrentBalanceValue", PStr "n/a")])) (a, [])
     = (consumption_failed a, ["Consumption API Parse Error"])
  /\ consumption_stage repr0
       (answered (PDict [("CurrentBalanceValue", PStr "$ ")])) (a, [])
     = (set_secondary_consumption (PStr "None")
          (set_secondary_numbers (PStr "None")
             (set_current_balance (PStr "API Error") a)), [])
  /\ recharge_stage (answered (PDict [("Date", PStr "01/02/2024")])) (a, [])
     = (set_last_recharge_date (PStr "01/02/2024")
          (set_last_recharge_amount (PStr "API Error") a), [])
  /\ expiry_stage repr0 (answered (PStr "soon")) (a, [])
     = (set_validity_days_remaining (PStr "API Error") a, [])
  /\ expiry_stage repr0
       (answered (PStr (String (ascii_of_nat 178) " days"))) (a, [])
     = (set_validity_days_remaining (PStr "API Error") a,
        ["Expiry API Parse Error"]).
Proof. repeat split. Qed.


End ScraperProps.

(** ** The batch orchestrator *)

Module BotFacts.

Import Models Bot BotView.
Local Open Scope bot_scope.

(** *** Cutting the account list into batches *)

Lemma range_covers (total step : nat) :
  (0 < step)%nat -> (total <= ((total + step - 1) / step) * step)%nat.
Proof.
  intro Hs.
  pose proof (Nat.div_mod_eq (total + step - 1) step) as Hd.
  pose proof (Nat.mod_upper_bound (total + step - 1) step) as Hm.
  nia.
Qed.

Lemma slices_from {A : Type} (l : list A) (n count start : nat) :
  (List.length l <= start + count * n)%nat ->
  List.concat (map (fun i => slice l i n) (range_from start count n))
  = skipn start l.
Proof.
  revert start. induction count as [|count IH]; intros start H; simpl.
  - symmetry. apply skipn_all2. lia.
  - rewrite IH by (simpl in H; lia).
    unfold slice.
    replace (start + n)%nat with (n + start)%nat by lia.
    rewrite <- skipn_skipn. apply firstn_skipn.
Qed.

Lemma slices_cover {A : Type} (l : list A) (n : nat) :
  (0 < n)%nat ->
  List.concat (map (fun i => slice l i n) (range (List.length l) n)) = l.
Proof.
  intro Hn. unfold range. rewrite slices_from; [reflexivity|].
  simpl. now apply range_covers.
Qed.

Lemma slice_length {A : Type} (l : list A) (i n : nat) :
  (0 < n)%nat -> (i < List.length l)%nat ->
  (1 <= List.length (slice l i n) <= n)%nat.
Proof.
  intros Hn Hi. unfold slice. rewrite length_firstn, length_skipn. lia.
Qed.

Lemma range_from_in (start count step i : nat) :
  In i (range_from start count step) ->
  exists j, (j < count)%nat /\ i = (start + j * step)%nat.
Proof.
  revert start. induction count as [|count IH]; intros start; simpl;
    [intros []|].
  intros [<-|I].
  - exists 0%nat. split; lia.
  - destruct (IH _ I) as (j & Hj & ->). exists (S j). split; lia.
Qed.

Lemma range_in (total step i : nat) :
  (0 < step)%nat -> In i (range total step) -> (i < total)%nat.
Proof.
  intros Hs I. unfold range in I.
  destruct (range_from_in _ _ _ _ I) as (j & Hj & ->).
  pose proof (Nat.div_mod_eq (total + step - 1) step) as Hd.
  pose proof (Nat.mod_upper_bound (total + step - 1) step) as Hm.
  nia.
Qed.

(** *** [add_result] *)

Lemma add_result_spec (a : AccountData) (r : ProcessingResult) :
  Models.results (add_result a r) = (Models.results r ++ [a])%list
  /\ counted (add_result a r) = counted r + 1
  /\ total_accounts (add_result a r) = total_accounts r.
Proof.
  unfold add_result, counted.
  destruct (String.eqb (status a) "Success");
    [|destruct (String.eqb (status a) "Partial Success")];
    simpl; repeat split; lia.
Qed.

Lemma add_result_tallied (a : AccountData) (r : ProcessingResult) :
  tallied r -> tallied (add_result a r).
Proof.
  unfold tallied, count_where, add_result. intros (H1 & H2 & H3).
  rewrite (String.eqb_sym (status a) "Success").
  rewrite (String.eqb_sym (status a) "Partial Success").
  assert (E : String.eqb "Success" (status a) = true ->
              String.eqb "Partial Success" (status a) = false).
  { intro E1. apply String.eqb_eq in E1. now rewrite <- E1. }
  destruct (String.eqb "Success" (status a)) eqn:E1;
    [pose proof (E eq_refl) as E2
    |destruct (String.eqb "Partial Success" (status a)) eqn:E2];
    cbn [successful partial failed Models.results];
    rewrite !filter_app, !length_app; cbn [filter];
    rewrite E1, E2; cbn [negb andb List.length];
    rewrite H1, H2, H3; repeat split; lia.
Qed.

(** *** What the chat has seen *)

Lemma sent_app (a b : list event) : sent (a ++ b) = (sent a ++ sent b)%list.
Proof.
  induction a as [|e a IH]; [reflexivity|].
  destruct e as [[]| |]; simpl; now rewrite IH.
Qed.

Lemma batch_sizes_app (a b : list event) :
  batch_sizes (a ++ b) = (batch_sizes a ++ batch_sizes b)%list.
Proof.
  induction a as [|e a IH]; [reflexivity|].
  destruct e as [[]| |]; simpl; now rewrite IH.
Qed.

Lemma rhythm_app (a b : list event) :
  rhythm (a ++ b) = (rhythm a ++ rhythm b)%list.
Proof.
  induction a as [|e a IH]; [reflexivity|].
  destruct e as [[]| |]; simpl; now rewrite IH.
Qed.

Lemma numbered_app (start total : Z) (a b : list AccountData) :
  numbered start total (a ++ b)
  = (numbered start total a
     ++ numbered (start + Z.of_nat (List.length a)) total b)%list.
Proof.
  revert start. induction a as [|r a IH]; intro start; simpl.
  - now rewrite Z.add_0_r.
  - rewrite IH. do 3 f_equal. lia.
Qed.

(** *** Stretches of a run *)

Lemma progress_refl (total : Z) (s s' : run_state) :
  results s' = results s ->
  all_batch_results s' = all_batch_results s ->
  processed_count s' = processed_count s ->
  sent (events s') = sent (events s) ->
  progress total s s' [] 0.
Proof.
  intros H1 H2 H3 H4. unfold progress, extended.
  rewrite H1, H2, H3, H4. simpl. rewrite ?app_nil_r.
  split; [repeat split; first [reflexivity|lia]|].
  split; [reflexivity|]. split; [tauto|]. lia.
Qed.

(** The stretch depends on the two states through their records, their
    counts and their notifications only. *)
Lemma progress_left (total : Z) (s t s' : run_state)
  (records : list AccountData) (j : nat) :
  results t = results s ->
  all_batch_results t = all_batch_results s ->
  processed_count t = processed_count s ->
  sent (events t) = sent (events s) ->
  progress total t s' records j -> progress total s s' records j.
Proof.
  intros H1 H2 H3 H4. unfold progress, extended.
  now rewrite H1, H2, H3, H4.
Qed.

Lemma progress_right (total : Z) (s s' t : run_state)
  (records : list AccountData) (j : nat) :
  results t = results s' ->
  all_batch_results t = all_batch_results s' ->
  processed_count t = processed_count s' ->
  sent (events t) = sent (events s') ->
  progress total s s' records j -> progress total s t records j.
Proof.
  intros H1 H2 H3 H4. unfold progress, extended.
  now rewrite H1, H2, H3, H4.
Qed.

(** One record added and counted, its notification still to be sent. *)
Lemma progress_one (total : Z) (s s' : run_state) (a : AccountData) :
  results s' = add_result a (results s) ->
  all_batch_results s' = (all_batch_results s ++ [a])%list ->
  processed_count s' = processed_count s + 1 ->
  sent (events s') = sent (events s) ->
  progress total s s' [a] 0.
Proof.
  intros H1 H2 H3 H4. unfold progress, extended.
  destruct (add_result_spec a (results s)) as (A & B & C).
  rewrite H1, H2, H3, H4, A, B, C. simpl. rewrite ?app_nil_r.
  split; [repeat split; first [reflexivity|lia]|].
  split; [reflexivity|]. split; [apply add_result_tallied|]. lia.
Qed.

(** One record added, counted and notified, followed by a stretch. *)
Lemma progress_cons (total : Z) (s s1 s' : run_state) (a : AccountData)
  (records : list AccountData) (j : nat) :
  results s1 = add_result a (results s) ->
  all_batch_results s1 = (all_batch_results s ++ [a])%list ->
  processed_count s1 = processed_count s + 1 ->
  sent (events s1)
  = (sent (events s) ++ [(a, processed_count s + 1, total)])%list ->
  progress total s1 s' records j ->
  progress total s s' (a :: records) (S j).
Proof.
  intros H1 H2 H3 H4. unfold progress, extended.
  destruct (add_result_spec a (results s)) as (A & B & C).
  rewrite H1, H2, H3, H4, A, B, C.
  intros ((E1 & E2 & E3 & E4 & E5) & E6 & E7 & E8 & E9).
  rewrite E1, E2, E3, E4, E5, E6, <- !app_assoc.
  cbn [List.length firstn numbered app].
  split; [repeat split; first [reflexivity|lia]|].
  split; [reflexivity|].
  split; [intro Ht; now apply E7, add_result_tallied|]. lia.
Qed.

(** A complete stretch followed by a stretch. *)
Lemma progress_trans (total : Z) (s s1 s' : run_state)
  (r1 r2 : list AccountData) (j : nat) :
  progress total s s1 r1 (List.length r1) ->
  progress total s1 s' r2 j ->
  progress total s s' (r1 ++ r2) (List.length r1 + j).
Proof.
  unfold progress, extended.
  intros ((A1 & A2 & A3 & A4 & A5) & A6 & A7 & _)
         ((B1 & B2 & B3 & B4 & B5) & B6 & B7 & B8 & B9).
  rewrite firstn_all in A6.
  rewrite B1, B2, B3, B4, B5, B6, A1, A2, A3, A4, A5, A6.
  rewrite firstn_app_2, numbered_app, length_app, Nat2Z.inj_add,
    <- !app_assoc.
  split; [repeat split; first [reflexivity|lia]|].
  split; [reflexivity|]. split; [tauto|]. lia.
Qed.

Lemma same_run_refl (s : run_state) : same_run s s.
Proof. unfold same_run. tauto. Qed.

Lemma same_run_trans (s1 s2 s3 : run_state) :
  same_run s1 s2 -> same_run s2 s3 -> same_run s1 s3.
Proof.
  unfold same_run. intros (A1 & A2 & A3 & A4 & A5) (B1 & B2 & B3 & B4 & B5).
  rewrite B1, B2, B3, B4, B5. tauto.
Qed.

Section Run.

Variable config : BotConfig.
Variable repr : Py.value -> string.
Variable find_class_text : string -> string -> option string.
Variable select_one_text : string -> string -> option string.
Variable json_loads : string -> option Py.value.
Variable html_error_text : string -> option string.
Variable debug_listing : string -> option string.
Variable world : nat -> task_world.
Variable gather_raises : nat -> option string.
Variable reply_raises : nat -> message -> option string.
Variable db_raises : db_call -> option string.

(** *** The calls to the chat and to the database *)

Lemma reply_text_cases (m : message) (s : run_state) :
  let out := reply_text reply_raises m s in
  same_run s (snd out)
  /\ match fst out with
     | Returned _ => events (snd out) = (events s ++ [Replied m])%list
     | Raised _ =>
         events (snd out) = events s
         /\ (first_attempt m = false -> ~ chat_delivers reply_raises)
     end.
Proof.
  cbv zeta. unfold reply_text.
  destruct (reply_raises (replies s) m) as [e|] eqn:E; cbn [fst snd].
  - split; [now unfold same_run|]. split; [reflexivity|].
    intros Hm Hc. rewrite (Hc _ _ Hm) in E. discriminate.
  - split; [now unfold same_run|reflexivity].
Qed.

Lemma send_account_result_cases (a : AccountData) (current total : Z)
  (s : run_state) :
  let out := send_account_result reply_raises a current total s in
  same_run s (snd out)
  /\ match fst out with
     | Returned _ =>
         exists markdown,
           events (snd out)
           = (events s ++ [Replied (AccountResult a current total markdown)])%list
     | Raised _ =>
         events (snd out) = events s /\ ~ chat_delivers reply_raises
     end.
Proof.
  cbv zeta. unfold send_account_result, catch, reply_text.
  destruct (reply_raises (replies s) _) as [e1|]; cbn [fst snd].
  - cbn [replies called].
    destruct (reply_raises (S (replies s)) _) as [e2|] eqn:E2;
      cbn [fst snd].
    + split; [now unfold same_run|]. split; [reflexivity|].
      intro Hc.
      rewrite (Hc (S (replies s)) (AccountResult a current total false)
                 eq_refl) in E2.
      discriminate.
    + split; [now unfold same_run|]. now exists false.
  - split; [now unfold same_run|]. now exists true.
Qed.

Lemma save_cases (call : db_call) (saved : list AccountData)
  (s : run_state) :
  let out := save db_raises call saved s in
  same_run s (snd out)
  /\ sent (events (snd out)) = sent (events s)
  /\ rhythm (events (snd out)) = rhythm (events s)
  /\ match fst out with
     | Returned _ => True
     | Raised _ => ~ database_saves db_raises
     end.
Proof.
  cbv zeta. unfold save.
  destruct (db_raises call) as [e|] eqn:E; cbn [fst snd].
  - split; [now unfold same_run|]. split; [reflexivity|].
    split; [reflexivity|]. intro H. rewrite (H call) in E. discriminate.
  - split; [now unfold same_run|]. cbn [events emit].
    rewrite sent_app, rhythm_app. simpl. now rewrite !app_nil_r.
Qed.

(** "Save all results to database": it touches neither the records nor
    the notifications, and it returns when the chat and the database
    work. *)
Lemma save_results_cases (s : run_state) :
  let out := save_results reply_raises db_raises s in
  same_run s (snd out)
  /\ sent (events (snd out)) = sent (events s)
  /\ rhythm (events (snd out)) = rhythm (events s)
  /\ (chat_delivers reply_raises -> database_saves db_raises ->
      fst out = Returned tt).
Proof.
  cbv zeta. unfold save_results, bind, read.
  destruct (all_batch_results s) as [|a l] eqn:Ea.
  - cbn [ret fst snd]. split; [apply same_run_refl|]. now repeat split.
  - rewrite <- Ea.
    pose proof (reply_text_cases SavingResults s) as H0. cbv zeta in H0.
    destruct (reply_text reply_raises SavingResults s) as [[[]|e0] s1].
    + cbn [fst snd] in H0. destruct H0 as [R0 E0].
      assert (V0 : sent (events s1) = sent (events s)
                   /\ rhythm (events s1) = rhythm (events s)).
      { rewrite E0, sent_app, rhythm_app. simpl. now rewrite !app_nil_r. }
      destruct V0 as [S0 Y0].
      pose proof (save_cases SaveAccountResults (all_batch_results s) s1)
        as H1. cbv zeta in H1.
      destruct (save db_raises SaveAccountResults (all_batch_results s) s1)
        as [[[]|e1] s2]; cbn [fst snd] in H1;
        destruct H1 as (R1 & S1 & Y1 & F1).
      * pose proof (save_cases SaveTransactionResults
                      (all_batch_results s) s2) as H2. cbv zeta in H2.
        destruct (save db_raises SaveTransactionResults
                    (all_batch_results s) s2) as [[[]|e2] s3];
          cbn [fst snd] in H2 |- *;
          destruct H2 as (R2 & S2 & Y2 & F2);
          (split; [exact (same_run_trans _ _ _ R0
                            (same_run_trans _ _ _ R1 R2))|]);
          (split; [now rewrite S2, S1|]);
          (split; [now rewrite Y2, Y1|]).
        -- reflexivity.
        -- intros _ Hd. now elim F2.
      * cbn [fst snd].
        split; [exact (same_run_trans _ _ _ R0 R1)|].
        split; [now rewrite S1|]. split; [now rewrite Y1|].
        intros _ Hd. now elim F1.
    + cbn [fst snd] in H0 |- *. destruct H0 as [R0 [E0 F0]].
      split; [exact R0|]. rewrite E0. split; [reflexivity|].
      split; [reflexivity|]. intros Hc _. now elim (F0 eq_refl).
Qed.

(** *** One batch *)

(** What [process_batch_concurrent] returns for a batch: one element
    per account, in order. *)
Lemma process_batch_concurrent_items (k : nat)
  (batch : list AccountCredentials) :
  Forall2 (item_ok world) batch
    (process_batch_concurrent repr find_class_text select_one_text
       json_loads html_error_text debug_listing world gather_raises k
       batch).
Proof.
  unfold process_batch_concurrent.
  destruct (gather_raises k) as [msg|].
  - induction batch as [|account batch IH]; simpl; constructor;
      [|exact IH].
    split; [reflexivity|]. right. right. reflexivity.
  - revert k. induction batch as [|account batch IH]; intro k; simpl;
      [constructor|].
    unfold run_task at 1.
    destruct (stopped (world k)) as [[msg|class_name msg]|] eqn:Es;
      constructor; try apply IH.
    + split; [reflexivity|]. right. right. reflexivity.
    + now exists k.
    + destruct (ScraperProps.process_account_with_cases repr
                  find_class_text select_one_text json_loads
                  html_error_text debug_listing (acquired (world k))
                  (exchange (world k)) (fetched (world k)) account)
        as [Hn Hs].
      cbv zeta in Hn, Hs. split; [exact Hn|].
      unfold terminal. destruct (acquired (world k)); tauto.
Qed.

Lemma add_results_cons_rec (total : Z) (a : AccountData)
  (rest : list item) (s : run_state) :
  add_results reply_raises total (Rec a :: rest) s
  = match send_account_result reply_raises a (processed_count s + 1) total
            (counted_in a (added a s)) with
    | (Returned _, s') => add_results reply_raises total rest s'
    | (Raised e, s') => (Raised e, s')
    end.
Proof. reflexivity. Qed.

Lemma add_results_cons_obj (total : Z) (class_name msg : string)
  (rest : list item) (s : run_state) :
  add_results reply_raises total (Obj class_name msg :: rest) s
  = (Raised (Exc (no_status class_name)), strayed class_name msg s).
Proof. reflexivity. Qed.

(** The notification loop over the elements of one batch: the records
    it adds are those of a first stretch of the batch, all of it when
    the loop returns; an exception leaves it only when an element is no
    record or the chat fails. *)
Lemma add_results_records (total : Z) (batch : list AccountCredentials)
  (items : list item) :
  Forall2 (item_ok world) batch items ->
  forall s,
  let out := add_results reply_raises total items s in
  exists records j,
    progress total s (snd out) records j
    /\ (List.length records <= List.length batch)%nat
    /\ map username records
       = map cred_username (firstn (List.length records) batch)
    /\ Forall terminal records
    /\ match fst out with
       | Returned _ =>
           j = List.length records
           /\ List.length records = List.length batch
       | Raised _ =>
           (j = List.length records /\ ~ no_task_cancelled world)
           \/ ~ chat_delivers reply_raises
       end.
Proof.
  induction 1 as [|account it batch items Hit Hrest IH]; intro s; cbv zeta.
  - exists [], 0%nat. cbn [add_results ret fst snd List.length firstn map].
    split; [now apply progress_refl|].
    split; [lia|]. split; [reflexivity|]. split; [constructor|].
    now split.
  - destruct it as [a|class_name msg].
    + destruct Hit as [Hu Ht]. rewrite add_results_cons_rec.
      pose proof (send_account_result_cases a (processed_count s + 1) total
                    (counted_in a (added a s))) as Hsend.
      cbv zeta in Hsend.
      destruct (send_account_result reply_raises a (processed_count s + 1)
                  total (counted_in a (added a s))) as [[[]|e] s1].
      * cbn [fst snd] in Hsend.
        destruct Hsend as ((R1 & R2 & R3 & R4 & R5) & markdown & Ev).
        cbn [results processed_count all_batch_results counted_in added
             events] in R1, R3, R4, Ev.
        destruct (IH s1) as (records & j & Hp & Hl & Hn & Hter & Hout).
        exists (a :: records), (S j).
        split.
        { apply (progress_cons total s s1 _ a records j R1 R4 R3);
            [|exact Hp].
          rewrite Ev, sent_app. reflexivity. }
        cbn [List.length firstn map].
        split; [lia|]. split; [now rewrite Hu, Hn|].
        split; [now constructor|].
        destruct (fst (add_results reply_raises total items s1)).
        -- destruct Hout as [-> ->]. now split.
        -- destruct Hout as [[-> Hw]|Hc]; [left|right]; tauto.
      * cbn [fst snd] in Hsend |- *.
        destruct Hsend as ((R1 & R2 & R3 & R4 & R5) & Ev & Hno).
        cbn [results processed_count all_batch_results counted_in added
             events] in R1, R3, R4, Ev.
        exists [a], 0%nat.
        split; [apply (progress_one total s s1 a R1 R4 R3);
                now rewrite Ev|].
        cbn [List.length firstn map].
        split; [lia|]. split; [now rewrite Hu|].
        split; [constructor; [exact Ht|constructor]|].
        now right.
    + rewrite add_results_cons_obj. cbn [fst snd].
      exists [], 0%nat.
      split; [now apply progress_refl|].
      cbn [List.length firstn map].
      split; [lia|]. split; [reflexivity|]. split; [constructor|].
      left. split; [reflexivity|].
      intro Hw. destruct Hit as [k Hk]. now elim (Hw k class_name msg).
Qed.

(** The notification loop announces no batch, takes no pause and
    creates no task; the only object it can leave behind the records is
    an element that is no record, on which it raises at once. *)
Lemma add_results_other (total : Z) (items : list item) :
  forall s,
  let out := add_results reply_raises total items s in
  rhythm (events (snd out)) = rhythm (events s)
  /\ created (snd out) = created s
  /\ match fst out with
     | Returned _ => stray (snd out) = stray s
     | Raised e =>
         stray (snd out) = stray s
         \/ exists class_name msg,
              stray (snd out) = Some (class_name, msg)
              /\ e = Exc (no_status class_name)
              /\ In (Obj class_name msg) items
     end.
Proof.
  induction items as [|it items IH]; intro s; cbv zeta.
  - cbn [add_results ret fst snd]. now repeat split.
  - destruct it as [a|class_name msg].
    + rewrite add_results_cons_rec.
      pose proof (send_account_result_cases a (processed_count s + 1) total
                    (counted_in a (added a s))) as Hsend.
      cbv zeta in Hsend.
      destruct (send_account_result reply_raises a (processed_count s + 1)
                  total (counted_in a (added a s))) as [[[]|e] s1];
        cbn [fst snd] in Hsend.
      * destruct Hsend as ((R1 & R2 & R3 & R4 & R5) & markdown & Ev).
        cbn [stray created counted_in added events] in R2, R5, Ev.
        destruct (IH s1) as (Hr & Hc & Hs).
        rewrite Hr, Hc, Ev, rhythm_app, R5. cbn [rhythm].
        rewrite app_nil_r. split; [reflexivity|]. split; [reflexivity|].
        destruct (fst (add_results reply_raises total items s1)).
        -- now rewrite Hs.
        -- destruct Hs as [Hs|(c & m & H1 & H2 & H3)].
           ++ left. now rewrite Hs.
           ++ right. exists c, m. repeat split; try assumption.
              now right.
      * cbn [fst snd].
        destruct Hsend as ((R1 & R2 & R3 & R4 & R5) & Ev & Hno).
        cbn [stray created counted_in added events] in R2, R5, Ev.
        rewrite Ev. split; [reflexivity|]. split; [exact R5|].
        now left.
    + rewrite add_results_cons_obj. cbn [fst snd].
      split; [reflexivity|]. split; [reflexivity|].
      right. exists class_name, msg. repeat split. now left.
Qed.

(** *** The loop over the batches *)

Lemma pause_between_cases (n num : nat) (s : run_state) :
  let out := pause_between reply_raises n num s in
  same_run s (snd out)
  /\ sent (events (snd out)) = sent (events s)
  /\ match fst out with
     | Returned _ =>
         rhythm (events (snd out))
         = (rhythm (events s) ++ if (num <? n)%nat then [Pause] else [])%list
     | Raised _ =>
         rhythm (events (snd out)) = rhythm (events s)
         /\ ~ chat_delivers reply_raises
     end.
Proof.
  cbv zeta. unfold pause_between.
  destruct (num <? n)%nat.
  - unfold bind, sleep, modify.
    pose proof (reply_text_cases (BatchCompleted num) s) as H.
    cbv zeta in H.
    destruct (reply_text reply_raises (BatchCompleted num) s)
      as [[[]|e] s1]; cbn [fst snd] in H |- *.
    + destruct H as ((R1 & R2 & R3 & R4 & R5) & Ev).
      split; [now unfold same_run|].
      cbn [events emit]. rewrite Ev, !sent_app, !rhythm_app. simpl.
      now rewrite !app_nil_r.
    + destruct H as (R & Ev & Hno). split; [exact R|].
      rewrite Ev. split; [reflexivity|]. split; [reflexivity|].
      exact (Hno eq_refl).
  - cbn [ret fst snd]. split; [apply same_run_refl|].
    now rewrite app_nil_r.
Qed.

Lemma run_batches_cons (total : Z) (n num : nat)
  (batch : list AccountCredentials)
  (rest : list (list AccountCredentials)) (s : run_state) :
  run_batches repr find_class_text select_one_text json_loads
    html_error_text debug_listing world gather_raises reply_raises total n
    num (batch :: rest) s
  = match reply_text reply_raises
            (BatchStarted num n (List.length batch)) s with
    | (Raised e, s1) => (Raised e, s1)
    | (Returned _, s1) =>
        match add_results reply_raises total
                (process_batch_concurrent repr find_class_text
                   select_one_text json_loads html_error_text debug_listing
                   world gather_raises (created s1) batch)
                (spawned (List.length batch) s1) with
        | (Raised e, s2) => (Raised e, s2)
        | (Returned _, s2) =>
            match pause_between reply_raises n num s2 with
            | (Raised e, s3) => (Raised e, s3)
            | (Returned _, s3) =>
                run_batches repr find_class_text select_one_text json_loads
                  html_error_text debug_listing world gather_raises
                  reply_raises total n (S num) rest s3
            end
        end
    end.
Proof. reflexivity. Qed.

(** The records of the loop over the batches: those of a first stretch
    of the accounts, in order, all of them when the loop returns; an
    exception leaves the loop only when a task was cancelled or the chat
    fails. *)
Lemma run_batches_records (total : Z) (n : nat)
  (batches : list (list AccountCredentials)) :
  forall (num : nat) (s : run_state),
  let out := run_batches repr find_class_text select_one_text json_loads
               html_error_text debug_listing world gather_raises
               reply_raises total n num batches s in
  exists records j,
    progress total s (snd out) records j
    /\ (List.length records <= List.length (List.concat batches))%nat
    /\ map username records
       = map cred_username
           (firstn (List.length records) (List.concat batches))
    /\ Forall terminal records
    /\ match fst out with
       | Returned _ =>
           j = List.length records
           /\ List.length records = List.length (List.concat batches)
       | Raised _ =>
           (j = List.length records /\ ~ no_task_cancelled world)
           \/ ~ chat_delivers reply_raises
       end.
Proof.
  induction batches as [|batch rest IH]; intros num s; cbv zeta.
  - exists [], 0%nat. cbn [run_batches ret fst snd List.length firstn map
                           List.concat].
    split; [now apply progress_refl|].
    split; [lia|]. split; [reflexivity|]. split; [constructor|].
    now split.
  - rewrite run_batches_cons. cbn [List.concat].
    pose proof (reply_text_cases (BatchStarted num n (List.length batch)) s)
      as H0. cbv zeta in H0.
    destruct (reply_text reply_raises
                (BatchStarted num n (List.length batch)) s)
      as [[[]|e0] s1]; cbn [fst snd] in H0.
    2:{ destruct H0 as ((R1 & R2 & R3 & R4 & R5) & Ev & Hno).
        cbn [fst snd]. exists [], 0%nat.
        split; [apply progress_refl; try assumption; now rewrite Ev|].
        cbn [List.length firstn map].
        split; [lia|]. split; [reflexivity|]. split; [constructor|].
        right. exact (Hno eq_refl). }
    destruct H0 as ((R1 & R2 & R3 & R4 & R5) & Ev).
    assert (S1 : sent (events s1) = sent (events s)).
    { rewrite Ev, sent_app. simpl. now rewrite app_nil_r. }
    set (items := process_batch_concurrent repr find_class_text
                    select_one_text json_loads html_error_text debug_listing
                    world gather_raises (created s1) batch).
    destruct (add_results_records total batch items
                (process_batch_concurrent_items (created s1) batch)
                (spawned (List.length batch) s1))
      as (r1 & j1 & Hp1 & Hl1 & Hn1 & Ht1 & Hout1).
    cbv zeta in Hp1, Hout1.
    apply (progress_left total s (spawned (List.length batch) s1)) in Hp1;
      try assumption.
    destruct (add_results reply_raises total items
                (spawned (List.length batch) s1)) as [[[]|e1] s2];
      cbn [fst snd] in Hp1, Hout1.
    2:{ cbn [fst snd]. exists r1, j1.
        split; [exact Hp1|]. rewrite length_app.
        split; [lia|].
        split; [now rewrite firstn_app,
                  (proj2 (Nat.sub_0_le _ _) Hl1), firstn_O, app_nil_r|].
        split; assumption. }
    destruct Hout1 as [-> Hlen1].
    pose proof (pause_between_cases n num s2) as H2. cbv zeta in H2.
    destruct (pause_between reply_raises n num s2) as [[[]|e2] s3];
      cbn [fst snd] in H2;
      destruct H2 as ((Q1 & Q2 & Q3 & Q4 & Q5) & S3 & H2);
      apply (progress_right total s s2 s3) in Hp1; try assumption.
    2:{ cbn [fst snd]. exists r1, (List.length r1).
        split; [exact Hp1|]. rewrite length_app.
        split; [lia|].
        split; [now rewrite firstn_app,
                  (proj2 (Nat.sub_0_le _ _) Hl1), firstn_O, app_nil_r|].
        split; [assumption|].
        right. exact (proj2 H2). }
    destruct (IH (S num) s3) as (r2 & j2 & Hp2 & Hl2 & Hn2 & Ht2 & Hout2).
    cbv zeta in Hp2, Hout2.
    exists (r1 ++ r2)%list, (List.length r1 + j2)%nat.
    split; [exact (progress_trans total s s3 _ r1 r2 j2 Hp1 Hp2)|].
    rewrite !length_app.
    split; [lia|].
    split.
    { rewrite Hlen1, firstn_app_2, !map_app, Hn2.
      f_equal. rewrite Hn1, Hlen1. now rewrite firstn_all. }
    split; [apply Forall_app; now split|].
    destruct (fst (run_batches repr find_class_text select_one_text
                     json_loads html_error_text debug_listing world
                     gather_raises reply_raises total n (S num) rest s3)).
    + destruct Hout2 as [-> ->]. split; lia.
    + destruct Hout2 as [[-> Hw]|Hc]; [left|right]; tauto.
Qed.

Lemma stray_item (batch : list AccountCredentials) (items : list item)
  (class_name msg : string) :
  Forall2 (item_ok world) batch items ->
  In (Obj class_name msg) items ->
  exists k, stopped (world k) = Some (BaseExc class_name msg).
Proof.
  induction 1 as [|account it batch items Hit _ IH];
    [intros []|intros [E|I]].
  - subst it. exact Hit.
  - exact (IH I).
Qed.

(** The announcements and pauses of the loop over the batches: a first
    stretch of the expected rhythm, all of it when the loop returns. *)
Lemma run_batches_other (total : Z) (n : nat)
  (batches : list (list AccountCredentials)) :
  forall (num : nat) (s : run_state),
  (num + List.length batches = S n)%nat ->
  let out := run_batches repr find_class_text select_one_text json_loads
               html_error_text debug_listing world gather_raises
               reply_raises total n num batches s in
  (exists k,
      rhythm (events (snd out))
      = (rhythm (events s)
         ++ firstn k (paced num (map (@List.length _) batches)))%list)
  /\ match fst out with
     | Returned _ =>
         rhythm (events (snd out))
         = (rhythm (events s)
            ++ paced num (map (@List.length _) batches))%list
         /\ created (snd out)
            = (created s + List.length (List.concat batches))%nat
         /\ stray (snd out) = stray s
     | Raised e =>
         stray (snd out) = stray s
         \/ exists class_name msg,
              stray (snd out) = Some (class_name, msg)
              /\ e = Exc (no_status class_name)
              /\ exists k, stopped (world k) = Some (BaseExc class_name msg)
     end.
Proof.
  induction batches as [|batch rest IH]; intros num s Hn; cbv zeta.
  - cbn [run_batches ret fst snd map paced List.concat List.length].
    rewrite app_nil_r, Nat.add_0_r.
    split; [exists 0%nat; now rewrite app_nil_r|]. now repeat split.
  - rewrite run_batches_cons. cbn [List.concat map].
    pose proof (reply_text_cases (BatchStarted num n (List.length batch)) s)
      as H0. cbv zeta in H0.
    destruct (reply_text reply_raises
                (BatchStarted num n (List.length batch)) s)
      as [[[]|e0] s1]; cbn [fst snd] in H0.
    2:{ destruct H0 as ((R1 & R2 & R3 & R4 & R5) & Ev & Hno).
        cbn [fst snd]. rewrite Ev.
        split; [exists 0%nat; now rewrite app_nil_r|]. now left. }
    destruct H0 as ((R1 & R2 & R3 & R4 & R5) & Ev).
    assert (Y1 : rhythm (events s1)
                 = (rhythm (events s) ++ [Batch num (List.length batch)])%list).
    { rewrite Ev, rhythm_app. reflexivity. }
    set (items := process_batch_concurrent repr find_class_text
                    select_one_text json_loads html_error_text debug_listing
                    world gather_raises (created s1) batch).
    destruct (add_results_other total items (spawned (List.length batch) s1))
      as (Y2 & C2 & H2).
    cbv zeta in Y2, C2, H2. cbn [events created stray spawned] in Y2, C2, H2.
    destruct (add_results reply_raises total items
                (spawned (List.length batch) s1)) as [[[]|e1] s2];
      cbn [fst snd] in Y2, C2, H2.
    2:{ cbn [fst snd]. rewrite Y2, Y1.
        split; [exists 1%nat; reflexivity|].
        destruct H2 as [H2|(c & m & A & B & I)].
        - left. now rewrite H2.
        - right. exists c, m. repeat split; try assumption.
          exact (stray_item batch items c m
                   (process_batch_concurrent_items (created s1) batch) I). }
    pose proof (pause_between_cases n num s2) as H3. cbv zeta in H3.
    destruct (pause_between reply_raises n num s2) as [[[]|e2] s3];
      cbn [fst snd] in H3;
      destruct H3 as ((Q1 & Q2 & Q3 & Q4 & Q5) & S3 & H3).
    2:{ cbn [fst snd]. destruct H3 as [Y3 _]. rewrite Y3, Y2, Y1.
        split; [exists 1%nat; reflexivity|].
        left. now rewrite Q2, H2. }
    assert (Hnum : (num <? n)%nat
                   = match rest with [] => false | _ => true end).
    { destruct rest; simpl in Hn.
      - apply Nat.ltb_ge. lia.
      - apply Nat.ltb_lt. lia. }
    rewrite Hnum in H3.
    assert (Hn' : (S num + List.length rest = S n)%nat)
      by (simpl in Hn; lia).
    destruct (IH (S num) s3 Hn') as ((k & Yk) & Hout).
    cbv zeta in Yk, Hout.
    split.
    + destruct rest as [|batch' rest'].
      * exists 1%nat. cbn [run_batches ret snd] in Yk |- *.
        rewrite H3, Y2, Y1. now rewrite app_nil_r.
      * exists (S (S k)). rewrite Yk, H3, Y2, Y1, <- !app_assoc.
        reflexivity.
    + destruct (fst (run_batches repr find_class_text select_one_text
                       json_loads html_error_text debug_listing world
                       gather_raises reply_raises total n (S num) rest s3)).
      * destruct Hout as (Y & C & T).
        rewrite Y, C, T, H3, Y2, Y1, Q5, C2, Q2, H2, R5, R2, length_app,
          <- !app_assoc.
        split; [|split; [lia|reflexivity]].
        destruct rest; reflexivity.
      * destruct Hout as [T|T]; [left|right; exact T].
        now rewrite T, Q2, H2.
Qed.

(** *** A whole run *)

(** The batches that [process_accounts_batch] cuts. *)
Lemma batches_cover (accounts : list AccountCredentials) (batch_size : Z) :
  0 < batch_size ->
  let batches :=
    map (fun i => slice accounts i (Z.to_nat batch_size))
      (range (List.length accounts) (Z.to_nat batch_size)) in
  List.concat batches = accounts
  /\ Forall (fun size => (1 <= size)%nat /\ Z.of_nat size <= batch_size)
       (map (@List.length _) batches).
Proof.
  intro Hb. cbv zeta.
  assert (Hn : (0 < Z.to_nat batch_size)%nat) by lia.
  split; [now apply slices_cover|].
  rewrite map_map. apply Forall_forall. intros size Hin.
  apply in_map_iff in Hin as (i & <- & Hi).
  apply (range_in _ _ _ Hn) in Hi.
  pose proof (slice_length accounts i (Z.to_nat batch_size) Hn Hi). lia.
Qed.

Lemma process_accounts_batch_unfold (accounts : list AccountCredentials)
  (results0 : ProcessingResult) (processed_count0 : Z) :
  let total := Z.of_nat (List.length accounts) in
  let batch_size := Z.min (BATCH_SIZE config) total in
  let batches :=
    map (fun i => slice accounts i (Z.to_nat batch_size))
      (range (List.length accounts) (Z.to_nat batch_size)) in
  0 < batch_size ->
  process_accounts_batch config repr find_class_text select_one_text
    json_loads html_error_text debug_listing world gather_raises
    reply_raises db_raises accounts results0 processed_count0
  = match reply_text reply_raises
            (BatchModeEnabled (List.length batches) batch_size)
            (initial results0 processed_count0) with
    | (Raised e, s1) => (Raised e, s1)
    | (Returned _, s1) =>
        match run_batches repr find_class_text select_one_text json_loads
                html_error_text debug_listing world gather_raises
                reply_raises total (List.length batches) 1 batches s1 with
        | (Raised e, s2) => (Raised e, s2)
        | (Returned _, s2) => save_results reply_raises db_raises s2
        end
    end.
Proof.
  cbv zeta. intro Hb. unfold process_accounts_batch.
  destruct (Z.eqb_spec (Z.min (BATCH_SIZE config)
                          (Z.of_nat (List.length accounts))) 0); [lia|].
  destruct (Z.ltb_spec (Z.min (BATCH_SIZE config)
                          (Z.of_nat (List.length accounts))) 0); [lia|].
  reflexivity.
Qed.

(** A run of [process_accounts_batch] under a positive [BATCH_SIZE],
    however it ends: the records added are those of a first stretch of
    the accounts, in order, notified in order but possibly for the last;
    the batches announced and the pauses taken are a first stretch of
    the rhythm of the run.  A run that returns, and any run in which the
    chat delivers and no task is cancelled, has gone through all the
    accounts. *)
Lemma batch_run (accounts : list AccountCredentials)
  (results0 : ProcessingResult) (processed_count0 : Z) :
  0 < BATCH_SIZE config ->
  let out := process_accounts_batch config repr find_class_text
               select_one_text json_loads html_error_text debug_listing
               world gather_raises reply_raises db_raises accounts results0
               processed_count0 in
  let total := Z.of_nat (List.length accounts) in
  exists records j sizes k,
    progress total (initial results0 processed_count0) (snd out) records j
    /\ (List.length records <= List.length accounts)%nat
    /\ map username records
       = map cred_username (firstn (List.length records) accounts)
    /\ Forall terminal records
    /\ Forall (fun size => (1 <= size)%nat
                          /\ Z.of_nat size <= BATCH_SIZE config) sizes
    /\ list_sum sizes = List.length accounts
    /\ rhythm (events (snd out)) = firstn k (paced 1 sizes)
    /\ (stray (snd out) = None
        \/ exists class_name msg,
             stray (snd out) = Some (class_name, msg)
             /\ fst out = Raised (Exc (no_status class_name))
             /\ exists i, stopped (world i) = Some (BaseExc class_name msg))
    /\ (chat_delivers reply_raises -> j = List.length records)
    /\ (fst out = Returned tt
        \/ (chat_delivers reply_raises /\ no_task_cancelled world) ->
        j = List.length records
        /\ List.length records = List.length accounts
        /\ rhythm (events (snd out)) = paced 1 sizes
        /\ stray (snd out) = None
        /\ created (snd out) = List.length accounts)
    /\ (accounts <> [] ->
        chat_delivers reply_raises -> no_task_cancelled world ->
        database_saves db_raises -> fst out = Returned tt).
Proof.
  intros Hb. cbv zeta.
  destruct accounts as [|account0 accounts0] eqn:Eacc.
  { (* no account: [min(BATCH_SIZE, 0)] is zero and [range] raises *)
    unfold process_accounts_batch.
    replace (Z.min (BATCH_SIZE config)
               (Z.of_nat (List.length (@nil AccountCredentials))))
      with 0 by (simpl; lia).
    cbn [Z.eqb fst snd].
    exists [], 0%nat, [], 0%nat.
    split; [now apply progress_refl|].
    cbn [List.length firstn map paced list_sum].
    split; [lia|]. split; [reflexivity|]. split; [constructor|].
    split; [constructor|]. split; [reflexivity|]. split; [reflexivity|].
    split; [now left|]. split; [reflexivity|]. split; [now repeat split|].
    intro H. now elim H. }
  rewrite <- Eacc.
  assert (Hne : accounts <> []) by (rewrite Eacc; discriminate).
  clear Eacc account0 accounts0.
  set (total := Z.of_nat (List.length accounts)).
  set (batch_size := Z.min (BATCH_SIZE config) total).
  assert (Hpos : 0 < batch_size).
  { unfold batch_size, total. destruct accounts; [now elim Hne|].
    simpl List.length. lia. }
  rewrite (process_accounts_batch_unfold accounts results0
             processed_count0 Hpos).
  fold total. fold batch_size.
  set (batches := map (fun i => slice accounts i (Z.to_nat batch_size))
                    (range (List.length accounts) (Z.to_nat batch_size))).
  destruct (batches_cover accounts batch_size Hpos) as [Hcat Hsizes].
  fold batches in Hcat, Hsizes.
  set (sizes := map (@List.length _) batches) in *.
  assert (Hsum : list_sum sizes = List.length accounts).
  { unfold sizes. now rewrite <- length_concat, Hcat. }
  assert (Hbound : Forall (fun size => (1 <= size)%nat
                                       /\ Z.of_nat size <= BATCH_SIZE config)
                     sizes).
  { eapply Forall_impl; [|exact Hsizes]. cbv beta. unfold batch_size. lia. }
  set (s0 := initial results0 processed_count0).
  pose proof (reply_text_cases
                (BatchModeEnabled (List.length batches) batch_size) s0)
    as H0. cbv zeta in H0.
  destruct (reply_text reply_raises
              (BatchModeEnabled (List.length batches) batch_size) s0)
    as [[[]|e0] s1]; cbn [fst snd] in H0.
  2:{ destruct H0 as ((R1 & R2 & R3 & R4 & R5) & Ev & Hno).
      cbn [fst snd]. exists [], 0%nat, sizes, 0%nat.
      split; [apply progress_refl; try assumption; now rewrite Ev|].
      cbn [List.length firstn map].
      split; [lia|]. split; [reflexivity|]. split; [constructor|].
      split; [exact Hbound|]. split; [exact Hsum|].
      split; [now rewrite Ev|].
      split; [left; now rewrite R2|].
      split; [reflexivity|].
      split; [|intros _ Hc _ _; now elim (Hno eq_refl)].
      intros [H|[Hc _]]; [discriminate H|now elim (Hno eq_refl)]. }
  destruct H0 as ((R1 & R2 & R3 & R4 & R5) & Ev).
  assert (S1 : sent (events s1) = sent (events s0))
    by now rewrite Ev.
  assert (Y1 : rhythm (events s1) = []) by now rewrite Ev.
  destruct (run_batches_records total (List.length batches) batches 1%nat s1)
    as (records & j & Hp & Hl & Hn & Ht & Hout).
  destruct (run_batches_other total (List.length batches) batches 1%nat s1
              eq_refl) as ((k & Yk) & Hother).
  cbv zeta in Hp, Hout, Yk, Hother.
  rewrite Hcat in Hl, Hn, Hout, Hother. rewrite Y1 in Yk, Hother.
  cbn [app] in Yk, Hother. fold sizes in Yk, Hother.
  apply (progress_left total s0 s1) in Hp; try assumption.
  destruct (run_batches repr find_class_text select_one_text json_loads
              html_error_text debug_listing world gather_raises reply_raises
              total (List.length batches) 1 batches s1) as [[[]|e1] s2];
    cbn [fst snd] in Hp, Hout, Yk, Hother.
  2:{ cbn [fst snd]. exists records, j, sizes, k.
      split; [exact Hp|]. split; [exact Hl|]. split; [exact Hn|].
      split; [exact Ht|]. split; [exact Hbound|]. split; [exact Hsum|].
      split; [exact Yk|].
      split.
      { destruct Hother as [T|(c & m & T1 & T2 & T3)].
        - left. now rewrite T, R2.
        - right. exists c, m. subst e1. now repeat split. }
      split; [intro Hc; destruct Hout as [[E _]|E]; [exact E|now elim E]|].
      split; [|intros _ Hc Hw _; destruct Hout as [[_ E]|E]; now elim E].
      intros [H|[Hc Hw]]; [discriminate H|].
      destruct Hout as [[_ E]|E]; now elim E. }
  destruct Hout as [Hj Hlen]. destruct Hother as (Y & C & T).
  destruct (save_results_cases s2) as ((Q1 & Q2 & Q3 & Q4 & Q5) & S3 & Y3 & F).
  cbv zeta in Q1, Q2, Q3, Q4, Q5, S3, Y3, F.
  apply (progress_right total s0 s2
           (snd (save_results reply_raises db_raises s2))) in Hp;
    try assumption.
  exists records, j, sizes, (List.length (paced 1 sizes)).
  split; [exact Hp|]. split; [exact Hl|]. split; [exact Hn|].
  split; [exact Ht|]. split; [exact Hbound|]. split; [exact Hsum|].
  rewrite firstn_all, Y3, Y.
  split; [reflexivity|].
  split; [left; now rewrite Q2, T, R2|].
  split; [intros _; exact Hj|].
  split.
  - intros _. split; [exact Hj|]. split; [exact Hlen|].
    split; [reflexivity|]. split; [now rewrite Q2, T, R2|].
    rewrite Q5, C, R5. reflexivity.
  - intros _ Hc _ Hd. exact (F Hc Hd).
Qed.

(** A run under a [BATCH_SIZE] that is not positive: no account is looked
    at. *)
Lemma batch_run_idle (accounts : list AccountCredentials)
  (results0 : ProcessingResult) (processed_count0 : Z) :
  BATCH_SIZE config <= 0 ->
  let out := process_accounts_batch config repr find_class_text
               select_one_text json_loads html_error_text debug_listing
               world gather_raises reply_raises db_raises accounts results0
               processed_count0 in
  results (snd out) = results0
  /\ all_batch_results (snd out) = []
  /\ processed_count (snd out) = processed_count0
  /\ stray (snd out) = None
  /\ sent (events (snd out)) = [].
Proof.
  intro Hb. cbv zeta. unfold process_accounts_batch.
  set (batch_size := Z.min (BATCH_SIZE config)
                       (Z.of_nat (List.length accounts))).
  destruct (Z.eqb_spec batch_size 0); [now repeat split|].
  destruct (Z.ltb_spec batch_size 0); [|unfold batch_size in *; lia].
  cbn [List.length].
  change ((reply_text reply_raises (BatchModeEnabled 0 batch_size) ;;;
           run_batches repr find_class_text select_one_text json_loads
             html_error_text debug_listing world gather_raises reply_raises
             (Z.of_nat (List.length accounts)) 0 1 [] ;;;
           save_results reply_raises db_raises)
            (initial results0 processed_count0))
    with (match reply_text reply_raises (BatchModeEnabled 0 batch_size)
                  (initial results0 processed_count0) with
          | (Returned _, s1) => save_results reply_raises db_raises s1
          | (Raised e, s1) => (Raised e, s1)
          end).
  pose proof (reply_text_cases (BatchModeEnabled 0 batch_size)
                (initial results0 processed_count0)) as H0.
  cbv zeta in H0.
  destruct (reply_text reply_raises (BatchModeEnabled 0 batch_size)
              (initial results0 processed_count0)) as [[[]|e0] s1];
    cbn [fst snd] in H0 |- *.
  - destruct H0 as ((R1 & R2 & R3 & R4 & R5) & Ev).
    destruct (save_results_cases s1) as ((Q1 & Q2 & Q3 & Q4 & Q5) & S3 & _).
    cbv zeta in Q1, Q2, Q3, Q4, S3.
    rewrite Q1, Q2, Q3, Q4, S3, R1, R2, R3, R4, Ev. now repeat split.
  - destruct H0 as ((R1 & R2 & R3 & R4 & R5) & Ev & _).
    rewrite R1, R2, R3, R4, Ev. now repeat split.
Qed.

End Run.

End BotFacts.

(** ** The sequential fallback *)

Module SequentialFacts.

Import Models Bot BotView BotFacts Sequential.
Local Open Scope bot_scope.

Section Run.

Variable repr : Py.value -> string.
Variable find_class_text : string -> string -> option string.
Variable select_one_text : string -> string -> option string.
Variable json_loads : string -> option Py.value.
Variable html_error_text : string -> option string.
Variable debug_listing : string -> option string.
Variable world : nat -> task_world.
Variable reply_raises : nat -> message -> option string.
Variable db_raises : db_call -> option string.

Lemma run_task_value (k : nat) (account : AccountCredentials)
  (r : AccountData) :
  run_task repr find_class_text select_one_text json_loads html_error_text
    debug_listing world k account = Value r ->
  username r = cred_username account /\ terminal r.
Proof.
  unfold run_task. destruct (stopped (world k)); [discriminate|].
  intro E. injection E as <-.
  destruct (ScraperProps.process_account_with_cases repr find_class_text
              select_one_text json_loads html_error_text debug_listing
              (acquired (world k)) (exchange (world k)) (fetched (world k))
              account) as [Hn Hs].
  cbv zeta in Hn, Hs. split; [exact Hn|].
  unfold terminal. destruct (acquired (world k)); tauto.
Qed.

(** [record_and_send] as one call of [send_account_result]. *)
Lemma record_and_send_unfold (total : Z) (r : AccountData) (s : run_state) :
  record_and_send reply_raises total r s
  = send_account_result reply_raises r (processed_count s + 1) total
      (counted_in r (added r s)).
Proof. reflexivity. Qed.

(** The record is added and counted; when the chat delivers, it is
    notified and the call returns. *)
Lemma record_and_send_calm (total : Z) (r : AccountData) (s : run_state) :
  chat_delivers reply_raises ->
  exists s',
    record_and_send reply_raises total r s = (Returned tt, s')
    /\ progress total s s' [r] 1
    /\ created s' = created s /\ stray s' = stray s.
Proof.
  intro Hc. rewrite record_and_send_unfold.
  pose proof (send_account_result_cases reply_raises r
                (processed_count s + 1) total (counted_in r (added r s)))
    as H. cbv zeta in H.
  destruct (send_account_result reply_raises r (processed_count s + 1) total
              (counted_in r (added r s))) as [[[]|e] s1];
    cbn [fst snd] in H.
  - destruct H as ((R1 & R2 & R3 & R4 & R5) & markdown & Ev).
    cbn [results processed_count all_batch_results counted_in added events
         stray created] in R1, R2, R3, R4, R5, Ev.
    exists s1. split; [reflexivity|]. split; [|now split].
    apply (progress_cons total s s1 s1 r [] 0 R1 R4 R3).
    + rewrite Ev, sent_app. reflexivity.
    + now apply progress_refl.
  - destruct H as (_ & _ & Hno). now elim Hno.
Qed.

Lemma step_unfold (total : Z) (account : AccountCredentials)
  (s : run_state) :
  step repr find_class_text select_one_text json_loads html_error_text
    debug_listing world reply_raises total account s
  = let failed msg :=
      record_and_send reply_raises total
        (AccountData_init (cred_username account) "Error"
           (failure_text msg)) in
    match run_task repr find_class_text select_one_text json_loads
            html_error_text debug_listing world (created s) account with
    | Value result =>
        match record_and_send reply_raises total result (spawned 1 s) with
        | (Returned _, s1) => (Returned tt, emit Slept s1)
        | (Raised (Exc msg), s1) => failed msg s1
        | (Raised e, s1) => (Raised e, s1)
        end
    | Thrown (Exc msg) => failed msg (spawned 1 s)
    | Thrown e => (Raised e, spawned 1 s)
    end.
Proof.
  cbv zeta. unfold step, catch, bind, await_process_account.
  destruct (run_task _ _ _ _ _ _ _ (created s) account) as [r|[msg|c m]];
    [|reflexivity..].
  destruct (record_and_send reply_raises total r (spawned 1 s))
    as [[[]|[msg|c m]] s1]; reflexivity.
Qed.

(** One turn of the loop when the chat delivers and the call of
    [process_account] is not cancelled. *)
Lemma step_calm (total : Z) (account : AccountCredentials) (s : run_state) :
  chat_delivers reply_raises -> no_task_cancelled world ->
  exists r s',
    step repr find_class_text select_one_text json_loads html_error_text
      debug_listing world reply_raises total account s = (Returned tt, s')
    /\ progress total s s' [r] 1
    /\ username r = cred_username account
    /\ terminal r
    /\ created s' = S (created s)
    /\ stray s' = stray s.
Proof.
  intros Hc Hw. rewrite step_unfold. cbv zeta.
  destruct (run_task _ _ _ _ _ _ _ (created s) account)
    as [r|[msg|c m]] eqn:Et.
  - destruct (run_task_value _ _ _ Et) as [Hu Ht].
    destruct (record_and_send_calm total r (spawned 1 s) Hc)
      as (s1 & E & Hp & C & T).
    rewrite E. exists r, (emit Slept s1).
    split; [reflexivity|].
    split; [|split; [exact Hu|split; [exact Ht|]]].
    + apply (progress_right total s s1 (emit Slept s1));
        try reflexivity.
      * cbn [events emit]. rewrite sent_app. simpl. now rewrite app_nil_r.
      * exact (progress_left total s (spawned 1 s) s1 [r] 1
                 eq_refl eq_refl eq_refl eq_refl Hp).
    + cbn [created stray emit]. rewrite C, T.
      cbn [created stray spawned]. split; [lia|reflexivity].
  - destruct (record_and_send_calm total
                (AccountData_init (cred_username account) "Error"
                   (failure_text msg)) (spawned 1 s) Hc)
      as (s1 & E & Hp & C & T).
    rewrite E. eexists. exists s1.
    split; [reflexivity|].
    split; [exact (progress_left total s (spawned 1 s) s1 _ 1
                     eq_refl eq_refl eq_refl eq_refl Hp)|].
    split; [reflexivity|]. split; [right; right; reflexivity|].
    rewrite C, T. cbn [created stray spawned]. split; [lia|reflexivity].
  - unfold run_task in Et.
    destruct (stopped (world (created s))) as [e|] eqn:Es;
      [|discriminate].
    injection Et as ->. now elim (Hw (created s) c m).
Qed.

Lemma loop_calm (total : Z) (accounts : list AccountCredentials) :
  chat_delivers reply_raises -> no_task_cancelled world ->
  forall s,
  exists records s',
    loop repr find_class_text select_one_text json_loads html_error_text
      debug_listing world reply_raises total accounts s = (Returned tt, s')
    /\ progress total s s' records (List.length records)
    /\ map username records = map cred_username accounts
    /\ Forall terminal records
    /\ created s' = (created s + List.length accounts)%nat
    /\ stray s' = stray s.
Proof.
  intros Hc Hw.
  induction accounts as [|account rest IH]; intro s.
  - exists [], s. cbn [loop ret List.length map].
    split; [reflexivity|]. split; [now apply progress_refl|].
    split; [reflexivity|]. split; [constructor|]. split; [lia|reflexivity].
  - destruct (step_calm total account s Hc Hw)
      as (r & s1 & Es & Hp & Hu & Ht & C & T).
    destruct (IH s1) as (records & s' & El & Hp' & Hu' & Ht' & C' & T').
    exists (r :: records), s'.
    split.
    { cbn [loop]. unfold bind. now rewrite Es. }
    split; [exact (progress_trans total s s1 s' [r] records _ Hp Hp')|].
    cbn [map List.length].
    split; [now rewrite Hu, Hu'|]. split; [now constructor|].
    rewrite C', C, T', T. split; [lia|reflexivity].
Qed.

(** A sequential run in which the chat delivers and no call of
    [process_account] is cancelled. *)
Lemma sequential_run (accounts : list AccountCredentials)
  (results0 : ProcessingResult) (processed_count0 : Z) :
  chat_delivers reply_raises -> no_task_cancelled world ->
  let out := process_accounts_sequential repr find_class_text
               select_one_text json_loads html_error_text debug_listing
               world reply_raises db_raises accounts results0
               processed_count0 in
  exists records,
    progress (Z.of_nat (List.length accounts))
      (initial results0 processed_count0) (snd out) records
      (List.length records)
    /\ map username records = map cred_username accounts
    /\ Forall terminal records
    /\ created (snd out) = List.length accounts
    /\ stray (snd out) = None
    /\ (database_saves db_raises -> fst out = Returned tt).
Proof.
  intros Hc Hw. cbv zeta. unfold process_accounts_sequential, bind.
  destruct (loop_calm (Z.of_nat (List.length accounts)) accounts Hc Hw
              (initial results0 processed_count0))
    as (records & s & El & Hp & Hu & Ht & C & T).
  rewrite El.
  destruct (save_results_cases reply_raises db_raises s)
    as ((Q1 & Q2 & Q3 & Q4 & Q5) & S3 & _ & F).
  cbv zeta in Q1, Q2, Q3, Q4, Q5, S3, F.
  exists records.
  split; [exact (progress_right _ _ s _ records _ Q1 Q4 Q3 S3 Hp)|].
  split; [exact Hu|]. split; [exact Ht|].
  rewrite Q5, Q2, C, T. split; [reflexivity|]. split; [reflexivity|].
  exact (F Hc).
Qed.

End Run.

End SequentialFacts.

(** ** One record per account *)

Module BotProps.

Import Models Bot BotView BotFacts.

Section Run.

Variable config : BotConfig.
Variable repr : Py.value -> string.
Variable find_class_text : string -> string -> option string.
Variable select_one_text : string -> string -> option string.
Variable json_loads : string -> option Py.value.
Variable html_error_text : string -> option string.
Variable debug_listing : string -> option string.
Variable world : nat -> task_world.
Variable gather_raises : nat -> option string.
Variable reply_raises : nat -> message -> option string.
Variable db_raises : db_call -> option string.


End Run.

Import Scenario.

(** Five accounts with [BATCH_SIZE = 2]: three batches with a pause
    after the first and after the second, five notifications and the two
    saves. *)
Example five_accounts_in_batches_of_two :
  let config := {| BATCH_SIZE := 2; MAX_CONCURRENT_WORKERS := 2;
                   ENABLE_BATCH_PROCESSING := true |} in
  let accounts := map (fun u => {| cred_username := u; cred_password := p0 |})
                    ["03000001"; "03000002"; "03000003"; "03000004";
                     "03000005"] in
  let out := process_accounts_batch config repr0 no_element no_element
               no_json no_error_element listing_ok rejected_world
               (fun _ => None) chat_ok db_ok accounts
               (ProcessingResult_new 5) 0 in
  fst out = Returned tt
  /\ rhythm (events (snd out))
     = [Batch 1 2; Pause; Batch 2 2; Pause; Batch 3 1]
  /\ map (fun n => snd (fst n)) (sent (events (snd out))) = [1; 2; 3; 4; 5]
  /\ replies (snd out) = 12%nat.
Proof. vm_compute. repeat split. Qed.



End BotProps.

(** ** More on the session manager *)

Module SessionLaws.

Import Session SessionFacts SessionProps SessionState.
Local Open Scope session_scope.

Section World.

Variable clock : nat -> Z.
Variable portal : nat -> string -> string -> Login.exchange.

(** X1. [get_or_create_session] answers [is_new_session = False] only
    when the registry held, before the call, a session of that user that
    is marked valid, was stored with the same password and, at a clock
    reading taken during the call, was no older than [max_age]; the
    returned client is that session's client and no login is made. *)
Theorem reuse_needs_live_session (m m' : SessionManager) (u p : string)
  (c : nat) :
  dict_wf (_sessions m) ->
  get_or_create_session clock portal u p m = (Returned (c, false), m') ->
  exists s k,
    lookup u (_sessions m) = Some s
    /\ client s = c /\ is_valid s = true /\ password s = p
    /\ (ticks m < k < ticks m')%nat
    /\ clock k - login_time s <= timedelta_minutes (_max_age_minutes m)
    /\ logins m' = logins m /\ clients m' = clients m.
Proof.
  intros Hwf.
  destruct (cleanup_run clock m) as (l & n & Ec & Hn & _ & _).
  rewrite get_or_create_session_unfold. unfold bind. rewrite Ec.
  rewrite after_cleanup_run. simpl.
  destruct (lookup u (remove_list l (_sessions m))) as [s|] eqn:El.
  - destruct (reusable _ _ s p _) eqn:Er.
    + intro E. injection E as <- <-. simpl.
      exists s, (ticks m + n)%nat.
      unfold reusable in Er. simpl in Er.
      apply andb_prop in Er as [Er Ep]. apply andb_prop in Er as [Ea Ev].
      apply String.eqb_eq in Ep. apply negb_true_iff in Ea.
      apply Z.ltb_ge in Ea.
      split; [eapply lookup_remove_list_some; eassumption|].
      repeat split; try assumption; lia.
    + rewrite create_new_run. simpl.
      destruct (fst (next_login portal u p _)); discriminate.
  - rewrite create_new_run. simpl.
    destruct (fst (next_login portal u p _)); discriminate.
Qed.

(** X2. On a manager whose two durations are within the range of
    [timedelta], a sweep of [_cleanup_sessions] returns without raising,
    makes no login and creates no client; every session it leaves in the
    registry was there before, unchanged, and is marked valid; every
    session it deletes was marked invalid or was older than [max_age] or
    idle for longer than [max_idle] at a clock reading of the sweep. *)
Theorem cleanup_only_deletes_stale_sessions (m : SessionManager) :
  dict_wf (_sessions m) ->
  durations_exist m ->
  exists m',
    _cleanup_sessions clock m = (Returned tt, m')
    /\ logins m' = logins m /\ clients m' = clients m
    /\ (forall u s, lookup u (_sessions m') = Some s ->
          lookup u (_sessions m) = Some s /\ is_valid s = true)
    /\ (forall u s, lookup u (_sessions m) = Some s ->
          lookup u (_sessions m') = None ->
          is_valid s = false
          \/ exists k, (ticks m <= k < ticks m')%nat
                       /\ ~ in_time clock m s k).
Proof.
  intros Hwf _.
  destruct (cleanup_run clock m) as (l & n & Ec & Hn & Hin & Hout).
  eexists. split; [exact Ec|]. simpl.
  split; [reflexivity|]. split; [reflexivity|]. split.
  - intros u s Hl.
    pose proof (lookup_remove_list_some u l _ s Hwf Hl) as Hl0.
    split; [exact Hl0|].
    destruct (is_valid s) eqn:Ev; [reflexivity|].
    rewrite (lookup_remove_list_same u l _ Hwf
               (Hin u s (lookup_in u _ s Hl0) Ev)) in Hl.
    discriminate.
  - intros u s Hl Hgone.
    destruct (in_dec string_dec u l) as [I|N].
    + destruct (Hout u I) as (t & It & Ht).
      apply (in_lookup u _ t Hwf) in It. rewrite Hl in It.
      injection It as <-. exact Ht.
    + rewrite (lookup_remove_list_other u l _ N) in Hgone. congruence.
Qed.

(** X3. [get_or_create_session] for one user does not disturb the
    sessions of the others: a session of another user that is valid and
    in time at the clock readings of the sweep is still registered,
    unchanged, after the call, whatever the call did for its own user. *)
Theorem acquire_spares_other_users (m : SessionManager) (u p v : string)
  (s : SessionInfo) :
  dict_wf (_sessions m) ->
  v <> u ->
  lookup v (_sessions m) = Some s ->
  is_valid s = true ->
  (forall k, (ticks m <= k <= ticks m + 2 * List.length (_sessions m))%nat ->
             in_time clock m s k) ->
  lookup v (_sessions (snd (get_or_create_session clock portal u p m)))
  = Some s.
Proof.
  intros Hwf Hne Hl Hv Htime.
  destruct (cleanup_run clock m) as (l & n & Ec & Hn & _ & Hout).
  assert (Hkeep : lookup v (remove_list l (_sessions m)) = Some s).
  { apply (cleanup_spares clock m v s l n); try assumption.
    intros k Hk. apply Htime. lia. }
  rewrite get_or_create_session_unfold. unfold bind. rewrite Ec.
  rewrite after_cleanup_run. simpl.
  destruct (lookup u (remove_list l (_sessions m))) as [t|] eqn:El.
  - destruct (reusable _ _ t p _).
    + simpl. now rewrite lookup_store_other.
    + rewrite create_new_run. simpl.
      destruct (fst (next_login portal u p _)); simpl.
      * now rewrite lookup_store_other, lookup_remove_other.
      * now rewrite lookup_remove_other.
  - rewrite create_new_run. simpl.
    destruct (fst (next_login portal u p _)); simpl.
    + now rewrite lookup_store_other.
    + exact Hkeep.
Qed.

Lemma stale_late (s : SessionInfo) (m : SessionManager) :
  (forall k, (ticks m <= k)%nat ->
     timedelta_minutes (_max_age_minutes m) < clock k - login_time s)
  \/ (forall k, (ticks m <= k)%nat ->
        timedelta_minutes (_max_idle_minutes m) < clock k - last_used s) ->
  fst (stale clock s m) = Returned true.
Proof.
  intro H.
  unfold stale, bind, max_age, max_idle, is_expired, is_idle, datetime_now,
    ret. simpl.
  destruct (Z.ltb_spec (timedelta_minutes (_max_age_minutes m))
              (clock (ticks m) - login_time s)) as [He|He];
    [reflexivity|]. simpl.
  destruct (Z.ltb_spec (timedelta_minutes (_max_idle_minutes m))
              (clock (S (ticks m)) - last_used s)) as [Hi|Hi];
    [reflexivity|]. exfalso.
  destruct H as [H|H].
  - specialize (H (ticks m) (le_n _)). lia.
  - specialize (H (S (ticks m)) (le_S _ _ (le_n _))). lia.
Qed.

Lemma collect_stale_late (items : registry) (m : SessionManager)
  (u : string) (s : SessionInfo) (l : list string) (m' : SessionManager) :
  In (u, s) items ->
  (forall k, (ticks m <= k)%nat ->
     timedelta_minutes (_max_age_minutes m) < clock k - login_time s)
  \/ (forall k, (ticks m <= k)%nat ->
        timedelta_minutes (_max_idle_minutes m) < clock k - last_used s) ->
  collect_stale clock items m = (Returned l, m') ->
  In u l.
Proof.
  revert m l m'. induction items as [|[v t] rest IH]; intros m l m' I H E;
    [destruct I|].
  destruct (stale_run clock t m) as (b & n1 & E1 & Hn1 & _ & _).
  destruct (collect_stale_run clock rest (with_ticks (ticks m + n1) m))
    as (l2 & n2 & E2 & _).
  simpl in E. unfold bind at 1 in E. rewrite E1 in E.
  unfold bind at 1 in E. rewrite E2 in E. unfold ret in E.
  injection E as <- _.
  destruct I as [I|I].
  - injection I as -> ->.
    pose proof (stale_late s m H) as Hs. rewrite E1 in Hs. simpl in Hs.
    injection Hs as ->. now left.
  - assert (Hin : In u l2).
    { eapply (IH (with_ticks (ticks m + n1) m) l2 _ I); [|exact E2].
      simpl. destruct H as [H|H]; [left|right]; intros k Hk; apply H; lia. }
    destruct b; [now right|assumption].
Qed.

Lemma cleanup_removes_late (m : SessionManager) (u : string)
  (s : SessionInfo) :
  dict_wf (_sessions m) ->
  lookup u (_sessions m) = Some s ->
  (forall k, (ticks m <= k)%nat ->
     timedelta_minutes (_max_age_minutes m) < clock k - login_time s)
  \/ (forall k, (ticks m <= k)%nat ->
        timedelta_minutes (_max_idle_minutes m) < clock k - last_used s) ->
  lookup u (_sessions (snd (_cleanup_sessions clock m))) = None.
Proof.
  intros Hwf Hl H.
  destruct (collect_stale_run clock (_sessions m) (with_ticks (S (ticks m)) m))
    as (l & n & E & _).
  assert (I : In u l).
  { eapply (collect_stale_late (_sessions m) (with_ticks (S (ticks m)) m)
              u s l _ (lookup_in u _ s Hl)); [|exact E].
    simpl. destruct H as [H|H]; [left|right]; intros k Hk; apply H; lia. }
  unfold _cleanup_sessions, bind at 1, datetime_now.
  unfold bind at 1, get_sessions. simpl.
  unfold bind. simpl in E. rewrite E. rewrite remove_all_run. simpl.
  now apply lookup_remove_list_same.
Qed.

(** X4. A session that, from the start of the call on, is older than
    [max_age] at every clock reading, or has been idle for longer than
    [max_idle] at every clock reading, is never handed out again:
    [get_or_create_session] logs in with a newly created client, and the
    entry the registry holds for the user afterwards, if any, belongs to
    that new client. *)
Theorem stale_session_is_never_reused (m : SessionManager) (u p : string)
  (s : SessionInfo) :
  dict_wf (_sessions m) ->
  lookup u (_sessions m) = Some s ->
  (forall k, (ticks m <= k)%nat ->
     timedelta_minutes (_max_age_minutes m) < clock k - login_time s)
  \/ (forall k, (ticks m <= k)%nat ->
        timedelta_minutes (_max_idle_minutes m) < clock k - last_used s) ->
  exists r m',
    get_or_create_session clock portal u p m = (r, m')
    /\ logins m' = next_event portal u p m :: logins m
    /\ clients m' = S (clients m)
    /\ (fst (next_login portal u p m) = true ->
        r = Returned (clients m, true))
    /\ (forall c b, r = Returned (c, b) -> c = clients m /\ b = true)
    /\ (forall s', lookup u (_sessions m') = Some s' ->
                   client s' = clients m).
Proof.
  intros Hwf Hl H.
  pose proof (cleanup_removes_late m u s Hwf Hl H) as Hgone.
  destruct (cleanup_run clock m) as (l & n & Ec & _).
  rewrite Ec in Hgone. simpl in Hgone.
  rewrite get_or_create_session_unfold. unfold bind. rewrite Ec.
  rewrite after_cleanup_run. simpl. rewrite Hgone.
  rewrite create_new_run. simpl.
  change (next_login portal u p _) with (next_login portal u p m).
  change (next_event portal u p _) with (next_event portal u p m).
  destruct (fst (next_login portal u p m)) eqn:Es.
  - do 2 eexists. split; [reflexivity|]. simpl.
    split; [reflexivity|]. split; [reflexivity|].
    split; [reflexivity|]. split.
    + intros c b E. injection E as <- <-. now split.
    + intros s'. rewrite lookup_store_same. intro E. now injection E as <-.
  - do 2 eexists. split; [reflexivity|]. simpl.
    split; [reflexivity|]. split; [reflexivity|].
    split; [discriminate|]. split; [discriminate|].
    intros s'. rewrite Hgone. discriminate.
Qed.

(** X5. [remove_session] deletes the user's entry and nothing else, and
    [clear_all_sessions] empties the registry; neither raises, reads
    the clock or logs in.  After either, the next
    [get_or_create_session] for the user logs in with a newly created
    client. *)
Theorem removed_session_is_replaced_by_a_login (m : SessionManager)
  (u p : string) :
  dict_wf (_sessions m) ->
  (exists m0,
     remove_session u m = (Returned tt, m0)
     /\ lookup u (_sessions m0) = None
     /\ (forall v, v <> u ->
                   lookup v (_sessions m0) = lookup v (_sessions m))
     /\ logins m0 = logins m /\ clients m0 = clients m
     /\ ticks m0 = ticks m
     /\ exists r m1,
          get_or_create_session clock portal u p m0 = (r, m1)
          /\ logins m1 = next_event portal u p m :: logins m
          /\ clients m1 = S (clients m))
  /\ (exists m0,
        clear_all_sessions m = (Returned tt, m0)
        /\ _sessions m0 = []
        /\ logins m0 = logins m /\ clients m0 = clients m
        /\ ticks m0 = ticks m
        /\ exists r m1,
             get_or_create_session clock portal u p m0 = (r, m1)
             /\ logins m1 = next_event portal u p m :: logins m
             /\ clients m1 = S (clients m)).
Proof.
  intros Hwf.
  assert (Hfresh : forall m0,
    dict_wf (_sessions m0) -> lookup u (_sessions m0) = None ->
    logins m0 = logins m -> clients m0 = clients m ->
    exists r m1,
      get_or_create_session clock portal u p m0 = (r, m1)
      /\ logins m1 = next_event portal u p m :: logins m
      /\ clients m1 = S (clients m)).
  { intros m0 Hwf0 Hnone Hlog Hcl.
    destruct (acquire_cases clock portal m0 u p Hwf0)
      as (r & m1 & Ea & _ & _ & [(s & k & Hs & _)|(Hlog1 & Hcl1 & _)]);
      [congruence|].
    exists r, m1. split; [exact Ea|].
    rewrite Hlog1, Hcl1, Hlog, Hcl. unfold next_event, next_login.
    now rewrite Hcl. }
  split.
  - unfold remove_session, bind, get_sessions, put_sessions, ret.
    destruct (lookup u (_sessions m)) as [s|] eqn:El.
    + eexists. split; [reflexivity|]. simpl.
      split; [now apply lookup_remove_same|].
      split; [intros v Hv; now apply lookup_remove_other|].
      repeat (split; [reflexivity|]).
      apply Hfresh; simpl; trivial.
      * now apply remove_wf.
      * now apply lookup_remove_same.
    + exists m. split; [reflexivity|]. split; [exact El|].
      repeat (split; [reflexivity|]). now apply Hfresh.
  - eexists. split; [reflexivity|]. simpl.
    repeat (split; [reflexivity|]).
    apply Hfresh; simpl; trivial. constructor.
Qed.

Lemma private_step (m m' : SessionManager) (u : string) :
  clients_private m ->
  (clients m <= clients m')%nat ->
  (forall v s, v <> u -> lookup v (_sessions m') = Some s ->
               lookup v (_sessions m) = Some s) ->
  (forall s', lookup u (_sessions m') = Some s' ->
     (exists s, lookup u (_sessions m) = Some s
                /\ client s' = client s /\ username s' = username s)
     \/ (client s' = clients m /\ username s' = u
         /\ clients m' = S (clients m))) ->
  clients_private m'.
Proof.
  intros [Hb Hd] Hle Hold Hu.
  assert (Hall : forall v s', lookup v (_sessions m') = Some s' ->
    (exists s, lookup v (_sessions m) = Some s
               /\ client s' = client s /\ username s' = username s)
    \/ (v = u /\ client s' = clients m /\ username s' = u
        /\ clients m' = S (clients m))).
  { intros v s' H. destruct (string_dec v u) as [->|Hne].
    - destruct (Hu s' H) as [H1|H1]; [now left|right; tauto].
    - left. exists s'. split; [now apply Hold|tauto]. }
  split.
  - intros v s' H.
    destruct (Hall v s' H) as [(s & Hs & Hc & Hn)|(-> & Hc & Hn & Hcl)].
    + destruct (Hb v s Hs) as [H1 H2]. split; [lia|congruence].
    + split; [lia|assumption].
  - intros v w s' t' Hv Hw Hc.
    destruct (Hall v s' Hv) as [(s & Hs & Hcs & _)|(-> & Hcs & _ & _)];
      destruct (Hall w t' Hw) as [(t & Ht & Hct & _)|(-> & Hct & _ & _)].
    + apply (Hd v w s t Hs Ht). congruence.
    + destruct (Hb v s Hs). lia.
    + destruct (Hb w t Ht). lia.
    + reflexivity.
Qed.

(** X6. In every state the manager can reach, no [APIClient] object is
    registered for two different users, every registered client is one
    the manager created, a session is filed under its own user name, and
    each client the manager created made exactly one login attempt, in
    the order of creation. *)
Theorem registered_clients_are_private (m : SessionManager) :
  reachable clock portal m ->
  clients_private m /\ one_login_per_client m.
Proof.
  induction 1 as [a b|m u p Hr [Hp Ho]|m u Hr [Hp Ho]|m u Hr [Hp Ho]
                 |m Hr [Hp Ho]|m Hr [Hp Ho]].
  - split; [|reflexivity]. split; intros; discriminate.
  - destruct (reachable_invariant clock portal m Hr) as [Hwf _].
    destruct (acquire_cases clock portal m u p Hwf)
      as (r & m' & Ea & _ & Hold & Hcase).
    rewrite Ea. simpl.
    destruct Hcase as [(s & k & Hl & _ & _ & _ & Hl' & Hlog & Hcl)
                      |(Hlog & Hcl & Hres)].
    + split.
      * apply (private_step m m' u Hp); [lia|exact Hold|].
        intros s' Hs'. left. exists s. split; [exact Hl|].
        rewrite Hl' in Hs'. now injection Hs' as <-.
      * unfold one_login_per_client. now rewrite Hlog, Hcl.
    + split.
      * apply (private_step m m' u Hp); [lia|exact Hold|].
        intros s' Hs'. right.
        destruct Hres as [(_ & _ & t1 & t2 & Hl')|(_ & _ & Hl')];
          [|congruence].
        rewrite Hl' in Hs'. injection Hs' as <-. simpl. tauto.
      * unfold one_login_per_client in *. rewrite Hlog, Hcl.
        rewrite seq_S, rev_app_distr. simpl. now rewrite Ho.
  - destruct (reachable_invariant clock portal m Hr) as [Hwf _].
    unfold invalidate_session, bind, get_sessions, put_sessions, ret.
    destruct (lookup u (_sessions m)) as [s|] eqn:El; simpl; [|now split].
    split; [|exact Ho].
    apply (private_step m _ u Hp); simpl; [lia| |].
    + intros v t Hv. now rewrite lookup_store_other.
    + intros s'. rewrite lookup_store_same. intro E. injection E as <-.
      left. exists s. now split.
  - destruct (reachable_invariant clock portal m Hr) as [Hwf _].
    unfold remove_session, bind, get_sessions, put_sessions, ret.
    destruct (lookup u (_sessions m)) as [s|] eqn:El; simpl; [|now split].
    split; [|exact Ho].
    apply (private_step m _ u Hp); simpl; [lia| |].
    + intros v t Hv. now rewrite lookup_remove_other.
    + intros s'. rewrite lookup_remove_same by assumption. discriminate.
  - destruct (reachable_invariant clock portal m Hr) as [Hwf _].
    destruct (cleanup_run clock m) as (l & n & Ec & _).
    rewrite Ec. simpl. split; [|exact Ho].
    apply (private_step m _ EmptyString Hp); simpl; [lia| |].
    + intros v t _. now apply lookup_remove_list_some.
    + intros s' Hs'. left. exists s'.
      split; [now apply (lookup_remove_list_some _ l)|now split].
  - simpl. split; [|exact Ho]. split; intros; discriminate.
Qed.

End World.

Import Scenario.

Lemma reuse_needs_live_session_witness :
  exists s k,
    lookup u0 (_sessions manager1) = Some s
    /\ client s = 0%nat /\ is_valid s = true /\ password s = p0
    /\ (ticks manager1 < k
        < ticks (snd (get_or_create_session clock0 portal_ok u0 p0
                        manager1)))%nat
    /\ clock0 k - login_time s
       <= timedelta_minutes (_max_age_minutes manager1)
    /\ logins (snd (get_or_create_session clock0 portal_ok u0 p0 manager1))
       = logins manager1
    /\ clients (snd (get_or_create_session clock0 portal_ok u0 p0 manager1))
       = clients manager1.
Proof.
  apply (reuse_needs_live_session clock0 portal_ok manager1 _ u0 p0 0%nat).
  - repeat constructor. intros [].
  - reflexivity.
Defined.

Lemma cleanup_only_deletes_stale_sessions_witness :
  exists m',
    _cleanup_sessions clock0 (snd (invalidate_session u0 manager1))
    = (Returned tt, m')
    /\ lookup u0 (_sessions m') = None.
Proof.
  destruct (cleanup_only_deletes_stale_sessions clock0
              (snd (invalidate_session u0 manager1)))
    as (m' & E & _).
  - repeat constructor. intros [].
  - split; split; discriminate.
  - exists m'. split; [exact E|].
    vm_compute in E. injection E as <-. reflexivity.
Defined.

Lemma acquire_spares_other_users_witness :
  lookup u0
    (_sessions
       (snd (get_or_create_session clock0 portal_ok "03654321" p0 manager1)))
  = Some {| client := 0%nat; username := u0; password := p0;
            login_time := 1000000; last_used := 2000000;
            is_valid := true |}.
Proof.
  apply (acquire_spares_other_users clock0 portal_ok manager1
           "03654321" p0 u0).
  - repeat constructor. intros [].
  - discriminate.
  - reflexivity.
  - reflexivity.
  - intros k Hk. vm_compute in Hk.
    unfold in_time, clock0, timedelta_minutes. simpl. lia.
Defined.

Lemma stale_session_is_never_reused_witness :
  exists r m',
    get_or_create_session (fun _ => 7200000000) portal_ok u0 p0 manager1
    = (r, m')
    /\ logins m' = next_event portal_ok u0 p0 manager1 :: logins manager1
    /\ clients m' = S (clients manager1)
    /\ (fst (next_login portal_ok u0 p0 manager1) = true ->
        r = Returned (clients manager1, true))
    /\ (forall c b, r = Returned (c, b) ->
                    c = clients manager1 /\ b = true)
    /\ (forall s', lookup u0 (_sessions m') = Some s' ->
                   client s' = clients manager1).
Proof.
  apply (stale_session_is_never_reused (fun _ => 7200000000) portal_ok
           manager1 u0 p0
           {| client := 0%nat; username := u0; password := p0;
              login_time := 1000000; last_used := 2000000;
              is_valid := true |}).
  - repeat constructor. intros [].
  - reflexivity.
  - left. intros k _. reflexivity.
Defined.

Lemma removed_session_is_replaced_by_a_login_witness :
  exists m0,
    remove_session u0 manager1 = (Returned tt, m0)
    /\ _sessions m0 = []
    /\ exists m1,
         get_or_create_session clock0 portal_ok u0 p0 m0
         = (Returned (1%nat, true), m1).
Proof.
  destruct (removed_session_is_replaced_by_a_login clock0 portal_ok
              manager1 u0 p0)
    as [(m0 & Er & _ & _ & _ & _ & _ & r & m1 & Ea & _) _].
  - repeat constructor. intros [].
  - exists m0. split; [exact Er|].
    vm_compute in Er. injection Er as <-.
    split; [reflexivity|]. eexists. reflexivity.
Defined.

Lemma registered_clients_are_private_witness :
  clients_private manager1 /\ one_login_per_client manager1.
Proof.
  apply (registered_clients_are_private clock0 portal_ok manager1).
  unfold manager1, session_manager.
  apply reach_get_or_create, reach_init.
Defined.

End SessionLaws.

(** ** More on the portal client *)

Module ApiClientLaws.

Import Http Models ApiClient.

(** X7. [APIClient.login] answers [(True, None)] or [(False, msg)] with a
    non-empty [msg].  It answers [True] only when the login page and the
    form post were answered without an HTTP error status, the post led to
    the account address or to a page showing "Dashboard" or the user
    name, and the dashboard page was answered and shows the user name or
    "Current Balance". *)
Theorem login_contract (x : Login.exchange) (u p : string) :
  (fst (Login.login x u p) = true ->
     snd (Login.login x u p) = None
     /\ exists r1 r2 r3,
          Login.login_page x = Responded r1 /\ raise_for_status r1 = None
          /\ Login.login_post x = Responded r2 /\ raise_for_status r2 = None
          /\ (Text.contains Config.ACCOUNT (url r2)
              || Text.contains "Dashboard" (text r2)
              || Text.contains u (text r2)) = true
          /\ Login.dashboard_page x = Responded r3
          /\ (Text.contains u (text r3)
              || Text.contains "Current Balance" (text r3)) = true)
  /\ (fst (Login.login x u p) = false ->
      exists msg, snd (Login.login x u p) = Some msg
                  /\ Text.nonempty msg = true).
Proof.
  unfold Login.login, Login.attempt, Login.request_failed, Login.unexpected.
  destruct (Login.login_page x) as [r1|m1|m1|m1]; cbn [fst snd];
    try (split; [discriminate|intros _; eexists; split; reflexivity]).
  destruct (raise_for_status r1) as [e1|] eqn:E1; cbn [fst snd];
    try (split; [discriminate|intros _; eexists; split; reflexivity]).
  destruct (Login.login_post x) as [r2|m2|m2|m2]; cbn [fst snd];
    try (split; [discriminate|intros _; eexists; split; reflexivity]).
  destruct (raise_for_status r2) as [e2|] eqn:E2; cbn [fst snd];
    try (split; [discriminate|intros _; eexists; split; reflexivity]).
  destruct (Text.contains Config.ACCOUNT (url r2)
            || Text.contains "Dashboard" (text r2)
            || Text.contains u (text r2)) eqn:Eok.
  - destruct (Login.dashboard_page x) as [r3|m3|m3|m3]; cbn [fst snd];
      try (split; [discriminate|intros _; eexists; split; reflexivity]).
    destruct (Text.contains u (text r3)
              || Text.contains "Current Balance" (text r3)) eqn:Ed;
      cbn [fst snd].
    + split; [|discriminate]. intros _. split; [reflexivity|].
      exists r1, r2, r3. tauto.
    + split; [discriminate|]. intros _. eexists. split; reflexivity.
  - destruct (Text.contains "Invalid username or password" (text r2));
      cbn [fst snd];
      (split; [discriminate|intros _; eexists; split; reflexivity]).
Qed.

(** X8. [make_api_request] answers either a success that carries no
    error and a truthy [data] that [json.loads] produced from the body of
    a response without HTTP error status, or a failure that carries no
    data and a non-empty error text.  A response with a status from 400
    to 599, a timeout and any other exception are failures. *)
Theorem make_api_request_contract (json_loads : string -> option Py.value)
  (html_error_text : string -> option string)
  (debug_listing : string -> option string) (o : outcome)
  (url username description : string) (password : option string)
  (retry_count : Z) :
  let r := make_api_request json_loads html_error_text debug_listing o url username
             description password retry_count in
  (success r = true ->
     error r = None /\ Py.truthy (data r) = true
     /\ (exists t, json_loads t = Some (data r))
     /\ exists response,
          o = Responded response
          /\ raise_for_status response = None
          /\ data r = parse_json_safely json_loads (text response)
          /\ status_code r = Some (Http.status_code response)
          /\ raw_response r = Some (text response))
  /\ (success r = false ->
      data r = Py.PNone
      /\ exists msg, error r = Some msg /\ Text.nonempty msg = true)
  /\ (forall response,
        o = Responded response ->
        400 <= Http.status_code response < 600 -> success r = false)
  /\ ((forall response, o <> Responded response) -> success r = false).
Proof.
  cbv zeta. unfold make_api_request, failed.
  destruct o as [response|msg|msg|msg]; cbn [success data error];
    try (split; [discriminate|];
         split; [intros _; split; [reflexivity|eexists; split; reflexivity]|];
         split; [discriminate|reflexivity]).
  assert (Hstatus : 400 <= Http.status_code response < 600 ->
                    raise_for_status response <> None).
  { unfold raise_for_status. intros Hs.
    destruct (Z.leb_spec 400 (Http.status_code response)); [|lia].
    destruct (Z.ltb_spec (Http.status_code response) 500);
      [discriminate|]. simpl.
    destruct (Z.leb_spec 500 (Http.status_code response)); [|lia].
    destruct (Z.ltb_spec (Http.status_code response) 600);
      [discriminate|lia]. }
  destruct (debug_listing username) as [e0|]; cbn [success data error].
  { split; [discriminate|].
    split; [intros _; split; [reflexivity|eexists; split; reflexivity]|].
    split; [reflexivity|]. intro H. now elim (H response). }
  destruct (raise_for_status response) as [e|] eqn:Es;
    cbn [success data error].
  { split; [discriminate|].
    split; [intros _; split; [reflexivity|eexists; split; reflexivity]|].
    split; [reflexivity|]. intro H. now elim (H response). }
  destruct (is_html response && password_given password && (retry_count <? 2));
    cbn [success data error].
  { split; [discriminate|].
    split; [intros _; split; [reflexivity|eexists; split; reflexivity]|].
    split; [|intro H; now elim (H response)].
    intros r0 E Hs. injection E as <-. now elim (Hstatus Hs). }
  destruct (Py.truthy (parse_json_safely json_loads (text response)))
    eqn:Et; cbn [success data error status_code raw_response].
  - split; [|split; [discriminate|split]].
    + intros _. split; [reflexivity|]. split; [exact Et|]. split.
      * unfold parse_json_safely in *.
        destruct (negb (Text.nonempty (text response))); [discriminate|].
        destruct (json_loads (text response)) as [v|] eqn:E1;
          [now exists (text response)|].
        destruct (Re.search Re.embedded_json_pattern (text response))
          as [[extracted groups]|]; [|discriminate].
        destruct (json_loads extracted) as [v|] eqn:E2;
          [now exists extracted|discriminate].
      * exists response. repeat split. exact Es.
    + intros r0 E Hs. injection E as <-. now elim (Hstatus Hs).
    + intro H. now elim (H response).
  - destruct (is_html response); cbn [success data error];
      (split; [discriminate|];
       split; [intros _; split; [reflexivity|eexists; split; reflexivity]|];
       split; [reflexivity|intro H; now elim (H response)]).
Qed.

End ApiClientLaws.

(** ** More on the extraction pipeline *)

Module PipelineLaws.

Import Models Py Scraper TextFacts TagFacts.

Section Libraries.

Variable repr : value -> string.
Variable find_class_text : string -> string -> option string.
Variable select_one_text : string -> string -> option string.
Variable json_loads : string -> option value.
Variable html_error_text : string -> option string.
Variable debug_listing : string -> option string.

Ltac split_goal_matches :=
  repeat match goal with
         | |- context [match ?x with _ => _ end] => destruct x eqn:?
         end.

(** *** What each stage writes *)

Lemma expiry_stage_writes (resp : APIResponse) (a b : AccountData)
  (errors errors' : list string) :
  fst (expiry_stage repr resp (a, errors))
  = set_validity_days_remaining
      (validity_days_remaining (fst (expiry_stage repr resp (b, errors')))) a.
Proof. unfold expiry_stage. split_goal_matches; reflexivity. Qed.

Lemma recharge_stage_writes (resp : APIResponse) (a b : AccountData)
  (errors errors' : list string) :
  fst (recharge_stage resp (a, errors))
  = set_last_recharge_date
      (last_recharge_date (fst (recharge_stage resp (b, errors'))))
      (set_last_recharge_amount
         (last_recharge_amount (fst (recharge_stage resp (b, errors')))) a).
Proof.
  unfold recharge_stage.
  destruct (success resp && truthy (data resp)); [|reflexivity].
  unfold recharge_try, bind.
  destruct (get (data resp) "Amount" PNone) as [amount|]; [|reflexivity].
  destruct (if truthy amount then _ else _) as [shown|]; [|reflexivity].
  destruct (get (data resp) "Date" (PStr "API Error")); reflexivity.
Qed.

Lemma ushare_details_reads (a b : AccountData) (l : list value) :
  main_consumption a = main_consumption b ->
  ushare_details a l = ushare_details b l.
Proof.
  intro H. induction l as [|service l IH]; [reflexivity|].
  simpl. rewrite IH. unfold ushare_detail. now rewrite H.
Qed.

Lemma services_stage_writes (resp : APIResponse) (a b : AccountData)
  (errors errors' : list string) :
  main_consumption a = main_consumption b ->
  fst (services_stage resp (a, errors))
  = set_service_details
      (service_details (fst (services_stage resp (b, errors')))) a.
Proof.
  intro H. unfold services_stage, services_try.
  destruct (success resp && truthy (data resp)); [|reflexivity].
  destruct (data resp) as [| | | | |services|]; try reflexivity.
  rewrite (ushare_details_reads a b services H). unfold bind.
  destruct (ushare_details b services); reflexivity.
Qed.

Lemma record_errors_writes (errors : list string) (a : AccountData) :
  record_errors errors a
  = set_error_details (error_details (record_errors errors a)) a.
Proof.
  unfold record_errors, add_error_tag.
  destruct errors; [now destruct a|].
  destruct (Text.nonempty (error_details a)); reflexivity.
Qed.

(** X9. In the record [extract_api_data] returns, the fields of each
    endpoint are decided by that endpoint's response alone: the balance
    and consumption fields are those the consumption stage produced,
    [validity_days_remaining] and the two recharge fields are what their
    stages produce from their responses on any record, and
    [service_details] is what the services stage produces on any record
    with the same [main_consumption]. *)
Theorem api_stages_are_independent (r1 r2 r3 r4 : APIResponse)
  (a a' : AccountData) (e : bool) :
  extract_api_data_from repr r1 r2 r3 r4 a = (a', Completed e) ->
  let c := fst (consumption_stage repr r1 (a, [])) in
  (current_balance a' = current_balance c
   /\ secondary_numbers a' = secondary_numbers c
   /\ main_consumption a' = main_consumption c
   /\ mobile_internet_consumption a' = mobile_internet_consumption c
   /\ secondary_consumption a' = secondary_consumption c)
  /\ (forall b errors,
        validity_days_remaining a'
        = validity_days_remaining (fst (expiry_stage repr r2 (b, errors))))
  /\ (forall b errors,
        last_recharge_amount a'
        = last_recharge_amount (fst (recharge_stage r3 (b, errors)))
        /\ last_recharge_date a'
           = last_recharge_date (fst (recharge_stage r3 (b, errors))))
  /\ (forall b errors,
        main_consumption b = main_consumption c ->
        service_details a'
        = service_details (fst (services_stage r4 (b, errors)))).
Proof.
  unfold extract_api_data_from. cbv zeta.
  destruct (consumption_stage repr r1 (a, [])) as [x1 errors1].
  destruct (expiry_stage repr r2 (x1, errors1)) as [x2 errors2] eqn:E2.
  destruct (recharge_stage r3 (x2, errors2)) as [x3 errors3] eqn:E3.
  destruct (services_stage r4 (x3, errors3)) as [x4 errors4] eqn:E4.
  destruct (session_error r1); [|discriminate].
  destruct (session_error r2); [|discriminate].
  destruct (session_error r3); [|discriminate].
  destruct (session_error r4); [|discriminate].
  cbn [fst snd]. intro H. injection H as <- _.
  assert (H2 : forall b errors,
             x2 = set_validity_days_remaining
                    (validity_days_remaining
                       (fst (expiry_stage repr r2 (b, errors)))) x1).
  { intros b errors. change x2 with (fst (x2, errors2)). rewrite <- E2.
    apply expiry_stage_writes. }
  assert (H3 : forall b errors,
             x3 = set_last_recharge_date
                    (last_recharge_date (fst (recharge_stage r3 (b, errors))))
                    (set_last_recharge_amount
                       (last_recharge_amount
                          (fst (recharge_stage r3 (b, errors)))) x2)).
  { intros b errors. change x3 with (fst (x3, errors3)). rewrite <- E3.
    apply recharge_stage_writes. }
  assert (H4 : forall b errors,
             main_consumption x3 = main_consumption b ->
             x4 = set_service_details
                    (service_details (fst (services_stage r4 (b, errors))))
                    x3).
  { intros b errors Hb. change x4 with (fst (x4, errors4)). rewrite <- E4.
    now apply services_stage_writes. }
  rewrite record_errors_writes.
  assert (Hm : main_consumption x3 = main_consumption x1).
  { rewrite (H3 a []), (H2 a []). reflexivity. }
  split; [|split; [|split]].
  - rewrite (H4 x3 [] eq_refl), (H3 a []), (H2 a []). repeat split.
  - intros b errors.
    rewrite (H4 x3 [] eq_refl), (H3 a []), (H2 b errors). reflexivity.
  - intros b errors.
    rewrite (H4 x3 [] eq_refl), (H3 b errors). split; reflexivity.
  - intros b errors Hb. rewrite (H4 b errors); [reflexivity|congruence].
Qed.

(** *** A failed request shows in the record *)

Lemma expiry_stage_errors (resp : APIResponse) (a : AccountData)
  (errors : list string) (t : string) :
  In t errors -> In t (snd (expiry_stage repr resp (a, errors))).
Proof.
  intro I. unfold expiry_stage, append.
  split_goal_matches; cbn [snd]; try assumption;
    apply in_or_app; now left.
Qed.

Lemma recharge_stage_errors (resp : APIResponse) (a : AccountData)
  (errors : list string) (t : string) :
  In t errors -> In t (snd (recharge_stage resp (a, errors))).
Proof.
  intro I. unfold recharge_stage, append.
  destruct (success resp && truthy (data resp));
    [destruct (recharge_try (data resp) a)|]; cbn [snd]; try assumption;
    apply in_or_app; now left.
Qed.

Lemma services_stage_errors (resp : APIResponse) (a : AccountData)
  (errors : list string) (t : string) :
  In t errors -> In t (snd (services_stage resp (a, errors))).
Proof.
  intro I. unfold services_stage, append.
  destruct (success resp && truthy (data resp));
    [destruct (services_try (data resp) a)|]; cbn [snd]; try assumption;
    apply in_or_app; now left.
Qed.

Lemma stages_show_failure (r1 r2 r3 r4 : APIResponse) (a : AccountData) :
  let s4 := services_stage r4
              (recharge_stage r3
                 (expiry_stage repr r2
                    (consumption_stage repr r1 (a, [])))) in
  (success r1 = false ->
     In "Consumption API Fetch Error" (snd s4)
     /\ current_balance (fst s4) = PStr "API Error"
     /\ secondary_numbers (fst s4) = PStr "API Error"
     /\ main_consumption (fst s4) = PStr "API Error"
     /\ mobile_internet_consumption (fst s4) = PStr "API Error"
     /\ secondary_consumption (fst s4) = PStr "API Error")
  /\ (success r2 = false ->
      In "Expiry API Fetch Error" (snd s4)
      /\ validity_days_remaining (fst s4) = PStr "API Error")
  /\ (success r3 = false ->
      In "Recharge API Fetch Error" (snd s4)
      /\ last_recharge_amount (fst s4) = PStr "API Error"
      /\ last_recharge_date (fst s4) = PStr "API Error")
  /\ (success r4 = false ->
      In "Services API Fetch Error" (snd s4)
      /\ service_details (fst s4) = PStr "API Error").
Proof.
  cbv zeta.
  destruct (consumption_stage repr r1 (a, [])) as [x1 e1] eqn:E1.
  destruct (expiry_stage repr r2 (x1, e1)) as [x2 e2] eqn:E2.
  destruct (recharge_stage r3 (x2, e2)) as [x3 e3] eqn:E3.
  destruct (services_stage r4 (x3, e3)) as [x4 e4] eqn:E4.
  cbn [fst snd].
  assert (H2 : x2 = set_validity_days_remaining
                      (validity_days_remaining x2) x1).
  { change x2 with (fst (x2, e2)) at 1. rewrite <- E2.
    rewrite (expiry_stage_writes r2 x1 x1 e1 e1). now rewrite E2. }
  assert (H3 : x3 = set_last_recharge_date (last_recharge_date x3)
                      (set_last_recharge_amount (last_recharge_amount x3)
                         x2)).
  { change x3 with (fst (x3, e3)) at 1. rewrite <- E3.
    rewrite (recharge_stage_writes r3 x2 x2 e2 e2). now rewrite E3. }
  assert (H4 : x4 = set_service_details (service_details x4) x3).
  { change x4 with (fst (x4, e4)) at 1. rewrite <- E4.
    rewrite (services_stage_writes r4 x3 x3 e3 e3 eq_refl).
    now rewrite E4. }
  assert (I2 : forall t, In t e1 -> In t e2).
  { intros t I. change e2 with (snd (x2, e2)). rewrite <- E2.
    now apply expiry_stage_errors. }
  assert (I3 : forall t, In t e2 -> In t e3).
  { intros t I. change e3 with (snd (x3, e3)). rewrite <- E3.
    now apply recharge_stage_errors. }
  assert (I4 : forall t, In t e3 -> In t e4).
  { intros t I. change e4 with (snd (x4, e4)). rewrite <- E4.
    now apply services_stage_errors. }
  split; [|split; [|split]]; intro Hs.
  - unfold consumption_stage in E1. rewrite Hs in E1. simpl in E1.
    injection E1 as <- <-.
    split; [apply I4, I3, I2; now left|].
    rewrite H4, H3, H2. repeat split.
  - unfold expiry_stage in E2. rewrite Hs in E2. simpl in E2.
    injection E2 as <- <-.
    split; [apply I4, I3, in_or_app; right; now left|].
    rewrite H4, H3. reflexivity.
  - unfold recharge_stage in E3. rewrite Hs in E3. simpl in E3.
    injection E3 as <- <-.
    split; [apply I4, in_or_app; right; now left|].
    rewrite H4. split; reflexivity.
  - unfold services_stage in E4. rewrite Hs in E4. simpl in E4.
    injection E4 as <- <-.
    split; [apply in_or_app; right; now left|reflexivity].
Qed.

Lemma record_errors_contains (errors : list string) (tag : string)
  (a : AccountData) :
  In tag errors ->
  Text.contains tag (error_details (record_errors errors a)) = true.
Proof.
  intro I. unfold record_errors.
  destruct errors as [|e errors]; [destruct I|].
  unfold add_error_tag.
  destruct (Text.nonempty (error_details a));
    unfold set_error_details; cbn [error_details].
  - apply contains_app_r, contains_app_r, join_contains, I.
  - apply join_contains, I.
Qed.

Section Kept.

(** A field [g] that the assignments of the HTML stage do not touch. *)
Variable g : AccountData -> value.
Hypothesis g_activation : forall v a, g (set_activation_date v a) = g a.
Hypothesis g_subscription : forall v a, g (set_subscription_date v a) = g a.
Hypothesis g_validity : forall v a, g (set_validity_date v a) = g a.
Hypothesis g_error : forall v a, g (set_error_details v a) = g a.

Lemma add_error_tag_keeps (t : string) (a : AccountData) :
  g (add_error_tag t a) = g a.
Proof.
  unfold add_error_tag. destruct (Text.nonempty _); apply g_error.
Qed.

Lemma read_service_dates_keeps (t : string) (a : AccountData) :
  g (read_service_dates t a) = g a.
Proof.
  unfold read_service_dates.
  split_goal_matches;
    repeat (rewrite g_validity || rewrite g_subscription); reflexivity.
Qed.

Lemma extract_html_data_keeps (p : pages) (a : AccountData) :
  g (extract_html_data find_class_text select_one_text p a) = g a.
Proof.
  unfold extract_html_data.
  set (a1 := match account_page p with
             | Http.Responded response => _
             | _ => add_error_tag "HTML Extraction Error" a
             end).
  assert (H1 : g a1 = g a).
  { unfold a1. destruct (account_page p) as [response| | |];
      try apply add_error_tag_keeps.
    cbv zeta. destruct (negb _); [apply g_activation|reflexivity]. }
  clearbody a1. rewrite <- H1. unfold extract_manage_services_data.
  destruct (manage_services_page p) as [response| | |];
    try apply add_error_tag_keeps.
  destruct (Http.raise_for_status response);
    [apply add_error_tag_keeps|].
  destruct (select_one_text _ _) as [element_text|]; [|reflexivity].
  apply read_service_dates_keeps.
Qed.

End Kept.

Ltac kept_by_html f :=
  rewrite (extract_html_data_keeps f) by (intros; reflexivity).

Lemma extract_html_data_contains (p : pages) (a : AccountData)
  (tag : string) :
  Text.contains tag (error_details a) = true ->
  Text.contains tag
    (error_details (extract_html_data find_class_text select_one_text p a))
  = true.
Proof.
  intro H. unfold extract_html_data.
  set (a1 := match account_page p with
             | Http.Responded response => _
             | _ => add_error_tag "HTML Extraction Error" a
             end).
  assert (H1 : Text.contains tag (error_details a1) = true).
  { unfold a1. destruct (account_page p) as [response| | |];
      try now apply add_error_tag_contains.
    cbv zeta. destruct (negb _); assumption. }
  clearbody a1. unfold extract_manage_services_data.
  destruct (manage_services_page p) as [response| | |];
    try now apply add_error_tag_contains.
  destruct (Http.raise_for_status response);
    [now apply add_error_tag_contains|].
  destruct (select_one_text _ _) as [element_text|]; [|assumption].
  unfold read_service_dates. split_goal_matches; assumption.
Qed.

Lemma has_sentinel_intro (a : AccountData) (k : string) (v : value) :
  In (k, v) (to_dict a) ->
  existsb (String.eqb k) metadata_fields = false ->
  eq_str v "API Error" || eq_str v "Not Found" = true ->
  has_sentinel a = true.
Proof.
  intros I Hk Hv. unfold has_sentinel. apply existsb_exists.
  exists (k, v). split; [exact I|]. cbn [fst snd]. now rewrite Hk, Hv.
Qed.

Lemma determine_final_status_partial (b : AccountData) (tag : string) :
  has_sentinel b = true ->
  tag <> EmptyString ->
  Text.contains tag (error_details b) = true ->
  determine_final_status b = set_status "Partial Success" b.
Proof.
  intros Hs Ht Hc. unfold determine_final_status. rewrite Hs.
  unfold set_status at 1. cbn [error_details].
  now rewrite (contains_nonempty tag _ Ht Hc).
Qed.

(** The record after the API stages, the two HTML pages and the final
    status, when the API stages left [tag] among their errors and a
    sentinel in the record. *)
Lemma tagged_record_is_partial (x4 : AccountData) (errors4 : list string)
  (p : pages) (tag : string) :
  In tag errors4 ->
  tag <> EmptyString ->
  has_sentinel
    (extract_html_data find_class_text select_one_text p
       (record_errors errors4 x4)) = true ->
  let b := extract_html_data find_class_text select_one_text p
             (record_errors errors4 x4) in
  let a := determine_final_status b in
  status a = "Partial Success"
  /\ Text.contains tag (error_details a) = true
  /\ current_balance a = current_balance x4
  /\ secondary_numbers a = secondary_numbers x4
  /\ main_consumption a = main_consumption x4
  /\ mobile_internet_consumption a = mobile_internet_consumption x4
  /\ secondary_consumption a = secondary_consumption x4
  /\ validity_days_remaining a = validity_days_remaining x4
  /\ last_recharge_amount a = last_recharge_amount x4
  /\ last_recharge_date a = last_recharge_date x4
  /\ service_details a = service_details x4.
Proof.
  intros I Ht Hs. cbv zeta.
  assert (Hc : Text.contains tag
                 (error_details
                    (extract_html_data find_class_text select_one_text p
                       (record_errors errors4 x4))) = true)
    by now apply extract_html_data_contains, record_errors_contains.
  rewrite (determine_final_status_partial _ tag Hs Ht Hc).
  split; [reflexivity|]. split; [exact Hc|].
  unfold set_status.
  cbn [current_balance secondary_numbers main_consumption
       mobile_internet_consumption secondary_consumption
       validity_days_remaining last_recharge_amount last_recharge_date
       service_details].
  kept_by_html current_balance. kept_by_html secondary_numbers.
  kept_by_html main_consumption. kept_by_html mobile_internet_consumption.
  kept_by_html secondary_consumption. kept_by_html validity_days_remaining.
  kept_by_html last_recharge_amount. kept_by_html last_recharge_date.
  kept_by_html service_details.
  rewrite (record_errors_writes errors4 x4). repeat split.
Qed.

Lemma sentinel_after_html (y : AccountData) (p : pages) (k : string)
  (f : AccountData -> value) :
  (forall a, In (k, f a) (to_dict a)) ->
  existsb (String.eqb k) metadata_fields = false ->
  f (extract_html_data find_class_text select_one_text p y)
  = PStr "API Error" ->
  has_sentinel (extract_html_data find_class_text select_one_text p y)
  = true.
Proof.
  intros Hin Hk Hf.
  apply (has_sentinel_intro _ k (PStr "API Error")); [|exact Hk|reflexivity].
  rewrite <- Hf. apply Hin.
Qed.

Lemma failed_request_core (r1 r2 r3 r4 : APIResponse) (a0 : AccountData)
  (p : pages) (b1 b2 b3 b4 : bool) :
  session_error r1 = Ok b1 -> session_error r2 = Ok b2 ->
  session_error r3 = Ok b3 -> session_error r4 = Ok b4 ->
  let a := determine_final_status
             (extract_html_data find_class_text select_one_text p
                (fst (extract_api_data_from repr r1 r2 r3 r4 a0))) in
  (success r1 = false ->
     status a = "Partial Success"
     /\ Text.contains "Consumption API Fetch Error" (error_details a) = true
     /\ current_balance a = PStr "API Error"
     /\ secondary_numbers a = PStr "API Error"
     /\ main_consumption a = PStr "API Error"
     /\ mobile_internet_consumption a = PStr "API Error"
     /\ secondary_consumption a = PStr "API Error")
  /\ (success r2 = false ->
      status a = "Partial Success"
      /\ Text.contains "Expiry API Fetch Error" (error_details a) = true
      /\ validity_days_remaining a = PStr "API Error")
  /\ (success r3 = false ->
      status a = "Partial Success"
      /\ Text.contains "Recharge API Fetch Error" (error_details a) = true
      /\ last_recharge_amount a = PStr "API Error"
      /\ last_recharge_date a = PStr "API Error")
  /\ (success r4 = false ->
      status a = "Partial Success"
      /\ Text.contains "Services API Fetch Error" (error_details a) = true
      /\ service_details a = PStr "API Error").
Proof.
  intros E1 E2 E3 E4. unfold extract_api_data_from.
  rewrite E1, E2, E3, E4. cbv zeta. cbn [fst].
  destruct (stages_show_failure r1 r2 r3 r4 a0) as (F1 & F2 & F3 & F4).
  destruct (services_stage r4 _) as [x4 errors4]. cbn [fst snd] in *.
  pose proof (record_errors_writes errors4 x4) as Hr.
  split; [|split; [|split]]; intro Hs.
  - destruct (F1 Hs) as (I & G1 & G2 & G3 & G4 & G5).
    destruct (tagged_record_is_partial x4 errors4 p _ I)
      as (Q1 & Q2 & Q3 & Q4 & Q5 & Q6 & Q7 & _); [discriminate| |].
    + apply (sentinel_after_html _ p "current_balance" current_balance);
        [intro a; simpl; tauto|reflexivity|].
      kept_by_html current_balance. rewrite Hr. exact G1.
    + rewrite Q3, Q4, Q5, Q6, Q7. tauto.
  - destruct (F2 Hs) as (I & G1).
    destruct (tagged_record_is_partial x4 errors4 p _ I)
      as (Q1 & Q2 & _ & _ & _ & _ & _ & Q8 & _); [discriminate| |].
    + apply (sentinel_after_html _ p "validity_days_remaining"
               validity_days_remaining);
        [intro a; simpl; tauto|reflexivity|].
      kept_by_html validity_days_remaining. rewrite Hr. exact G1.
    + rewrite Q8. tauto.
  - destruct (F3 Hs) as (I & G1 & G2).
    destruct (tagged_record_is_partial x4 errors4 p _ I)
      as (Q1 & Q2 & _ & _ & _ & _ & _ & _ & Q9 & Q10 & _); [discriminate| |].
    + apply (sentinel_after_html _ p "last_recharge_amount"
               last_recharge_amount);
        [intro a; simpl; tauto|reflexivity|].
      kept_by_html last_recharge_amount. rewrite Hr. exact G1.
    + rewrite Q9, Q10. tauto.
  - destruct (F4 Hs) as (I & G1).
    destruct (tagged_record_is_partial x4 errors4 p _ I)
      as (Q1 & Q2 & _ & _ & _ & _ & _ & _ & _ & _ & Q11); [discriminate| |].
    + apply (sentinel_after_html _ p "service_details" service_details);
        [intro a; simpl; tauto|reflexivity|].
      kept_by_html service_details. rewrite Hr. exact G1.
    + rewrite Q11. tauto.
Qed.

(** X10. When the session was obtained and one of the four API requests
    fails (HTTP error, timeout, HTML in place of JSON, or a body that
    [json.loads] makes nothing of), the record of the attempt has the
    status "Partial Success", its [error_details] names the endpoint with
    a "... API Fetch Error" tag, and the fields of that endpoint read
    "API Error", whatever the other requests and the HTML pages gave. *)
Theorem failed_request_shows_in_the_record (cb : nat * bool)
  (x : api_exchange) (p : pages) (credentials : AccountCredentials) :
  let request o url description :=
    ApiClient.make_api_request json_loads html_error_text debug_listing o url
      (cred_username credentials) description
      (Some (cred_password credentials)) 0 in
  let a := fst (process_account_with repr find_class_text select_one_text
                  json_loads html_error_text debug_listing (Session.Returned cb) x p
                  credentials) in
  (success (request (consumption x)
              (Config.get_consumption_url (timestamp x)) "Consumption")
   = false ->
     status a = "Partial Success"
     /\ Text.contains "Consumption API Fetch Error" (error_details a) = true
     /\ current_balance a = PStr "API Error"
     /\ secondary_numbers a = PStr "API Error"
     /\ main_consumption a = PStr "API Error"
     /\ mobile_internet_consumption a = PStr "API Error"
     /\ secondary_consumption a = PStr "API Error")
  /\ (success (request (expiry x) Config.EXPIRY "Expiry Date") = false ->
      status a = "Partial Success"
      /\ Text.contains "Expiry API Fetch Error" (error_details a) = true
      /\ validity_days_remaining a = PStr "API Error")
  /\ (success (request (last_recharge x) Config.LAST_RECHARGE
                 "Last Recharge") = false ->
      status a = "Partial Success"
      /\ Text.contains "Recharge API Fetch Error" (error_details a) = true
      /\ last_recharge_amount a = PStr "API Error"
      /\ last_recharge_date a = PStr "API Error")
  /\ (success (request (services x) Config.SERVICES "My Services") = false ->
      status a = "Partial Success"
      /\ Text.contains "Services API Fetch Error" (error_details a) = true
      /\ service_details a = PStr "API Error").
Proof.
  cbv zeta. unfold process_account_with. destruct cb as [c b].
  set (a0 := AccountData_new (cred_username credentials)).
  destruct (ScraperProps.extract_api_data_completes repr json_loads
              html_error_text debug_listing x a0 (cred_password credentials))
    as (a' & expired & E).
  rewrite E. cbn [fst].
  assert (Ha : a' = fst (extract_api_data repr json_loads html_error_text debug_listing x
                           a0 (cred_password credentials)))
    by now rewrite E.
  unfold extract_api_data in Ha. rewrite Ha.
  destruct (ApiClientProps.make_api_request_error json_loads html_error_text debug_listing
              (consumption x) (Config.get_consumption_url (timestamp x))
              (username a0) "Consumption"
              (Some (cred_password credentials)) 0) as [b1 E1].
  destruct (ApiClientProps.make_api_request_error json_loads html_error_text debug_listing
              (expiry x) Config.EXPIRY (username a0) "Expiry Date"
              (Some (cred_password credentials)) 0) as [b2 E2].
  destruct (ApiClientProps.make_api_request_error json_loads html_error_text debug_listing
              (last_recharge x) Config.LAST_RECHARGE (username a0)
              "Last Recharge" (Some (cred_password credentials)) 0)
    as [b3 E3].
  destruct (ApiClientProps.make_api_request_error json_loads html_error_text debug_listing
              (services x) Config.SERVICES (username a0) "My Services"
              (Some (cred_password credentials)) 0) as [b4 E4].
  exact (failed_request_core _ _ _ _ a0 p b1 b2 b3 b4 E1 E2 E3 E4).
Qed.

(** *** The pipeline and the session pool *)


Section World.

Variable clock : nat -> Z.
Variable portal : nat -> string -> string -> Login.exchange.
Variable api : nat -> string -> api_exchange.
Variable html : nat -> string -> pages.



End World.

End Libraries.

Import Scenario.

Lemma api_stages_are_independent_witness :
  let a' := fst (extract_api_data_from repr0 (answered consumption_data)
                   (answered (PStr "15 days"))
                   (answered
                      (PDict [("Amount", PInt 10);
                              ("Date", PStr "01/02/2024")]))
                   (answered services_data) (AccountData_new u0)) in
  validity_days_remaining a' = PInt 15
  /\ last_recharge_date a' = PStr "01/02/2024"
  /\ service_details a' = PStr "USHARE: 20GB".
Proof.
  cbv zeta.
  destruct (api_stages_are_independent repr0 (answered consumption_data)
              (answered (PStr "15 days"))
              (answered
                 (PDict [("Amount", PInt 10); ("Date", PStr "01/02/2024")]))
              (answered services_data) (AccountData_new u0)
              (fst (extract_api_data_from repr0 (answered consumption_data)
                      (answered (PStr "15 days"))
                      (answered
                         (PDict [("Amount", PInt 10);
                                 ("Date", PStr "01/02/2024")]))
                      (answered services_data) (AccountData_new u0)))
              false)
    as (_ & H2 & H3 & H4).
  - vm_compute. reflexivity.
  - rewrite (H2 (AccountData_new EmptyString) []).
    rewrite (proj2 (H3 (AccountData_new EmptyString) [])).
    rewrite (H4 (set_main_consumption (PStr "1.46 GB/20 GB")
                   (AccountData_new EmptyString)) []);
      [|vm_compute; reflexivity].
    vm_compute. repeat split.
Defined.


(** The same answers when the user's debug directory cannot be listed:
    every request ends in the last handler, none is read as a session
    expiry, and the session stays valid. *)
Example html_answer_with_unlistable_debug_directory :
  exists a m',
    process_account repr0 no_element no_element no_json no_error_element
      (fun _ => Some "[Errno 36] File name too long")
      clock0 portal_ok (fun _ _ => api_html) (fun _ _ => pages_down)
      credentials0 Session.session_manager
    = (Session.Returned a, m')
    /\ status a = "Partial Success"
    /\ option_map Session.is_valid
         (Session.lookup u0 (Session._sessions m')) = Some true.
Proof. do 2 eexists. vm_compute. repeat split. Qed.


End PipelineLaws.

(** ** More on the batch orchestrator *)

Module BotLaws.

Import Models Bot BotView BotFacts.

Section Run.

Variable config : BotConfig.
Variable repr : Py.value -> string.
Variable find_class_text : string -> string -> option string.
Variable select_one_text : string -> string -> option string.
Variable json_loads : string -> option Py.value.
Variable html_error_text : string -> option string.
Variable debug_listing : string -> option string.
Variable world : nat -> task_world.
Variable gather_raises : nat -> option string.
Variable reply_raises : nat -> message -> option string.
Variable db_raises : db_call -> option string.

(** X13. However a run of [process_accounts_batch] ends, the account
    notifications it has delivered are those of the records it has
    added, in the order of the records, numbered consecutively from
    [processed_count + 1] and each showing the number of submitted
    accounts as the total; only the last record can be without its
    notification, and no record is when the run returns or the chat
    delivers its messages. *)
Theorem notifications_are_numbered_in_order
  (accounts : list AccountCredentials) (results0 : ProcessingResult)
  (processed_count0 : Z) :
  let out := process_accounts_batch config repr find_class_text
               select_one_text json_loads html_error_text debug_listing
               world gather_raises reply_raises db_raises accounts results0
               processed_count0 in
  let records := all_batch_results (snd out) in
  exists j,
    sent (events (snd out))
    = numbered processed_count0 (Z.of_nat (List.length accounts))
        (firstn j records)
    /\ (List.length records <= S j)%nat
    /\ (j <= List.length records)%nat
    /\ (fst out = Returned tt \/ chat_delivers reply_raises ->
        j = List.length records).
Proof.
  cbv zeta. destruct (Z.lt_ge_cases 0 (BATCH_SIZE config)) as [Hb|Hb].
  - destruct (batch_run config repr find_class_text select_one_text
                json_loads html_error_text debug_listing world gather_raises
                reply_raises db_raises accounts results0 processed_count0 Hb)
      as (records & j & sizes & k & Hp & _ & _ & _ & _ & _ & _ & _ & Hchat
          & Hfull & _).
    cbv zeta in *.
    destruct Hp as ((_ & B & _) & S & _ & L1 & L2).
    cbn [initial all_batch_results processed_count events sent app] in B, S.
    rewrite B. exists j.
    split; [exact S|]. split; [exact L1|]. split; [exact L2|].
    intros [H|H]; [exact (proj1 (Hfull (or_introl H)))|exact (Hchat H)].
  - destruct (batch_run_idle config repr find_class_text select_one_text
                json_loads html_error_text debug_listing world gather_raises
                reply_raises db_raises accounts results0 processed_count0 Hb)
      as (_ & B & _ & _ & S).
    cbv zeta in B, S. rewrite B, S. exists 0%nat. simpl.
    repeat split; lia.
Qed.

(** X14. Under a positive [BATCH_SIZE], the batches of a run of
    [process_accounts_batch] have at least one and at most [BATCH_SIZE]
    accounts each and cover the accounts once.  However the run ends,
    what it has announced and paused is a first stretch of: batch 1,
    pause, batch 2, pause, ..., last batch, with one pause between two
    consecutive batches and none after the last; a run that returns, and
    any run in which the chat delivers and no task is cancelled, has
    gone through all of it and has created one task per account. *)
Theorem batches_are_bounded_and_paced (accounts : list AccountCredentials)
  (results0 : ProcessingResult) (processed_count0 : Z) :
  0 < BATCH_SIZE config ->
  let out := process_accounts_batch config repr find_class_text
               select_one_text json_loads html_error_text debug_listing
               world gather_raises reply_raises db_raises accounts results0
               processed_count0 in
  exists sizes k,
    Forall (fun size => (1 <= size)%nat
                        /\ Z.of_nat size <= BATCH_SIZE config) sizes
    /\ list_sum sizes = List.length accounts
    /\ rhythm (events (snd out)) = firstn k (paced 1 sizes)
    /\ (fst out = Returned tt
        \/ (chat_delivers reply_raises /\ no_task_cancelled world) ->
        rhythm (events (snd out)) = paced 1 sizes
        /\ created (snd out) = List.length accounts).
Proof.
  intros Hb.
  destruct (batch_run config repr find_class_text select_one_text json_loads
              html_error_text debug_listing world gather_raises reply_raises
              db_raises accounts results0 processed_count0 Hb)
    as (records & j & sizes & k & _ & _ & _ & _ & Hs & Hsum & Hr & _ & _
        & Hfull & _).
  cbv zeta in *. exists sizes, k.
  split; [exact Hs|]. split; [exact Hsum|]. split; [exact Hr|].
  intro H. destruct (Hfull H) as (_ & _ & Y & _ & C). now split.
Qed.

(** X15. However a run of [process_accounts_batch] ends, the three
    counters of the [ProcessingResult] agree with its records: the
    numbers of records with status "Success", with status
    "Partial Success" and with any other status.  The one element of
    [results.results] that the counters leave out is the exception
    object of a task that a [BaseException] ended: [add_result] appends
    it behind the records and raises [AttributeError] on it, which ends
    the run. *)
Theorem counters_agree_with_records (accounts : list AccountCredentials)
  (results0 : ProcessingResult) (processed_count0 : Z) :
  tallied results0 ->
  let out := process_accounts_batch config repr find_class_text
               select_one_text json_loads html_error_text debug_listing
               world gather_raises reply_raises db_raises accounts results0
               processed_count0 in
  tallied (results (snd out))
  /\ (stray (snd out) = None
      \/ exists class_name msg,
           stray (snd out) = Some (class_name, msg)
           /\ fst out = Raised (Exc (no_status class_name))
           /\ exists i, stopped (world i) = Some (BaseExc class_name msg))
  /\ (fst out = Returned tt \/ no_task_cancelled world ->
      stray (snd out) = None).
Proof.
  intro Ht. cbv zeta.
  assert (H : tallied
                (results
                   (snd (process_accounts_batch config repr find_class_text
                           select_one_text json_loads html_error_text
                           debug_listing world gather_raises reply_raises
                           db_raises accounts results0 processed_count0)))
              /\ (stray
                    (snd (process_accounts_batch config repr find_class_text
                            select_one_text json_loads html_error_text
                            debug_listing world gather_raises reply_raises
                            db_raises accounts results0 processed_count0))
                  = None
                  \/ exists class_name msg,
                       stray
                         (snd (process_accounts_batch config repr
                                 find_class_text select_one_text json_loads
                                 html_error_text debug_listing world
                                 gather_raises reply_raises db_raises
                                 accounts results0 processed_count0))
                       = Some (class_name, msg)
                       /\ fst (process_accounts_batch config repr
                                 find_class_text select_one_text json_loads
                                 html_error_text debug_listing world
                                 gather_raises reply_raises db_raises
                                 accounts results0 processed_count0)
                          = Raised (Exc (no_status class_name))
                       /\ exists i,
                            stopped (world i)
                            = Some (BaseExc class_name msg))).
  { destruct (Z.lt_ge_cases 0 (BATCH_SIZE config)) as [Hb|Hb].
    - destruct (batch_run config repr find_class_text select_one_text
                  json_loads html_error_text debug_listing world
                  gather_raises reply_raises db_raises accounts results0
                  processed_count0 Hb)
        as (records & j & sizes & k & Hp & _ & _ & _ & _ & _ & _ & Hs & _).
      cbv zeta in *. destruct Hp as (_ & _ & T & _).
      split; [exact (T Ht)|exact Hs].
    - destruct (batch_run_idle config repr find_class_text select_one_text
                  json_loads html_error_text debug_listing world
                  gather_raises reply_raises db_raises accounts results0
                  processed_count0 Hb) as (R & _ & _ & S & _).
      cbv zeta in R, S. rewrite R, S. split; [exact Ht|now left]. }
  destruct H as [H1 H2]. split; [exact H1|]. split; [exact H2|].
  destruct H2 as [H2|(c & m & S & E & i & Hi)]; [intros _; exact H2|].
  intros [H|H].
  - rewrite E in H. discriminate H.
  - now elim (H i c m).
Qed.

End Run.

Import Scenario.

Lemma batches_are_bounded_and_paced_witness :
  let config := {| BATCH_SIZE := 2; MAX_CONCURRENT_WORKERS := 2;
                   ENABLE_BATCH_PROCESSING := true |} in
  let accounts := map (fun u => {| cred_username := u; cred_password := p0 |})
                    ["03000001"; "03000002"; "03000003"; "03000004";
                     "03000005"] in
  let out := process_accounts_batch config repr0 no_element no_element
               no_json no_error_element listing_ok rejected_world
               (fun _ => None) chat_ok db_ok accounts
               (ProcessingResult_new 5) 0 in
  exists sizes,
    list_sum sizes = 5%nat
    /\ rhythm (events (snd out)) = paced 1 sizes
    /\ created (snd out) = 5%nat.
Proof.
  cbv zeta.
  destruct (batches_are_bounded_and_paced
              {| BATCH_SIZE := 2; MAX_CONCURRENT_WORKERS := 2;
                 ENABLE_BATCH_PROCESSING := true |}
              repr0 no_element no_element no_json no_error_element listing_ok
              rejected_world (fun _ => None) chat_ok db_ok
              (map (fun u => {| cred_username := u; cred_password := p0 |})
                 ["03000001"; "03000002"; "03000003"; "03000004";
                  "03000005"])
              (ProcessingResult_new 5) 0)
    as (sizes & k & _ & H2 & _ & H4).
  - simpl. lia.
  - exists sizes. split; [exact H2|]. apply H4. left. reflexivity.
Defined.

Lemma counters_agree_with_records_witness :
  let config := {| BATCH_SIZE := 2; MAX_CONCURRENT_WORKERS := 2;
                   ENABLE_BATCH_PROCESSING := true |} in
  let accounts := map (fun u => {| cred_username := u; cred_password := p0 |})
                    ["03000001"; "03000002"; "03000003"] in
  tallied
    (results
       (snd (process_accounts_batch config repr0 no_element no_element
               no_json no_error_element listing_ok second_cancelled
               (fun _ => None) chat_ok db_ok accounts
               (ProcessingResult_new 3) 0))).
Proof.
  cbv zeta.
  apply (counters_agree_with_records
           {| BATCH_SIZE := 2; MAX_CONCURRENT_WORKERS := 2;
              ENABLE_BATCH_PROCESSING := true |}
           repr0 no_element no_element no_json no_error_element listing_ok
           second_cancelled (fun _ => None) chat_ok db_ok).
  split; [reflexivity|]. split; reflexivity.
Defined.

End BotLaws.

(** ** The sequential fallback of the orchestrator *)

Module SequentialLaws.

Import Models Bot BotView BotFacts Sequential SequentialFacts.

Section Run.

Variable repr : Py.value -> string.
Variable find_class_text : string -> string -> option string.
Variable select_one_text : string -> string -> option string.
Variable json_loads : string -> option Py.value.
Variable html_error_text : string -> option string.
Variable debug_listing : string -> option string.
Variable world : nat -> task_world.
Variable reply_raises : nat -> message -> option string.
Variable db_raises : db_call -> option string.

(** X16. When the chat delivers its messages and no call of
    [process_account] is ended by a [BaseException], a run of
    [process_accounts_sequential] over [N] accounts adds exactly [N]
    records, one per account in the order of submission, each with a
    terminal status; the counters move by [N] in total and the
    notifications are numbered from [processed_count + 1] in the order
    of the records.  The run returns (also for [N = 0]) when the two
    saves go through. *)
Theorem sequential_one_record_per_account
  (accounts : list AccountCredentials) (results0 : ProcessingResult)
  (processed_count0 : Z) :
  chat_delivers reply_raises -> no_task_cancelled world ->
  let out := process_accounts_sequential repr find_class_text
               select_one_text json_loads html_error_text debug_listing
               world reply_raises db_raises accounts results0
               processed_count0 in
  exists records,
    Models.results (results (snd out))
    = (Models.results results0 ++ records)%list
    /\ List.length records = List.length accounts
    /\ map username records = map cred_username accounts
    /\ Forall terminal records
    /\ counted (results (snd out))
       = counted results0 + Z.of_nat (List.length accounts)
    /\ processed_count (snd out)
       = processed_count0 + Z.of_nat (List.length accounts)
    /\ sent (events (snd out))
       = numbered processed_count0 (Z.of_nat (List.length accounts)) records
    /\ (database_saves db_raises -> fst out = Returned tt).
Proof.
  intros Hc Hw.
  destruct (sequential_run repr find_class_text select_one_text json_loads
              html_error_text debug_listing world reply_raises db_raises
              accounts results0 processed_count0 Hc Hw)
    as (records & Hp & Hu & Ht & _ & _ & Hret).
  cbv zeta in *.
  destruct Hp as ((A & _ & C & D & _) & S & _).
  cbn [initial results processed_count events sent app] in A, C, D, S.
  rewrite firstn_all in S.
  assert (Hlen : List.length records = List.length accounts).
  { rewrite <- (length_map username records), Hu. apply length_map. }
  exists records. rewrite <- Hlen.
  split; [exact A|]. split; [reflexivity|]. split; [exact Hu|].
  split; [exact Ht|]. split; [exact D|]. split; [exact C|].
  split; [|exact Hret]. now rewrite <- Hlen in S.
Qed.

(** X17. In sequential mode a notification that cannot be sent is taken
    for a failure of the account: when [process_account] returned a
    record and sending it raises with markdown and without, the loop
    body adds a second record for the same account, with status "Error"
    and the text of the second exception, so that the account is counted
    twice; only the second record is notified. *)
Theorem failed_notification_duplicates_the_record (total : Z)
  (account : AccountCredentials) (s : run_state) (r : AccountData)
  (e1 e : string) :
  let again :=
    AccountData_init (cred_username account) "Error" (failure_text e) in
  run_task repr find_class_text select_one_text json_loads html_error_text
    debug_listing world (created s) account = Value r ->
  reply_raises (replies s)
    (AccountResult r (processed_count s + 1) total true) = Some e1 ->
  reply_raises (S (replies s))
    (AccountResult r (processed_count s + 1) total false) = Some e ->
  reply_raises (S (S (replies s)))
    (AccountResult again (processed_count s + 2) total true) = None ->
  exists s',
    step repr find_class_text select_one_text json_loads html_error_text
      debug_listing world reply_raises total account s = (Returned tt, s')
    /\ Models.results (results s')
       = (Models.results (results s) ++ [r; again])%list
    /\ processed_count s' = processed_count s + 2
    /\ counted (results s') = counted (results s) + 2
    /\ sent (events s')
       = (sent (events s) ++ [(again, processed_count s + 2, total)])%list.
Proof.
  intros again Et H1 H2 H3. rewrite step_unfold. cbv zeta. rewrite Et.
  rewrite !record_and_send_unfold.
  unfold send_account_result at 1. unfold catch, reply_text.
  cbn [replies processed_count counted_in added spawned called].
  rewrite H1.
  cbn [replies processed_count counted_in added spawned called].
  rewrite H2.
  rewrite record_and_send_unfold.
  unfold send_account_result, catch, reply_text.
  cbn [replies processed_count counted_in added spawned called].
  replace (processed_count s + 1 + 1) with (processed_count s + 2) by lia.
  fold again. rewrite H3.
  eexists. split; [reflexivity|].
  cbn [emit results processed_count events counted_in added spawned called].
  destruct (add_result_spec again (add_result r (results s)))
    as (A & B & _).
  destruct (add_result_spec r (results s)) as (A' & B' & _).
  rewrite A, B, A', B', sent_app, <- app_assoc. simpl.
  repeat split; lia.
Qed.

End Run.

Import Scenario.

Lemma sequential_one_record_per_account_witness :
  let accounts := map (fun u => {| cred_username := u; cred_password := p0 |})
                    ["03000001"; "03000002"; "03000003"] in
  let out := process_accounts_sequential repr0 no_element no_element
               no_json no_error_element listing_ok rejected_world chat_ok
               db_ok accounts (ProcessingResult_new 3) 0 in
  fst out = Returned tt
  /\ map username (Models.results (results (snd out)))
     = ["03000001"; "03000002"; "03000003"]
  /\ failed (results (snd out)) = 3.
Proof.
  cbv zeta.
  destruct (sequential_one_record_per_account repr0 no_element no_element
              no_json no_error_element listing_ok rejected_world chat_ok
              db_ok
              (map (fun u => {| cred_username := u; cred_password := p0 |})
                 ["03000001"; "03000002"; "03000003"])
              (ProcessingResult_new 3) 0)
    as (records & H2 & _ & H3 & _ & _ & _ & _ & H4).
  - intros k m _. reflexivity.
  - intros k c m. discriminate.
  - split; [apply H4; intro call; reflexivity|]. split; [|reflexivity].
    cbv zeta in H2. rewrite H2. exact H3.
Defined.

Lemma failed_notification_duplicates_the_record_witness :
  let account := {| cred_username := u0; cred_password := p0 |} in
  let start := initial (ProcessingResult_new 1) 0 in
  exists s',
    step repr0 no_element no_element no_json no_error_element listing_ok
      rejected_world
      (fun k _ => if (k <? 2)%nat then Some "chat unreachable" else None)
      1 account start = (Returned tt, s')
    /\ map username (Models.results (results s')) = [u0; u0]
    /\ failed (results s') = 2
    /\ total_accounts (results s') = 1.
Proof.
  cbv zeta.
  destruct (failed_notification_duplicates_the_record repr0 no_element
              no_element no_json no_error_element listing_ok rejected_world
              (fun k _ => if (k <? 2)%nat then Some "chat unreachable"
                          else None)
              1 {| cred_username := u0; cred_password := p0 |}
              (initial (ProcessingResult_new 1) 0)
              (fst (Scraper.process_account_with repr0 no_element no_element
                      no_json no_error_element listing_ok
                      (acquired (rejected_world 0))
                      (exchange (rejected_world 0))
                      (fetched (rejected_world 0))
                      {| cred_username := u0; cred_password := p0 |}))
              "chat unreachable" "chat unreachable")
    as (s' & Es & Hr & _).
  - reflexivity.
  - reflexivity.
  - reflexivity.
  - reflexivity.
  - exists s'. split; [exact Es|]. rewrite Hr.
    split; [reflexivity|].
    vm_compute in Es. injection Es as <-. split; reflexivity.
Defined.

End SequentialLaws.

(** ** Stripping and matching *)

Module StripFacts.

Import Py.

Lemma append_assoc (a b c : string) : ((a ++ b) ++ c = a ++ (b ++ c))%string.
Proof. induction a as [|x a IH]; simpl; [reflexivity|now rewrite IH]. Qed.

Lemma append_nil_r (a : string) : (a ++ EmptyString)%string = a.
Proof. induction a as [|x a IH]; simpl; [reflexivity|now rewrite IH]. Qed.

Lemma append_length (a b : string) :
  String.length (a ++ b) = (String.length a + String.length b)%nat.
Proof. induction a as [|x a IH]; simpl; [reflexivity|now rewrite IH]. Qed.

Lemma append_nonempty_r (a : string) (c : ascii) (b : string) :
  (a ++ String c b)%string <> EmptyString.
Proof. destruct a; discriminate. Qed.

Lemma rev_string_acc (s acc : string) :
  rev_string s acc = (rev_string s EmptyString ++ acc)%string.
Proof.
  revert acc. induction s as [|c t IH]; intro acc; simpl; [reflexivity|].
  rewrite (IH (String c acc)), (IH (String c EmptyString)).
  now rewrite append_assoc.
Qed.

Lemma rev_string_app (a b acc : string) :
  rev_string (a ++ b) acc = rev_string b (rev_string a acc).
Proof.
  revert acc. induction a as [|c a IH]; intro acc; simpl;
    [reflexivity|apply IH].
Qed.

Lemma lstrip_head (s : string) (c : ascii) (t : string) :
  lstrip s = String c t -> is_space c = false.
Proof.
  induction s as [|d s IH]; simpl; [discriminate|].
  destruct (is_space d) eqn:E; [exact IH|].
  intro H. now injection H as <- _.
Qed.

(** What [strip] returns is empty or ends with a character that is not
    white space. *)
Lemma strip_last (s : string) :
  strip s = EmptyString
  \/ exists pre c, strip s = (pre ++ String c EmptyString)%string
                   /\ is_space c = false.
Proof.
  unfold strip, rstrip.
  destruct (lstrip (rev_string (lstrip s) EmptyString)) as [|c t] eqn:E.
  - now left.
  - right. exists (rev_string t EmptyString), c.
    split; [|exact (lstrip_head _ _ _ E)].
    simpl. apply rev_string_acc.
Qed.

Lemma lstrip_keeps_end (pre : string) (c : ascii) :
  is_space c = false ->
  exists pre', lstrip (pre ++ String c EmptyString)
               = (pre' ++ String c EmptyString)%string.
Proof.
  intro Hc. induction pre as [|d pre IH]; simpl.
  - rewrite Hc. now exists EmptyString.
  - destruct (is_space d); [exact IH|].
    now exists (String d pre).
Qed.

(** A text that ends with a character that is not white space does not
    strip to the empty text. *)
Lemma strip_keeps_end (pre : string) (c : ascii) :
  is_space c = false ->
  strip (pre ++ String c EmptyString) <> EmptyString.
Proof.
  intro Hc. unfold strip, rstrip.
  destruct (lstrip_keeps_end pre c Hc) as [pre' ->].
  rewrite rev_string_app. simpl. rewrite Hc. simpl.
  rewrite rev_string_acc. apply append_nonempty_r.
Qed.

Lemma prefix_app (a b : string) : prefix (String.length a) (a ++ b) = a.
Proof. induction a as [|c a IH]; simpl; [now destruct b|now rewrite IH]. Qed.

End StripFacts.

Module ReFacts.

Import Re StripFacts.

(** The loop of [Star], given what is known of its body. *)
Lemma star_loop_sound (r1 : regex)
  (IH1 : forall (A : Type) (prev : option ascii) (rest : string)
                (cap : option string)
                (k : option ascii -> string -> option string -> option A)
                (x : A),
      run r1 prev rest cap k = Some x ->
      exists prev' rest' cap' pre,
        k prev' rest' cap' = Some x /\ rest = (pre ++ rest')%string)
  (A : Type) (k : option ascii -> string -> option string -> option A)
  (x : A) :
  forall (n : nat) (prev : option ascii) (rest : string)
         (cap : option string),
    (fix loop (n : nat) (prev : option ascii) (rest : string)
         (cap : option string) {struct n} : option A :=
       match n with
       | O => k prev rest cap
       | S n' =>
           match run r1 prev rest cap
                   (fun prev' rest' cap' =>
                      if (String.length rest' <? String.length rest)%nat
                      then loop n' prev' rest' cap' else None) with
           | Some x => Some x
           | None => k prev rest cap
           end
       end) n prev rest cap = Some x ->
    exists prev' rest' cap' pre,
      k prev' rest' cap' = Some x /\ rest = (pre ++ rest')%string.
Proof.
  induction n as [|n IHn]; intros prev rest cap H.
  - exists prev, rest, cap, EmptyString. now split.
  - match type of H with
    | match ?t with _ => _ end = _ => destruct t as [y|] eqn:E
    end.
    + injection H as <-.
      apply IH1 in E as (p1 & t1 & c1 & pre1 & E & ->).
      destruct (String.length t1 <? String.length (pre1 ++ t1))%nat;
        [|discriminate].
      apply IHn in E as (p2 & t2 & c2 & pre2 & E & ->).
      exists p2, t2, c2, (pre1 ++ pre2)%string.
      split; [exact E|]. now rewrite append_assoc.
    + exists prev, rest, cap, EmptyString. now split.
Qed.

(** Whatever a pattern matches, the continuation is answered at a
    position further on in the text. *)
Lemma run_sound (r : regex) :
  forall (A : Type) (prev : option ascii) (rest : string)
         (cap : option string)
         (k : option ascii -> string -> option string -> option A) (x : A),
    run r prev rest cap k = Some x ->
    exists prev' rest' cap' pre,
      k prev' rest' cap' = Some x /\ rest = (pre ++ rest')%string.
Proof.
  induction r as [|p|r1 IH1 r2 IH2|r1 IH1 r2 IH2|r1 IH1|r1 IH1| |];
    intros A prev rest cap k x H.
  - exists prev, rest, cap, EmptyString. now split.
  - simpl in H. destruct rest as [|c t]; [discriminate|].
    destruct (p c); [|discriminate].
    exists (Some c), t, cap, (String c EmptyString). now split.
  - simpl in H. apply IH1 in H as (p1 & t1 & c1 & pre1 & H & ->).
    apply IH2 in H as (p2 & t2 & c2 & pre2 & H & ->).
    exists p2, t2, c2, (pre1 ++ pre2)%string.
    split; [exact H|]. now rewrite append_assoc.
  - simpl in H. destruct (run r1 prev rest cap k) as [y|] eqn:E.
    + injection H as <-. now apply IH1 in E.
    + now apply IH2 in H.
  - exact (star_loop_sound r1 IH1 A k x (S (String.length rest)) prev rest
             cap H).
  - simpl in H. apply IH1 in H as (p1 & t1 & c1 & pre1 & H & ->).
    do 4 eexists. split; [exact H|reflexivity].
  - simpl in H. destruct (xorb _ _); [|discriminate].
    exists prev, rest, cap, EmptyString. now split.
  - simpl in H. destruct rest as [|c t].
    + exists prev, EmptyString, cap, EmptyString. now split.
    + destruct (Ascii.eqb c "010"); [|discriminate].
      exists prev, (String c t), cap, EmptyString. now split.
Qed.

(** A group around one character and more: what it captures is not
    empty, and it is the text between the place where the group starts
    and the place where the continuation is answered. *)
Lemma run_group_plus (p : ascii -> bool) (A : Type) (prev : option ascii)
  (rest : string) (cap : option string)
  (k : option ascii -> string -> option string -> option A) (x : A) :
  run (Group (plus (Chr p))) prev rest cap k = Some x ->
  exists prev' rest' c pre,
    k prev' rest' (Some (String c pre)) = Some x
    /\ rest = (String c pre ++ rest')%string.
Proof.
  intro H. unfold plus in H.
  change (run (Group (Seq (Chr p) (Star (Chr p)))) prev rest cap k)
    with (match rest with
          | String c t =>
              if p c
              then run (Star (Chr p)) (Some c) t cap
                     (fun prev' rest' _ =>
                        k prev' rest'
                          (Some (Py.prefix
                                   (String.length rest - String.length rest')
                                   rest)))
              else None
          | EmptyString => None
          end) in H.
  destruct rest as [|c t]; [discriminate|].
  destruct (p c); [|discriminate].
  apply run_sound in H as (p1 & t1 & c1 & pre1 & H & ->).
  exists p1, t1, c, pre1. split; [|reflexivity].
  replace (String.length (String c (pre1 ++ t1)) - String.length t1)%nat
    with (String.length (String c pre1)) in H
    by (cbn [String.length]; rewrite append_length; lia).
  change (String c (pre1 ++ t1)) with (String c pre1 ++ t1)%string in H.
  now rewrite prefix_app in H.
Qed.

End ReFacts.

(** ** [parse_message] *)

Module MessageLaws.

Import Py Message StripFacts ReFacts.

Lemma run_seq_sound (r1 r2 : Re.regex) (A : Type) (prev : option ascii)
  (rest : string) (cap : option string)
  (k : option ascii -> string -> option string -> option A) (x : A) :
  Re.run (Re.Seq r1 r2) prev rest cap k = Some x ->
  exists prev' rest' cap' pre,
    Re.run r2 prev' rest' cap' k = Some x /\ rest = (pre ++ rest')%string.
Proof.
  intro H.
  change (Re.run r1 prev rest cap
            (fun prev' rest' cap' => Re.run r2 prev' rest' cap' k) = Some x)
    in H.
  now apply run_sound in H.
Qed.

Lemma at_end_cases (post : string) :
  at_end post = true ->
  post = EmptyString \/ post = String "010" EmptyString.
Proof.
  destruct post as [|c [|d post]]; simpl; try discriminate; [now left|].
  intro H. apply Ascii.eqb_eq in H. subst c. now right.
Qed.

(** The second group of a password line: it is not empty and runs to the
    end of the line, or to a newline that ends it. *)
Lemma match_password_group (line g : string) :
  match_password line = Some g ->
  exists pre c body post,
    g = String c body
    /\ line = (pre ++ g ++ post)%string
    /\ (post = EmptyString \/ post = String "010" EmptyString).
Proof.
  unfold match_password.
  destruct (Re.run password_pattern None line None _) as [[g'|]|] eqn:E;
    try discriminate.
  intro H. injection H as ->. unfold password_pattern in E.
  apply run_seq_sound in E as (p1 & t1 & c1 & pre1 & E & ->).
  apply run_seq_sound in E as (p2 & t2 & c2 & pre2 & E & ->).
  apply run_seq_sound in E as (p3 & t3 & c3 & pre3 & E & ->).
  apply run_seq_sound in E as (p4 & t4 & c4 & pre4 & E & ->).
  unfold dot in E.
  apply run_group_plus in E as (p5 & post & c & body & E & ->).
  destruct (at_end post) eqn:Ee; [|discriminate].
  injection E as <-.
  exists (pre1 ++ pre2 ++ pre3 ++ pre4)%string, c, body, post.
  split; [reflexivity|]. split; [|now apply at_end_cases].
  now rewrite !append_assoc.
Qed.

Lemma append_last_inj (a b : string) (x y : ascii) :
  (a ++ String x EmptyString)%string = (b ++ String y EmptyString)%string ->
  x = y.
Proof.
  revert b. induction a as [|c a IH]; intros [|d b]; simpl; intro H.
  - now injection H.
  - injection H as _ H. destruct b; discriminate.
  - injection H as _ H. destruct a; discriminate.
  - injection H as _ H. now apply (IH b).
Qed.

Lemma append_last_of_suffix (a g b : string) (y : ascii) :
  g <> EmptyString ->
  (a ++ g)%string = (b ++ String y EmptyString)%string ->
  exists g', g = (g' ++ String y EmptyString)%string.
Proof.
  intro Hg. revert b. induction a as [|c a IH]; intros b H; simpl in H.
  - now exists b.
  - destruct b as [|d b]; simpl in H.
    + injection H as _ H. destruct a; [now elim Hg|discriminate].
    + injection H as _ H. now apply (IH b).
Qed.

Lemma password_nonempty (line g : string) :
  (exists x, line = strip x) ->
  match_password line = Some g ->
  Text.nonempty (strip g) = true.
Proof.
  intros [x Hx] Hm.
  destruct (match_password_group line g Hm)
    as (pre & c & body & post & Hg & Hl & Hpost).
  assert (Hne : strip g <> EmptyString).
  { destruct (strip_last x) as [E|(pre' & c' & E & Hc')];
      rewrite <- Hx in E.
    - rewrite E, Hg in Hl. destruct pre; discriminate.
    - destruct Hpost as [->| ->].
      + rewrite append_nil_r, E in Hl. symmetry in Hl.
        destruct (append_last_of_suffix pre g pre' c') as [g' ->];
          [rewrite Hg; discriminate|exact Hl|].
        now apply strip_keeps_end.
      + rewrite <- append_assoc, E in Hl.
        apply append_last_inj in Hl. subst c'. discriminate Hc'. }
  destruct (strip g); [now elim Hne|reflexivity].
Qed.

Lemma lines_stripped (message_text line : string) :
  In line (lines_of message_text) -> exists x, line = strip x.
Proof.
  unfold lines_of. intro I. apply filter_In in I as [I _].
  apply in_map_iff in I as (x & <- & _). now exists x.
Qed.

Lemma first_invalid_none (account_numbers : list string) :
  first_invalid account_numbers = None ->
  Forall (fun num => isdigit num = true) account_numbers.
Proof.
  induction account_numbers as [|num rest IH]; simpl; [constructor|].
  destruct (isdigit num) eqn:E; [|discriminate].
  intro H. constructor; [exact E|now apply IH].
Qed.

Section Settings.

Variable MAX_ACCOUNTS_PER_REQUEST : Z.
Variable default_password : option string.

(** What [parse_message] has checked when it returns. *)
Lemma parse_message_accepts (message_text : string)
  (account_numbers : list string) (password : string) :
  parse_message MAX_ACCOUNTS_PER_REQUEST default_password message_text
  = inl (account_numbers, password) ->
  account_numbers <> []
  /\ Forall (fun num => isdigit num = true) account_numbers
  /\ Z.of_nat (List.length account_numbers) <= MAX_ACCOUNTS_PER_REQUEST
  /\ Text.nonempty password = true
  /\ (lines_of message_text = account_numbers
      \/ exists line g,
           lines_of message_text = (account_numbers ++ [line])%list
           /\ match_password line = Some g
           /\ password = strip g).
Proof.
  unfold parse_message.
  set (lines := lines_of message_text).
  destruct (Nat.ltb_spec (List.length lines) 1) as [|Hlen]; [discriminate|].
  assert (Hne : lines <> []) by (destruct lines; [simpl in Hlen; lia|discriminate]).
  assert (Hfinish : forall (numbers : list string) (p : string),
    match numbers with
    | [] => inr NoAccountNumber
    | _ :: _ =>
        match first_invalid numbers with
        | Some num => inr (InvalidAccountNumber num)
        | None =>
            if MAX_ACCOUNTS_PER_REQUEST <? Z.of_nat (List.length numbers)
            then inr (TooManyAccounts MAX_ACCOUNTS_PER_REQUEST)
            else inl (numbers, p)
        end
    end = inl (account_numbers, password) ->
    numbers = account_numbers /\ p = password
    /\ account_numbers <> []
    /\ Forall (fun num => isdigit num = true) account_numbers
    /\ Z.of_nat (List.length account_numbers) <= MAX_ACCOUNTS_PER_REQUEST).
  { intros numbers p H.
    destruct numbers as [|n0 rest] eqn:En; [discriminate|]. rewrite <- En in *.
    destruct (first_invalid numbers) eqn:Ef; [discriminate|].
    destruct (Z.ltb_spec MAX_ACCOUNTS_PER_REQUEST
                (Z.of_nat (List.length numbers))); [discriminate|].
    injection H as <- <-.
    repeat split; try assumption; [congruence|now apply first_invalid_none]. }
  destruct (match_password (last lines EmptyString)) as [g|] eqn:Em.
  - intro H. apply Hfinish in H as (Hn & Hp & H1 & H2 & H3).
    split; [exact H1|]. split; [exact H2|]. split; [exact H3|].
    assert (Hin : In (last lines EmptyString) lines).
    { rewrite (app_removelast_last EmptyString Hne) at 2.
      apply in_or_app. right. now left. }
    split.
    + rewrite <- Hp.
      apply (password_nonempty (last lines EmptyString) g);
        [exact (lines_stripped message_text _ Hin)|exact Em].
    + right. exists (last lines EmptyString), g.
      split; [|split; [exact Em|now symmetry]].
      rewrite <- Hn. now apply app_removelast_last.
  - destruct default_password as [d|]; [|discriminate].
    destruct (Text.nonempty d) eqn:Ed; [|discriminate].
    intro H. apply Hfinish in H as (Hn & Hp & H1 & H2 & H3).
    split; [exact H1|]. split; [exact H2|]. split; [exact H3|].
    split; [now rewrite <- Hp|]. left. exact Hn.
Qed.

(** X18. When [parse_message] returns, the account numbers are the
    non-blank lines of the message, stripped and in order, without the
    final password line if there is one; there is at least one of them
    and at most [MAX_ACCOUNTS_PER_REQUEST], each is made of digits only,
    and the password, whether read from the message or the stored
    default, is not empty. *)
Theorem parse_message_contract (message_text : string)
  (account_numbers : list string) (password : string) :
  parse_message MAX_ACCOUNTS_PER_REQUEST default_password message_text
  = inl (account_numbers, password) ->
  account_numbers <> []
  /\ Forall (fun num => isdigit num = true) account_numbers
  /\ Z.of_nat (List.length account_numbers) <= MAX_ACCOUNTS_PER_REQUEST
  /\ Text.nonempty password = true
  /\ (lines_of message_text = account_numbers
      \/ exists line g,
           lines_of message_text = (account_numbers ++ [line])%list
           /\ match_password line = Some g
           /\ password = strip g).
Proof. apply parse_message_accepts. Qed.

End Settings.

Lemma parse_message_contract_witness :
  Forall (fun num => isdigit num = true) ["03123456"; "71000000"]
  /\ Text.nonempty "secret" = true.
Proof.
  destruct (parse_message_contract 1000 None
              ("03123456" ++ String "010" " 71000000 "
               ++ String "010" "Pass : secret")
              ["03123456"; "71000000"] "secret")
    as (_ & H2 & _ & H4 & _).
  - vm_compute. reflexivity.
  - split; assumption.
Defined.

End MessageLaws.

(** ** From the chat message to the records *)

Module FrontLaws.

Import Models Bot BotView BotFacts Sequential SequentialFacts Front.

Lemma validate_config_accepts (c : BotSettings) :
  fst (validate_config c) = true ->
  0 < MAX_ACCOUNTS_PER_REQUEST c <= 1000
  /\ 0 < BATCH_SIZE (batch c) <= 100
  /\ 0 < MAX_CONCURRENT_WORKERS (batch c) <= 50.
Proof.
  unfold validate_config.
  destruct (get_bot_token c) as [token|]; [|discriminate].
  destruct (negb (Text.nonempty token)); [discriminate|].
  destruct (String.eqb token placeholder); [discriminate|].
  destruct (Z.leb_spec (MAX_ACCOUNTS_PER_REQUEST c) 0); [discriminate|].
  destruct (Z.ltb_spec 1000 (MAX_ACCOUNTS_PER_REQUEST c)); [discriminate|].
  destruct (Z.leb_spec (BATCH_SIZE (batch c)) 0); [discriminate|].
  destruct (Z.ltb_spec 100 (BATCH_SIZE (batch c))); [discriminate|].
  destruct (Z.leb_spec (MAX_CONCURRENT_WORKERS (batch c)) 0);
    [discriminate|].
  destruct (Z.ltb_spec 50 (MAX_CONCURRENT_WORKERS (batch c)));
    [discriminate|].
  intros _. lia.
Qed.

Lemma credentials_of_usernames (account_numbers : list string)
  (password : string) :
  map cred_username (credentials_of account_numbers password)
  = account_numbers.
Proof.
  unfold credentials_of. rewrite map_map. simpl. apply map_id.
Qed.

Section Run.

Variable settings : BotSettings.
Variable default_password : option string.
Variable repr : Py.value -> string.
Variable find_class_text : string -> string -> option string.
Variable select_one_text : string -> string -> option string.
Variable json_loads : string -> option Py.value.
Variable html_error_text : string -> option string.
Variable debug_listing : string -> option string.
Variable world : nat -> task_world.
Variable gather_raises : nat -> option string.
Variable reply_raises : nat -> message -> option string.
Variable db_raises : db_call -> option string.

(** X19. Under settings that [validate_config] accepts, the account
    numbers and the password that [parse_message] returns make between
    one and a thousand accounts with a password that is not empty, and
    the step that [process_accounts_batch] gives to [range] is positive.
    Run on these accounts with the [ProcessingResult] that
    [process_accounts] creates for them, the orchestrator of either mode
    adds, when the chat delivers its messages and no task is ended by a
    [BaseException], exactly one record per account number of the
    message, in order and under that number, each with a terminal
    status, so that the three counters add up to [total_accounts]; it
    returns when the two saves go through.  What [process_accounts] does
    before and after the orchestrator (the transaction and request
    entries of the database, the user's account count, the final
    summary) is not part of the statement. *)
Theorem accepted_message_is_processed (message_text : string)
  (account_numbers : list string) (password : string) :
  fst (validate_config settings) = true ->
  Message.parse_message (MAX_ACCOUNTS_PER_REQUEST settings)
    default_password message_text = inl (account_numbers, password) ->
  let accounts := credentials_of account_numbers password in
  let total := Z.of_nat (List.length accounts) in
  let fresh := ProcessingResult_new total in
  let ended_well (out : ended unit * run_state) :=
    map username (Models.results (results (snd out))) = account_numbers
    /\ Forall terminal (Models.results (results (snd out)))
    /\ total_accounts (results (snd out)) = total
    /\ counted (results (snd out)) = total
    /\ (database_saves db_raises -> fst out = Returned tt) in
  List.length accounts = List.length account_numbers
  /\ 1 <= total <= 1000
  /\ Text.nonempty password = true
  /\ 0 < Z.min (BATCH_SIZE (batch settings)) total
  /\ (chat_delivers reply_raises -> no_task_cancelled world ->
      ended_well
        (process_accounts_batch (batch settings) repr find_class_text
           select_one_text json_loads html_error_text debug_listing world
           gather_raises reply_raises db_raises accounts fresh 0)
      /\ ended_well
           (process_accounts_sequential repr find_class_text select_one_text
              json_loads html_error_text debug_listing world reply_raises
              db_raises accounts fresh 0)).
Proof.
  intros Hv Hp.
  destruct (validate_config_accepts settings Hv) as (Hmax & Hbatch & _).
  destruct (MessageLaws.parse_message_accepts _ _ _ _ _ Hp)
    as (Hne & _ & Hlen & Hpw & _).
  cbv zeta.
  set (accounts := credentials_of account_numbers password).
  assert (Hu : map cred_username accounts = account_numbers)
    by apply credentials_of_usernames.
  assert (Hl : List.length accounts = List.length account_numbers)
    by apply length_map.
  assert (Hpos : (1 <= List.length account_numbers)%nat)
    by (destruct account_numbers; [now elim Hne|simpl; lia]).
  assert (Hacc : accounts <> [])
    by (intro E; rewrite E in Hl; simpl in Hl; lia).
  split; [exact Hl|]. split; [lia|]. split; [exact Hpw|]. split; [lia|].
  intros Hc Hw. split.
  - destruct (batch_run (batch settings) repr find_class_text
                select_one_text json_loads html_error_text debug_listing
                world gather_raises reply_raises db_raises accounts
                (ProcessingResult_new (Z.of_nat (List.length accounts))) 0
                (proj1 Hbatch))
      as (records & j & sizes & k & Hpr & _ & Hn & Ht & _ & _ & _ & _ & _
          & Hfull & Hret).
    cbv zeta in *.
    destruct Hpr as ((A & _ & _ & D & T) & _).
    cbn [initial results] in A, D, T.
    destruct (Hfull (or_intror (conj Hc Hw))) as (_ & Hlen' & _).
    rewrite A, D, T. simpl.
    split; [now rewrite Hn, Hlen', firstn_all|].
    split; [exact Ht|]. split; [reflexivity|].
    split; [unfold counted; simpl; lia|].
    intro Hd. exact (Hret Hacc Hc Hw Hd).
  - destruct (sequential_run repr find_class_text select_one_text
                json_loads html_error_text debug_listing world reply_raises
                db_raises accounts
                (ProcessingResult_new (Z.of_nat (List.length accounts))) 0
                Hc Hw)
      as (records & Hpr & Hn & Ht & _ & _ & Hret).
    cbv zeta in *.
    destruct Hpr as ((A & _ & _ & D & T) & _).
    cbn [initial results] in A, D, T.
    assert (Hlen' : List.length records = List.length accounts).
    { rewrite <- (length_map username records), Hn. apply length_map. }
    rewrite A, D, T. simpl.
    split; [now rewrite Hn|].
    split; [exact Ht|]. split; [reflexivity|].
    split; [unfold counted; simpl; lia|exact Hret].
Qed.

End Run.

Import Scenario.

Lemma accepted_message_is_processed_witness :
  let settings :=
    {| TELEGRAM_BOT_TOKEN := Some "token-from-the-environment";
       BOT_TOKEN := EmptyString;
       MAX_ACCOUNTS_PER_REQUEST := 1000;
       batch := bot_config;
       BATCH_DELAY := Py.float_of_decimal false 1 (-1);
       REQUEST_DELAY := Py.float_of_decimal false 5 (-2) |} in
  let accounts := credentials_of ["03123456"; "71000000"] "secret" in
  let out := process_accounts_batch (batch settings) repr0 no_element
               no_element no_json no_error_element listing_ok
               rejected_world (fun _ => None) chat_ok db_ok accounts
               (ProcessingResult_new 2) 0 in
  validate_config settings
  = (true,
     "Configuration is valid. Warnings: High concurrency settings may cause rate limiting.")
  /\ fst out = Returned tt
  /\ map username (Models.results (results (snd out)))
     = ["03123456"; "71000000"].
Proof.
  cbv zeta. split; [vm_compute; reflexivity|].
  destruct (accepted_message_is_processed
              {| TELEGRAM_BOT_TOKEN := Some "token-from-the-environment";
                 BOT_TOKEN := EmptyString;
                 MAX_ACCOUNTS_PER_REQUEST := 1000;
                 batch := bot_config;
                 BATCH_DELAY := Py.float_of_decimal false 1 (-1);
                 REQUEST_DELAY := Py.float_of_decimal false 5 (-2) |}
              None repr0 no_element no_element no_json no_error_element
              listing_ok rejected_world (fun _ => None) chat_ok db_ok
              ("03123456" ++ String "010" " 71000000 "
               ++ String "010" "Pass : secret")
              ["03123456"; "71000000"] "secret")
    as (_ & _ & _ & _ & H).
  - vm_compute. reflexivity.
  - vm_compute. reflexivity.
  - destruct H as ((H1 & _ & _ & _ & H2) & _).
    + intros k m _. reflexivity.
    + intros k c m. discriminate.
    + split; [apply H2; intro call; reflexivity|exact H1].
Defined.

End FrontLaws.

(** ** Reading the accounts and writing the results *)

Module CliLaws.

Import Models Py Cli.

Lemma zeros_length (n : nat) : String.length (zeros n) = n.
Proof. induction n as [|n IH]; simpl; [reflexivity|now rewrite IH]. Qed.

Lemma zeros_digits (n : nat) (s : string) :
  all_chars is_digit (zeros n ++ s) = all_chars is_digit s.
Proof. induction n as [|n IH]; simpl; [reflexivity|exact IH]. Qed.

Lemma digit_is_no_sign (c : ascii) :
  is_digit c = true -> Ascii.eqb c "+" || Ascii.eqb c "-" = false.
Proof.
  intro H.
  destruct (Ascii.eqb_spec c "+") as [->|_]; [discriminate H|].
  destruct (Ascii.eqb_spec c "-") as [->|_]; [discriminate H|reflexivity].
Qed.

Lemma zfill_digits (s : string) :
  isdigit s = true ->
  zfill 8 s = (zeros (8 - String.length s) ++ s)%string.
Proof.
  unfold isdigit, zfill. destruct s as [|c t]; [discriminate|].
  cbn [Text.nonempty all_chars andb]. intro H.
  apply andb_prop in H as [Hc _]. now rewrite (digit_is_no_sign c Hc).
Qed.

(** What the formatting of a user name does to a number of at most eight
    digits, and to any other text. *)
Lemma format_username_spec (raw : string) :
  (isdigit (strip raw) = true ->
   (String.length (strip raw) <= 8)%nat ->
   format_username raw
   = (zeros (8 - String.length (strip raw)) ++ strip raw)%string
   /\ String.length (format_username raw) = 8%nat
   /\ isdigit (format_username raw) = true)
  /\ (isdigit (strip raw) = false \/ (8 < String.length (strip raw))%nat ->
      format_username raw = strip raw).
Proof.
  unfold format_username. split.
  - intros Hd Hl. rewrite Hd. apply Nat.leb_le in Hl as Hl'. rewrite Hl'.
    cbn [andb]. rewrite (zfill_digits _ Hd).
    split; [reflexivity|]. split.
    + rewrite StripFacts.append_length, zeros_length. lia.
    + unfold isdigit in *. apply andb_prop in Hd as [Hn Ha].
      rewrite zeros_digits, Ha.
      destruct (zeros (8 - String.length (strip raw))); simpl;
        [now rewrite Hn|reflexivity].
  - intros [Hd|Hl].
    + now rewrite Hd.
    + destruct (Nat.leb_spec (String.length (strip raw)) 8); [lia|].
      now rewrite andb_false_r.
Qed.

Lemma account_of_row_spec (row : csv_row) (a : AccountCredentials) :
  account_of_row row = Some a ->
  exists u p,
    row_username row = Some u /\ row_password row = Some p
    /\ Text.nonempty u = true /\ Text.nonempty p = true
    /\ a = {| cred_username := format_username u; cred_password := p |}.
Proof.
  unfold account_of_row.
  destruct (row_username row) as [u|]; [|discriminate].
  destruct (row_password row) as [p|]; [|discriminate].
  destruct (Text.nonempty u) eqn:Eu; [|discriminate].
  destruct (Text.nonempty p) eqn:Ep; [|discriminate].
  intro H. injection H as <-. now exists u, p.
Qed.

Lemma accounts_of_rows_in (rows : list csv_row) (a : AccountCredentials) :
  In a (accounts_of_rows rows) <->
  exists row, In row rows /\ account_of_row row = Some a.
Proof.
  induction rows as [|row rows IH]; simpl.
  - split; [intros []|intros (row & [] & _)].
  - destruct (account_of_row row) as [b|] eqn:E; simpl; rewrite IH.
    + split.
      * intros [<-|(r & I & H)]; [exists row; tauto|exists r; tauto].
      * intros (r & [<-|I] & H); [left; congruence|right; now exists r].
    + split.
      * intros (r & I & H). exists r. tauto.
      * intros (r & [<-|I] & H); [congruence|now exists r].
Qed.

Lemma accounts_of_rows_length (rows : list csv_row) :
  (List.length (accounts_of_rows rows) <= List.length rows)%nat.
Proof.
  induction rows as [|row rows IH]; simpl; [lia|].
  destruct (account_of_row row); simpl; lia.
Qed.

(** X20. Every account [load_accounts] returns comes from a row with a
    non-empty user name and a non-empty password; it carries that
    password unchanged and the formatted user name, and a user name made
    of digits only has at least eight of them, a number of at most eight
    digits having been padded with zeros on the left to exactly eight.
    Rows are never duplicated, and a missing or unreadable file or a
    file without the two columns gives no account. *)
Theorem load_accounts_contract (src : csv_source) :
  Forall
    (fun a =>
       Text.nonempty (cred_password a) = true
       /\ (isdigit (cred_username a) = true ->
           (8 <= String.length (cred_username a))%nat))
    (load_accounts src)
  /\ (forall a, In a (load_accounts src) ->
        exists fieldnames rows e u p,
          src = Opened (Some fieldnames) rows e
          /\ In "username" fieldnames /\ In "password" fieldnames
          /\ In {| row_username := Some u; row_password := Some p |} rows
          /\ u <> EmptyString
          /\ cred_password a = p
          /\ cred_username a = format_username u
          /\ (isdigit (strip u) = true ->
              (String.length (strip u) <= 8)%nat ->
              cred_username a
              = (zeros (8 - String.length (strip u)) ++ strip u)%string))
  /\ (forall fieldnames rows e,
        src = Opened (Some fieldnames) rows e ->
        (List.length (load_accounts src) <= List.length rows)%nat)
  /\ ((forall fieldnames rows e,
         src = Opened (Some fieldnames) rows e ->
         ~ In "username" fieldnames \/ ~ In "password" fieldnames) ->
      load_accounts src = []).
Proof.
  assert (Hmem : forall (k : string) (l : list string),
             existsb (String.eqb k) l = true <-> In k l).
  { intros k l. rewrite existsb_exists. split.
    - intros (x & I & E). apply String.eqb_eq in E. now subst.
    - intro I. exists k. split; [exact I|apply String.eqb_refl]. }
  assert (Hsrc : forall a, In a (load_accounts src) ->
    exists fieldnames rows e row,
      src = Opened (Some fieldnames) rows e
      /\ In "username" fieldnames /\ In "password" fieldnames
      /\ In row rows /\ account_of_row row = Some a).
  { intros a I. destruct src as [|msg|[fieldnames|] rows e];
      try (now destruct I).
    unfold load_accounts in I.
    destruct (existsb (String.eqb "username") fieldnames) eqn:Eu;
      [|simpl in I; now destruct I].
    destruct (existsb (String.eqb "password") fieldnames) eqn:Ep;
      [|simpl in I; now destruct I].
    simpl in I. apply accounts_of_rows_in in I as (row & Ir & Ha).
    exists fieldnames, rows, e, row. rewrite <- !Hmem. tauto. }
  split; [|split; [|split]].
  - apply Forall_forall. intros a I.
    destruct (Hsrc a I) as (fieldnames & rows & e & row & _ & _ & _ & _ & Ha).
    destruct (account_of_row_spec row a Ha) as (u & p & _ & _ & _ & Hp & ->).
    split; [exact Hp|]. cbn [cred_username]. intro Hd.
    destruct (format_username_spec u) as [Hpad Hkeep].
    destruct (isdigit (strip u)) eqn:Es.
    + destruct (Nat.leb_spec (String.length (strip u)) 8) as [Hl|Hl].
      * destruct (Hpad eq_refl Hl) as (_ & -> & _). lia.
      * rewrite (Hkeep (or_intror Hl)). lia.
    + rewrite (Hkeep (or_introl eq_refl)) in Hd. congruence.
  - intros a I.
    destruct (Hsrc a I)
      as (fieldnames & rows & e & row & Es & Hu & Hp & Ir & Ha).
    destruct (account_of_row_spec row a Ha)
      as (u & p & Eu & Ep & Hnu & Hnp & ->).
    exists fieldnames, rows, e, u, p. cbn [cred_username cred_password].
    repeat split; try assumption.
    + destruct row as [ru rp]. simpl in Eu, Ep. now subst.
    + intros ->. discriminate Hnu.
    + intros Hd Hl.
      now destruct (proj1 (format_username_spec u) Hd Hl) as (-> & _).
  - intros fieldnames rows e ->. unfold load_accounts.
    destruct (negb _ || negb _); simpl; [lia|apply accounts_of_rows_length].
  - intro H. destruct src as [|msg|[fieldnames|] rows e]; try reflexivity.
    unfold load_accounts.
    destruct (H fieldnames rows e eq_refl) as [N|N];
      rewrite <- Hmem in N.
    + destruct (existsb (String.eqb "username") fieldnames);
        [now elim N|reflexivity].
    + destruct (existsb (String.eqb "password") fieldnames);
        [now elim N|]. now rewrite orb_true_r.
Qed.

(** Three rows: a short number is padded, a row without password is
    skipped, a user name of blanks is kept as the empty name. *)
Example load_accounts_on_three_rows :
  load_accounts
    (Opened (Some ["username"; "password"])
       [{| row_username := Some " 3123456 "; row_password := Some "pw" |};
        {| row_username := Some "71000000"; row_password := Some EmptyString |};
        {| row_username := Some "  "; row_password := Some "x" |}]
       None)
  = [{| cred_username := "03123456"; cred_password := "pw" |};
     {| cred_username := EmptyString; cred_password := "x" |}].
Proof. reflexivity. Qed.

(** *** [write_results] *)








End CliLaws.

(** ** What the date patterns capture *)

Module ShapeFacts.

Import Py Re Shape StripFacts ReFacts.

Lemma all_chars_app (q : ascii -> bool) (a b : string) :
  all_chars q (a ++ b) = all_chars q a && all_chars q b.
Proof.
  induction a as [|c a IH]; simpl; [reflexivity|].
  now rewrite IH, andb_assoc.
Qed.

Lemma star_loop_within (q : ascii -> bool) (r1 : regex)
  (IH1 : forall (A : Type) (prev : option ascii) (rest : string)
                (cap : option string)
                (k : option ascii -> string -> option string -> option A)
                (x : A),
      run r1 prev rest cap k = Some x ->
      exists prev' rest' cap' pre,
        k prev' rest' cap' = Some x /\ rest = (pre ++ rest')%string
        /\ all_chars q pre = true)
  (A : Type) (k : option ascii -> string -> option string -> option A)
  (x : A) :
  forall (n : nat) (prev : option ascii) (rest : string)
         (cap : option string),
    (fix loop (n : nat) (prev : option ascii) (rest : string)
         (cap : option string) {struct n} : option A :=
       match n with
       | O => k prev rest cap
       | S n' =>
           match run r1 prev rest cap
                   (fun prev' rest' cap' =>
                      if (String.length rest' <? String.length rest)%nat
                      then loop n' prev' rest' cap' else None) with
           | Some x => Some x
           | None => k prev rest cap
           end
       end) n prev rest cap = Some x ->
    exists prev' rest' cap' pre,
      k prev' rest' cap' = Some x /\ rest = (pre ++ rest')%string
      /\ all_chars q pre = true.
Proof.
  induction n as [|n IHn]; intros prev rest cap H.
  - exists prev, rest, cap, EmptyString. now repeat split.
  - match type of H with
    | match ?t with _ => _ end = _ => destruct t as [y|] eqn:E
    end.
    + injection H as <-.
      apply IH1 in E as (p1 & t1 & c1 & pre1 & E & -> & Q1).
      destruct (String.length t1 <? String.length (pre1 ++ t1))%nat;
        [|discriminate].
      apply IHn in E as (p2 & t2 & c2 & pre2 & E & -> & Q2).
      exists p2, t2, c2, (pre1 ++ pre2)%string.
      split; [exact E|]. split; [now rewrite append_assoc|].
      now rewrite all_chars_app, Q1, Q2.
    + exists prev, rest, cap, EmptyString. now repeat split.
Qed.

(** What a pattern matches is made of characters of its classes. *)
Lemma run_within (q : ascii -> bool) (r : regex) :
  chars_within q r ->
  forall (A : Type) (prev : option ascii) (rest : string)
         (cap : option string)
         (k : option ascii -> string -> option string -> option A) (x : A),
    run r prev rest cap k = Some x ->
    exists prev' rest' cap' pre,
      k prev' rest' cap' = Some x /\ rest = (pre ++ rest')%string
      /\ all_chars q pre = true.
Proof.
  induction r as [|p|r1 IH1 r2 IH2|r1 IH1 r2 IH2|r1 IH1|r1 IH1| |];
    intros Hq A prev rest cap k x H; simpl in Hq.
  - exists prev, rest, cap, EmptyString. now repeat split.
  - simpl in H. destruct rest as [|c t]; [discriminate|].
    destruct (p c) eqn:Ep; [|discriminate].
    exists (Some c), t, cap, (String c EmptyString).
    split; [exact H|]. split; [reflexivity|].
    simpl. now rewrite (Hq c Ep).
  - destruct Hq as [Hq1 Hq2]. simpl in H.
    apply (IH1 Hq1) in H as (p1 & t1 & c1 & pre1 & H & -> & Q1).
    apply (IH2 Hq2) in H as (p2 & t2 & c2 & pre2 & H & -> & Q2).
    exists p2, t2, c2, (pre1 ++ pre2)%string.
    split; [exact H|]. split; [now rewrite append_assoc|].
    now rewrite all_chars_app, Q1, Q2.
  - destruct Hq as [Hq1 Hq2]. simpl in H.
    destruct (run r1 prev rest cap k) as [y|] eqn:E.
    + injection H as <-. now apply (IH1 Hq1) in E.
    + now apply (IH2 Hq2) in H.
  - exact (star_loop_within q r1 (IH1 Hq) A k x (S (String.length rest))
             prev rest cap H).
  - simpl in H. apply (IH1 Hq) in H as (p1 & t1 & c1 & pre1 & H & -> & Q1).
    do 4 eexists. split; [exact H|]. now split.
  - simpl in H. destruct (xorb _ _); [|discriminate].
    exists prev, rest, cap, EmptyString. now repeat split.
  - simpl in H. destruct rest as [|c t].
    + exists prev, EmptyString, cap, EmptyString. now repeat split.
    + destruct (Ascii.eqb c "010"); [|discriminate].
      exists prev, (String c t), cap, EmptyString. now repeat split.
Qed.

(** A group around one character of a class and more: what it captures
    is a non-empty text of that class. *)
Lemma run_group_plus_within (p : ascii -> bool) (A : Type)
  (prev : option ascii) (rest : string) (cap : option string)
  (k : option ascii -> string -> option string -> option A) (x : A) :
  run (Group (plus (Chr p))) prev rest cap k = Some x ->
  exists prev' rest' g,
    k prev' rest' (Some g) = Some x
    /\ Text.nonempty g = true /\ all_chars p g = true.
Proof.
  intro H. unfold plus in H.
  change (run (Group (Seq (Chr p) (Star (Chr p)))) prev rest cap k)
    with (match rest with
          | String c t =>
              if p c
              then run (Star (Chr p)) (Some c) t cap
                     (fun prev' rest' _ =>
                        k prev' rest'
                          (Some (Py.prefix
                                   (String.length rest - String.length rest')
                                   rest)))
              else None
          | EmptyString => None
          end) in H.
  destruct rest as [|c t]; [discriminate|].
  destruct (p c) eqn:Ep; [|discriminate].
  apply (run_within p (Star (Chr p))) in H
    as (p1 & t1 & c1 & pre1 & H & -> & Q); [|simpl; trivial].
  exists p1, t1, (String c pre1).
  replace (String.length (String c (pre1 ++ t1)) - String.length t1)%nat
    with (String.length (String c pre1)) in H
    by (cbn [String.length]; rewrite append_length; lia).
  change (String c (pre1 ++ t1)) with (String c pre1 ++ t1)%string in H.
  rewrite prefix_app in H.
  split; [exact H|]. split; [reflexivity|]. simpl. now rewrite Ep, Q.
Qed.

Lemma search_from_sound (r : regex) (s : string) :
  forall (prev : option ascii) (x : string * option string),
    search_from r prev s = Some x ->
    exists prev' s', match_here r prev' s' = Some x.
Proof.
  induction s as [|c t IH]; intros prev x H; simpl in H.
  - destruct (match_here r prev EmptyString) as [y|] eqn:E;
      [|discriminate].
    injection H as <-. now exists prev, EmptyString.
  - destruct (match_here r prev (String c t)) as [y|] eqn:E.
    + injection H as <-. now exists prev, (String c t).
    + now apply IH in H.
Qed.

Lemma findall_from_sound (r : regex) (s : string) :
  forall (skip : nat) (prev : option ascii) (m : string),
    In m (findall_from r skip prev s) ->
    exists prev' s' cap, match_here r prev' s' = Some (m, cap).
Proof.
  induction s as [|c t IH]; intros skip prev m H.
  - destruct skip; simpl in H; [|destruct H].
    destruct (match_here r prev EmptyString) as [[m' cap]|] eqn:E;
      [|destruct H].
    destruct H as [<-|[]]. now exists prev, EmptyString, cap.
  - destruct skip as [|skip]; simpl in H.
    + destruct (match_here r prev (String c t)) as [[m' cap]|] eqn:E.
      * destruct H as [<-|H]; [now exists prev, (String c t), cap|].
        now apply IH in H.
      * now apply IH in H.
    + now apply IH in H.
Qed.

(** What [match_here] reports as the match is what the pattern ran
    over. *)
Lemma match_here_within (q : ascii -> bool) (r : regex)
  (prev : option ascii) (s m : string) (cap : option string) :
  chars_within q r ->
  match_here r prev s = Some (m, cap) ->
  all_chars q m = true /\ exists rest', s = (m ++ rest')%string.
Proof.
  intros Hq H. unfold match_here in H.
  apply (run_within q r Hq) in H as (p1 & t1 & c1 & pre & H & -> & Q).
  injection H as <- _.
  replace (String.length (pre ++ t1) - String.length t1)%nat
    with (String.length pre) by (rewrite append_length; lia).
  rewrite prefix_app. split; [exact Q|]. now exists t1.
Qed.

End ShapeFacts.

(** ** The two dates of the manage-services page *)

Module DateLaws.

Import Models Py Re Shape StripFacts ReFacts ShapeFacts Scraper.

Lemma date_char_is_no_space (c : ascii) :
  is_date_char c = true -> is_space c = false.
Proof.
  destruct c as [[] [] [] [] [] [] [] []]; vm_compute; congruence.
Qed.

Lemma all_chars_rev_string (q : ascii -> bool) (s acc : string) :
  all_chars q (rev_string s acc) = all_chars q s && all_chars q acc.
Proof.
  revert acc. induction s as [|c t IH]; intro acc; simpl; [reflexivity|].
  rewrite IH. simpl. destruct (q c); simpl; [reflexivity|].
  now rewrite andb_false_r.
Qed.

Lemma rev_string_involutive (s : string) :
  rev_string (rev_string s EmptyString) EmptyString = s.
Proof.
  induction s as [|c t IH]; [reflexivity|]. simpl.
  rewrite (rev_string_acc t (String c EmptyString)), rev_string_app.
  simpl. now rewrite IH.
Qed.

Lemma lstrip_date (s : string) :
  all_chars is_date_char s = true -> lstrip s = s.
Proof.
  destruct s as [|c t]; [reflexivity|]. simpl. intro H.
  apply andb_prop in H as [Hc _]. now rewrite (date_char_is_no_space c Hc).
Qed.

(** Stripping does nothing to a text of date characters. *)
Lemma strip_date (s : string) :
  all_chars is_date_char s = true -> strip s = s.
Proof.
  intro H. unfold strip, rstrip. rewrite (lstrip_date s H).
  rewrite lstrip_date; [apply rev_string_involutive|].
  now rewrite all_chars_rev_string, H.
Qed.

Lemma any_date_pattern_within : chars_within is_date_char any_date_pattern.
Proof.
  assert (Hd : forall c, is_ascii_digit c = true -> is_date_char c = true).
  { intros c H. unfold is_date_char. now rewrite H. }
  assert (Hs : forall c,
             Ascii.eqb c "/" || Ascii.eqb c "-" || Ascii.eqb c "." = true ->
             is_date_char c = true).
  { intros c H. unfold is_date_char.
    destruct (is_ascii_digit c); [reflexivity|exact H]. }
  simpl. repeat split; trivial.
Qed.

(** A match that starts with a boundary and one character is not
    empty. *)
Lemma match_here_starts_with_a_character (p : ascii -> bool) (r2 : regex)
  (prev : option ascii) (s m : string) (cap : option string) :
  match_here (Seq Boundary (Seq (Chr p) r2)) prev s = Some (m, cap) ->
  Text.nonempty m = true.
Proof.
  unfold match_here. intro H. cbn [run] in H.
  destruct (xorb _ _); [|discriminate].
  destruct s as [|c t]; [discriminate|].
  destruct (p c); [|discriminate].
  apply run_sound in H as (p1 & t1 & c1 & pre & H & ->).
  replace (String.length (String c (pre ++ t1)) - String.length t1)%nat
    with (String.length (String c pre)) in H
    by (cbn [String.length]; rewrite append_length; lia).
  change (String c (pre ++ t1)) with (String c pre ++ t1)%string in H.
  rewrite prefix_app in H. now injection H as <- _.
Qed.

(** Every date that [findall] reports is a date text. *)
Lemma findall_dates (text d : string) :
  In d (findall any_date_pattern text) -> date_text d.
Proof.
  unfold findall. intro H.
  apply findall_from_sound in H as (prev & s & cap & H). split.
  - unfold any_date_pattern, digit in H.
    exact (match_here_starts_with_a_character _ _ _ _ _ _ H).
  - exact (proj1 (match_here_within is_date_char any_date_pattern prev s d
                    cap any_date_pattern_within H)).
Qed.

(** What the labelled patterns capture, a label followed by
    [\s*([\d/\-\.]+)], is a date text. *)
Lemma labelled_date (label : regex) (text g : string) :
  search_group
    (Seq label (Seq (Star space) (Seq (lit_i "date:")
       (Seq (Star space) (Group (plus date_char)))))) text = Some g ->
  date_text g.
Proof.
  unfold search_group, search.
  destruct (search_from _ None text) as [[m [g'|]]|] eqn:E;
    try discriminate.
  intro H. injection H as ->.
  apply search_from_sound in E as (prev & s & E). unfold match_here in E.
  apply MessageLaws.run_seq_sound in E as (p1 & t1 & c1 & pre1 & E & _).
  apply MessageLaws.run_seq_sound in E as (p2 & t2 & c2 & pre2 & E & _).
  apply MessageLaws.run_seq_sound in E as (p3 & t3 & c3 & pre3 & E & _).
  apply MessageLaws.run_seq_sound in E as (p4 & t4 & c4 & pre4 & E & _).
  unfold date_char in E.
  apply run_group_plus_within in E as (p5 & t5 & g0 & E & Hn & Ha).
  injection E as _ <-. split; [exact Hn|exact Ha].
Qed.

Lemma stripped_date (g : string) : date_text g -> date_text (strip g).
Proof. intros [Hn Ha]. rewrite (strip_date g Ha). now split. Qed.

Ltac date_goal :=
  first [left; reflexivity|right; eexists; split; [reflexivity|assumption]].

(** What [read_service_dates] leaves in the two date fields. *)
Lemma read_service_dates_shape (text : string) (a : AccountData) :
  kept_or_date (subscription_date a)
    (subscription_date (read_service_dates text a))
  /\ kept_or_date (validity_date a)
       (validity_date (read_service_dates text a)).
Proof.
  assert (H1 : match search_group subscription_pattern text with
               | Some g => date_text (strip g)
               | None => True
               end).
  { destruct (search_group subscription_pattern text) as [g|] eqn:E;
      [|exact I].
    exact (stripped_date g (labelled_date (lit_i "Subscription") text g E)). }
  assert (H2 : match search_group validity_pattern text with
               | Some g => date_text (strip g)
               | None => True
               end).
  { destruct (search_group validity_pattern text) as [g|] eqn:E; [|exact I].
    exact (stripped_date g (labelled_date (lit_i "Validity") text g E)). }
  pose proof (findall_dates text) as H3.
  unfold read_service_dates, kept_or_date.
  destruct (search_group subscription_pattern text) as [g1|];
    destruct (search_group validity_pattern text) as [g2|];
    destruct (findall any_date_pattern text) as [|d0 [|d1 l]];
    try (pose proof (H3 d0 (or_introl eq_refl)) as D0);
    try (pose proof (H3 d1 (or_intror (or_introl eq_refl))) as D1);
    cbv zeta;
    repeat match goal with
           | |- context [if ?c then _ else _] => destruct c
           end;
    cbn [subscription_date validity_date set_subscription_date
         set_validity_date];
    split; date_goal.
Qed.

Section Libraries.

Variable repr : value -> string.
Variable find_class_text : string -> string -> option string.
Variable select_one_text : string -> string -> option string.
Variable json_loads : string -> option value.
Variable html_error_text : string -> option string.
Variable debug_listing : string -> option string.

(** What the two HTML pages leave in the two date fields. *)
Lemma extract_html_data_dates (p : pages) (a : AccountData) :
  let r := extract_html_data find_class_text select_one_text p a in
  kept_or_date (subscription_date a) (subscription_date r)
  /\ kept_or_date (validity_date a) (validity_date r).
Proof.
  cbv zeta. unfold extract_html_data.
  set (a1 := match account_page p with
             | Http.Responded response => _
             | _ => add_error_tag "HTML Extraction Error" a
             end).
  assert (H1 : subscription_date a1 = subscription_date a
               /\ validity_date a1 = validity_date a).
  { unfold a1. destruct (account_page p) as [response| | |];
      try (unfold add_error_tag; destruct (Text.nonempty _); now split).
    cbv zeta. destruct (negb _); now split. }
  clearbody a1. destruct H1 as [<- <-].
  unfold extract_manage_services_data.
  assert (Htag : forall t,
             kept_or_date (subscription_date a1)
               (subscription_date (add_error_tag t a1))
             /\ kept_or_date (validity_date a1)
                  (validity_date (add_error_tag t a1))).
  { intro t. unfold add_error_tag.
    destruct (Text.nonempty _); split; now left. }
  destruct (manage_services_page p) as [response| | |]; try apply Htag.
  destruct (Http.raise_for_status response); [apply Htag|].
  destruct (select_one_text _ _) as [element_text|];
    [apply read_service_dates_shape|split; now left].
Qed.

Section Kept.

(** A field [g] that none of the four API stages assigns. *)
Variable g : AccountData -> value.
Hypothesis g_balance : forall v a, g (set_current_balance v a) = g a.
Hypothesis g_numbers : forall v a, g (set_secondary_numbers v a) = g a.
Hypothesis g_main : forall v a, g (set_main_consumption v a) = g a.
Hypothesis g_mobile :
  forall v a, g (set_mobile_internet_consumption v a) = g a.
Hypothesis g_secondary :
  forall v a, g (set_secondary_consumption v a) = g a.
Hypothesis g_days : forall v a, g (set_validity_days_remaining v a) = g a.
Hypothesis g_amount : forall v a, g (set_last_recharge_amount v a) = g a.
Hypothesis g_date : forall v a, g (set_last_recharge_date v a) = g a.
Hypothesis g_services : forall v a, g (set_service_details v a) = g a.
Hypothesis g_error : forall v a, g (set_error_details v a) = g a.

Ltac split_matches H :=
  repeat match type of H with
         | context [match ?x with _ => _ end] => destruct x eqn:?
         end.

Ltac split_all_matches :=
  repeat match goal with
         | H : context [match ?x with _ => _ end] |- _ => destruct x eqn:?
         end.

Ltac use_equations :=
  repeat match goal with
         | H : Ok _ = Ok _ |- _ => injection H as H; try subst
         | H : Err _ = Ok _ |- _ => discriminate H
         end.

Lemma main_consumption_of_detail_keeps (service_name detail : value)
  (a a' : AccountData) :
  main_consumption_of_detail repr service_name detail a = Ok a' ->
  g a' = g a.
Proof.
  unfold main_consumption_of_detail, bind. intro H.
  split_matches H; try discriminate; injection H as <-;
    repeat (rewrite g_mobile || rewrite g_main); reflexivity.
Qed.

Lemma secondary_entry_keeps (u : string) (secondary : value)
  (st st' : consumption_state) :
  secondary_entry repr u secondary st = Ok st' -> g (acc st') = g (acc st).
Proof.
  unfold secondary_entry, bind. intro H.
  split_all_matches; use_equations; cbn [acc with_acc];
    rewrite ?g_mobile; reflexivity.
Qed.

Lemma detail_step_keeps (u : string) (service_name detail : value)
  (st st' : consumption_state) :
  detail_step repr u service_name detail st = Ok st' ->
  g (acc st') = g (acc st).
Proof.
  unfold detail_step, bind. intro H.
  destruct (main_consumption_of_detail repr service_name detail (acc st))
    as [a|e] eqn:Ea; [|discriminate].
  apply main_consumption_of_detail_keeps in Ea.
  assert (Hst : g (acc (with_acc a st)) = g (acc st)) by exact Ea.
  destruct (eq_str service_name "U-share Main");
    [|injection H as <-; exact Hst].
  destruct (get detail "SecondaryValue" (PList [])) as [secondaries|e];
    [|discriminate].
  destruct (truthy secondaries); [|injection H as <-; exact Hst].
  destruct (iter secondaries) as [items|e]; [|discriminate].
  rewrite <- Hst.
  eapply (ScraperProps.fold_res_keeps (secondary_entry repr u)
            (fun s => g (acc s))); [|exact H].
  intros x s s'. apply secondary_entry_keeps.
Qed.

Lemma service_step_keeps (u : string) (service : value)
  (st st' : consumption_state) :
  service_step repr u service st = Ok st' -> g (acc st') = g (acc st).
Proof.
  unfold service_step, bind. intro H.
  destruct (get service "ServiceNameValue" (PStr EmptyString))
    as [service_name|e]; [|discriminate].
  destruct (get service "ServiceDetailsInformationValue" (PList []))
    as [details|e]; [|discriminate].
  destruct (iter details) as [items|e]; [|discriminate].
  eapply (ScraperProps.fold_res_keeps (detail_step repr u service_name)
            (fun s => g (acc s))); [|exact H].
  intros x s s'. apply detail_step_keeps.
Qed.

Lemma consumption_stage_keeps (resp : APIResponse)
  (s : AccountData * list string) :
  g (fst (consumption_stage repr resp s)) = g (fst s).
Proof.
  destruct s as [a errors]. unfold consumption_stage, consumption_failed.
  destruct (success resp && truthy (data resp));
    [|cbn [fst];
      now rewrite g_secondary, g_mobile, g_main, g_numbers, g_balance].
  destruct (consumption_try repr (username a) (data resp) a) as [a'|e] eqn:E;
    [|cbn [fst];
      now rewrite g_secondary, g_mobile, g_main, g_numbers, g_balance].
  cbn [fst]. unfold consumption_try, bind in E.
  destruct (parse_balance (data resp)) as [balance|e]; [|discriminate].
  destruct (get (data resp) "ServiceInformationValue" (PList []))
    as [services|e]; [|discriminate].
  destruct (iter services) as [items|e]; [|discriminate].
  destruct (fold_res _ items _) as [st|e] eqn:Ef; [|discriminate].
  apply (ScraperProps.fold_res_keeps (service_step repr (username a))
           (fun s => g (acc s))) in Ef;
    [|intros x s s'; apply service_step_keeps].
  destruct (strings_of (numbers st)); [|discriminate].
  injection E as <-. rewrite g_secondary, g_numbers, Ef.
  cbn [acc]. apply g_balance.
Qed.

(** [extract_api_data] leaves [g] as it was, however it ends. *)
Lemma extract_api_data_from_keeps (r1 r2 r3 r4 : APIResponse)
  (a : AccountData) :
  g (fst (extract_api_data_from repr r1 r2 r3 r4 a)) = g a.
Proof.
  unfold extract_api_data_from.
  pose proof (consumption_stage_keeps r1 (a, [])) as H1. cbn [fst] in H1.
  destruct (consumption_stage repr r1 (a, [])) as [x1 e1].
  pose proof (PipelineLaws.expiry_stage_writes repr r2 x1 x1 e1 e1) as H2.
  destruct (expiry_stage repr r2 (x1, e1)) as [x2 e2].
  pose proof (PipelineLaws.recharge_stage_writes r3 x2 x2 e2 e2) as H3.
  destruct (recharge_stage r3 (x2, e2)) as [x3 e3].
  pose proof (PipelineLaws.services_stage_writes r4 x3 x3 e3 e3 eq_refl)
    as H4.
  destruct (services_stage r4 (x3, e3)) as [x4 e4].
  cbn [fst snd] in *.
  assert (G2 : g x2 = g a) by (rewrite H2, g_days; exact H1).
  assert (G3 : g x3 = g a) by (rewrite H3, g_date, g_amount; exact G2).
  assert (G4 : g x4 = g a) by (rewrite H4, g_services; exact G3).
  destruct (session_error r1); [|reflexivity].
  destruct (session_error r2); [|exact H1].
  destruct (session_error r3); [|exact G2].
  destruct (session_error r4); [|exact G3].
  cbn [fst]. rewrite PipelineLaws.record_errors_writes, g_error. exact G4.
Qed.

End Kept.

(** X22. Whatever the portal answers, the two dates of the
    manage-services page never hold arbitrary page text: in the record
    of an attempt, [subscription_date] and [validity_date] each read
    "Not Found" or a non-empty text made of digits and the separators
    [/], [-] and [.] only.  No API stage writes to them. *)
Theorem service_dates_are_dates (acquired : Session.result (nat * bool))
  (x : api_exchange) (p : pages) (credentials : AccountCredentials) :
  let a := fst (process_account_with repr find_class_text select_one_text
                  json_loads html_error_text debug_listing acquired x p credentials) in
  kept_or_date (PStr "Not Found") (subscription_date a)
  /\ kept_or_date (PStr "Not Found") (validity_date a).
Proof.
  cbv zeta. unfold process_account_with.
  destruct acquired as [[c b]|msg]; [|split; now left].
  set (a0 := AccountData_new (cred_username credentials)).
  destruct (extract_api_data repr json_loads html_error_text debug_listing x a0
              (cred_password credentials)) as [a' ending] eqn:E.
  assert (Ha : a' = fst (extract_api_data repr json_loads html_error_text debug_listing x
                           a0 (cred_password credentials)))
    by now rewrite E.
  unfold extract_api_data in Ha.
  assert (Hs : subscription_date a' = PStr "Not Found").
  { rewrite Ha.
    now rewrite (extract_api_data_from_keeps subscription_date)
      by (intros; reflexivity). }
  assert (Hv : validity_date a' = PStr "Not Found").
  { rewrite Ha.
    now rewrite (extract_api_data_from_keeps validity_date)
      by (intros; reflexivity). }
  destruct ending as [expired|msg]; cbn [fst].
  - destruct (extract_html_data_dates p a') as [D1 D2]. cbv zeta in D1, D2.
    rewrite Hs in D1. rewrite Hv in D2.
    unfold determine_final_status.
    destruct (has_sentinel _); [destruct (negb _)|];
      cbn [subscription_date validity_date set_status set_error_details];
      now split.
  - unfold unhandled.
    cbn [subscription_date validity_date set_status set_error_details].
    rewrite Hs, Hv. split; now left.
Qed.

End Libraries.

End DateLaws.
